(** * Validated record collections: birthday book, car registry, library

    A shallow embedding of the three record-keeping programs
    (birthday/, car/, library/): the frozen dataclasses of models.py with
    their __post_init__ validation, and the collections of storage.py with
    add, the selections, save and load.

    Conventions.
    - A Python [int] is a [Z]; a Python [str] is a [string] holding its
      UTF-8 bytes (comparing two such strings byte by byte orders them as
      Python orders the code points).
    - A field annotated [str] holds [option string]: load stores the
      [.text] of an element, which ElementTree gives as [None] for an empty
      element, and nothing checks the annotation.
    - A method is a function from the object before the call to the object
      after it and the outcome: [Return v], or [Raise e] for an exception
      that leaves the method.
    - The clock ([datetime.now().year]), the result of [ET.parse] on the
      file named, the builtins [str.lower], [int] and [str], and the order
      in which a sort that raises leaves a list are inputs of the
      functions that read them. *)

From Stdlib Require Import ZArith List String Ascii Bool Lia.
From Stdlib Require Import Sorted Permutation.
From Stdlib Require Import Decimal DecimalString DecimalZ.
Import ListNotations.

#[local] Set Warnings "-register-all".

Open Scope Z_scope.
Open Scope list_scope.

(** * Python values, exceptions and [list.sort] *)

Module Py.

(** The outcome of a call: a value, or an exception of type [E]. *)
Inductive result (E A : Type) : Type :=
| Return (a : A)
| Raise (e : E).
Arguments Return {E A} a.
Arguments Raise {E A} e.

Definition bind {E A B} (r : result E A) (k : A -> result E B) : result E B :=
  match r with
  | Return a => k a
  | Raise e => Raise e
  end.

(** The value of a [str]-annotated field: a string, or [None]. *)
Definition pystr : Type := option string.

(** [f"{x}"] for such a value. *)
Definition format (x : pystr) : string :=
  match x with
  | Some s => s
  | None => "None"%string
  end.

Definition pystr_eqb (a b : pystr) : bool :=
  match a, b with
  | Some s, Some t => String.eqb s t
  | None, None => true
  | _, _ => false
  end.

(** [a < b]; [None] is the TypeError Python raises when an operand is
    [None] ('<' not supported between instances of ...). *)
Definition pystr_lt (a b : pystr) : option bool :=
  match a, b with
  | Some s, Some t => Some (String.ltb s t)
  | _, _ => None
  end.

(** [(a1, a2) < (b1, b2)] on tuples: the first position where the items
    are not [==] decides, by [<] on the items there; equal tuples are not
    less, and no item is compared by [<]. *)
Definition tuple_lt (a b : pystr * pystr) : option bool :=
  if pystr_eqb (fst a) (fst b)
  then if pystr_eqb (snd a) (snd b) then Some false
       else pystr_lt (snd a) (snd b)
  else pystr_lt (fst a) (fst b).

(** [a < b] on ints. *)
Definition int_lt (a b : Z) : option bool := Some (a <? b).

(** The builtins the programs call, whose Unicode and numeral tables are
    not part of this development: [s.lower()], [int(s)] on a [str]
    ([None] is ValueError) and [str(n)] on an [int]; and what the merge
    sort of [list.sort] has done when a comparison raises: [sort_raised]
    gives, for the list as it was, the positions of its items in the
    order the sort leaves them in. *)
Class Builtins : Type := {
  lower : string -> string;
  py_int : string -> option Z;
  py_str : Z -> string;
  sort_raised :
    forall A K : Type,
      (A -> option K) -> (K -> K -> option bool) -> list A -> list nat
}.

(** ** [list.sort(key=...)]

    CPython first calls [key] on every item (for a list of any length); an
    exception there leaves the list as it was.  It then orders the items by
    [<] on the keys, stably.  When every two keys can be ordered, the result
    is the one stable ordering, which insertion from the right computes.
    When two keys cannot be ordered, the sort meets such a pair and the
    TypeError leaves it (a sort that met none would have produced an order
    that is right whichever way the pair is decided); the list then holds
    its items in the order the sort had reached.  For the keys used here
    [a < b] raises exactly when [b < a] does. *)
Section Sort.
Context {A K : Type}.
Variable key : A -> option K.
Variable lt : K -> K -> option bool.

(** [key(y) < key(x)] holds *)
Definition item_lt (y x : A) : bool :=
  match key y, key x with
  | Some ky, Some kx =>
      match lt ky kx with Some b => b | None => false end
  | _, _ => false
  end.

(** [key(y) < key(x)] can be evaluated *)
Definition comparable (y x : A) : bool :=
  match key y, key x with
  | Some ky, Some kx =>
      match lt ky kx with Some _ => true | None => false end
  | _, _ => false
  end.

Fixpoint insert (x : A) (l : list A) : list A :=
  match l with
  | [] => [x]
  | y :: l' => if item_lt y x then y :: insert x l' else x :: y :: l'
  end.

Fixpoint stable_sort (l : list A) : list A :=
  match l with
  | [] => []
  | x :: l' => insert x (stable_sort l')
  end.

Definition has_key (x : A) : bool :=
  match key x with Some _ => true | None => false end.

Fixpoint pairwise_comparable (l : list A) : bool :=
  match l with
  | [] => true
  | x :: l' => forallb (fun y => comparable y x) l' && pairwise_comparable l'
  end.

Inductive sort_result : Type :=
| Sorted_ok (l : list A)
| KeyRaised
| LtRaised.

Definition list_sort (l : list A) : sort_result :=
  if negb (forallb has_key l) then KeyRaised
  else if negb (pairwise_comparable l) then LtRaised
  else Sorted_ok (stable_sort l).

(** [x] may stand before [y]: [key(y) < key(x)] evaluates to False. *)
Definition key_le (x y : A) : Prop :=
  exists kx ky, key x = Some kx /\ key y = Some ky /\ lt ky kx = Some false.

Definition sorted_by (l : list A) : Prop := StronglySorted key_le l.
End Sort.

(** [(a1, a2) < (b1, b2)] on tuples of two ints: the first position where
    the items differ decides. *)
Definition int_tuple_lt (a b : Z * Z) : bool :=
  if negb (fst a =? fst b) then fst a <? fst b
  else if negb (snd a =? snd b) then snd a <? snd b
  else false.

(** [needle in s] on strings: [needle] occurs in [s] at some position. *)
Fixpoint contains (needle s : string) : bool :=
  String.prefix needle s
  || match s with
     | EmptyString => false
     | String _ s' => contains needle s'
     end.

(** [[x for x in l if cond(x)]], and the loop that appends the items that
    meet [cond]; an exception of [cond] ends it. *)
Fixpoint comprehension {E A : Type} (cond : A -> result E bool) (l : list A)
  : result E (list A) :=
  match l with
  | [] => Return []
  | x :: l' =>
      bind (cond x) (fun keep =>
      bind (comprehension cond l') (fun rest =>
      Return (if keep then x :: rest else rest)))
  end.

Fixpoint nodupb (l : list nat) : bool :=
  match l with
  | [] => true
  | i :: l' => negb (existsb (Nat.eqb i) l') && nodupb l'
  end.

(** [positions] names every position of a list of [n] items once. *)
Definition is_arrangement (n : nat) (positions : list nat) : bool :=
  Nat.eqb (List.length positions) n
  && forallb (fun i => Nat.ltb i n) positions
  && nodupb positions.

(** The list a sort that raised leaves: the items of [l], in the order of
    [positions].  Python fixes of that list only that it holds the items
    of [l]; positions that do not name every item once leave [l]. *)
Definition arrange {A : Type} (l : list A) (positions : list nat) : list A :=
  if is_arrangement (List.length l) positions
  then flat_map (fun i => match nth_error l i with
                          | Some x => [x]
                          | None => []
                          end) positions
  else l.

(** [s.strip()], whose table of white space is not part of this
    development. *)
Class Strip : Type := {
  strip : string -> string
}.

End Py.

(** * xml.etree.ElementTree, as far as the programs use it *)

Module ET.

Inductive Element : Type :=
| mkElement (tag : string) (text : option string) (children : list Element).

Definition tag (e : Element) : string :=
  match e with mkElement t _ _ => t end.

Definition text (e : Element) : option string :=
  match e with mkElement _ x _ => x end.

Definition children (e : Element) : list Element :=
  match e with mkElement _ _ c => c end.

(** [e.find(name)]: the first direct child with that tag, or [None]. *)
Definition find (name : string) (e : Element) : option Element :=
  List.find (fun c => String.eqb (tag c) name) (children e).

(** [e.findall(name)]: the direct children with that tag, in order. *)
Definition findall (name : string) (e : Element) : list Element :=
  List.filter (fun c => String.eqb (tag c) name) (children e).

(** [ET.SubElement(parent, name).text = x], for a leaf. *)
Definition leaf (name : string) (x : option string) : Element :=
  mkElement name x [].

(** The errors of [open(filename, "rb")] other than FileNotFoundError:
    NotADirectoryError when a directory of the path is a regular file (no
    file is at the path then either), IsADirectoryError when the path is
    a directory, PermissionError, and any other OSError. *)
Inductive os_error : Type :=
| NotADirectoryError
| IsADirectoryError
| PermissionError
| OtherOSError.

(** What [ET.parse(filename)] did.  It raised FileNotFoundError (no file
    at the path, in a directory that exists) or ParseError (the content
    is not well-formed; [e] is the text of the error), the two exceptions
    [load] handles; or it returned the tree whose root [getroot()]
    gives; or it raised another exception: an OSError of [open],
    LookupError for an encoding declaration that names no known
    encoding, ValueError for one that names a multi-byte encoding the
    parser does not support (or for a path with a null character). *)
Inductive parsed : Type :=
| FileNotFoundError
| ParseError (e : string)
| Tree (root : Element)
| OSError (kind : os_error)
| LookupError
| ValueError.

(** ** A file written by [tree.write] and read again by [ET.parse]

    The writer escapes [&], [<] and [>] and writes every other character as
    it is; an element without text or with empty text is written [<tag />].
    The reader gives [None] for the text of such an element, refuses
    what is no character of XML 1.0 (a control character other than tab,
    line feed and carriage return, a surrogate, U+FFFE and U+FFFF), and
    turns a carriage return (with the line feed after it, if any) into a
    line feed.  Strings are the UTF-8 bytes of the text. *)

Definition control_char (c : ascii) : bool :=
  let n := N_of_ascii c in
  (n <? 32)%N && negb ((n =? 9)%N || (n =? 10)%N || (n =? 13)%N).

(** The bytes ED A0..BF begin a surrogate (U+D800 to U+DFFF); the bytes
    EF BF BE and EF BF BF are U+FFFE and U+FFFF. *)
Definition starts_noncharacter (c : ascii) (s' : string) : bool :=
  match s' with
  | String c1 s'' =>
      ((N_of_ascii c =? 237)%N && (160 <=? N_of_ascii c1)%N)
      || ((N_of_ascii c =? 239)%N && (N_of_ascii c1 =? 191)%N
          && match s'' with
             | String c2 _ =>
                 (N_of_ascii c2 =? 190)%N || (N_of_ascii c2 =? 191)%N
             | EmptyString => false
             end)
  | EmptyString => false
  end.

(** [s] holds something that is no character of XML 1.0. *)
Fixpoint has_forbidden_char (s : string) : bool :=
  match s with
  | EmptyString => false
  | String c s' =>
      control_char c || starts_noncharacter c s' || has_forbidden_char s'
  end.

Definition CR : ascii := ascii_of_N 13.
Definition LF : ascii := ascii_of_N 10.

Fixpoint normalize_newlines (s : string) : string :=
  match s with
  | EmptyString => EmptyString
  | String c s' =>
      if Ascii.eqb c CR then
        match s' with
        | String c' s'' =>
            if Ascii.eqb c' LF then String LF (normalize_newlines s'')
            else String LF (normalize_newlines s')
        | EmptyString => String LF EmptyString
        end
      else String c (normalize_newlines s')
  end.

Definition reread_text (x : option string) : option string :=
  match x with
  | None => None
  | Some EmptyString => None
  | Some s => Some (normalize_newlines s)
  end.

Fixpoint well_formed (e : Element) : bool :=
  match e with
  | mkElement _ x c =>
      match x with Some s => negb (has_forbidden_char s) | None => true end
      && forallb well_formed c
  end.

Fixpoint reread_tree (e : Element) : Element :=
  match e with
  | mkElement t x c => mkElement t (reread_text x) (List.map reread_tree c)
  end.

(** [None]: the file written is not well-formed, [ET.parse] raises
    ParseError. *)
Definition reread (e : Element) : option Element :=
  if well_formed e then Some (reread_tree e) else None.

(** Text that is read back as it was written. *)
Definition plain_text (s : string) : bool :=
  negb (String.eqb s EmptyString)
  && negb (has_forbidden_char s)
  && String.eqb (normalize_newlines s) s.

(** Every child of [e] has text: none was written [<tag />]. *)
Definition all_text (e : Element) : bool :=
  forallb (fun c => match text c with Some _ => true | None => false end)
    (children e).

End ET.

(** * birthday/models.py and birthday/storage.py *)

Module Birthday.
Import Py.

Inductive exn : Type :=
| InvalidMonthError (month : Z) (message : string)
| InvalidDateError (day month year : Z) (message : string)
| DataFormatError (filename message : string)
| AttributeError
| ValueError
| TypeError
| OSError (kind : ET.os_error)
| LookupError.

(** The default of [InvalidMonthError.__init__]'s [message]. *)
Definition invalid_month_message : string := "Недопустимый номер месяца".

Record Person : Type := mkPerson {
  last_name : pystr;
  first_name : pystr;
  phone : pystr;
  day : Z;
  month : Z;
  year : Z
}.

Section WithBuiltins.
Context {B : Builtins}.

Definition _get_days_in_month (self : Person) : Z :=
  if month self =? 2 then
    if ((year self mod 4 =? 0) && negb (year self mod 100 =? 0))
       || (year self mod 400 =? 0)
    then 29
    else 28
  else if existsb (Z.eqb (month self)) [4; 6; 9; 11] then 30
  else 31.

(** [current_year] is [datetime.now().year] at the call. *)
Definition __post_init__ (current_year : Z) (self : Person) : result exn unit :=
  if (year self <? 1900) || (year self >? current_year) then
    Raise (InvalidDateError (day self) (month self) (year self)
             ("Год должен быть в диапазоне 1900-" ++ py_str current_year)%string)
  else if (month self <? 1) || (month self >? 12) then
    Raise (InvalidMonthError (month self) invalid_month_message)
  else
    let days_in_month := _get_days_in_month self in
    if (day self <? 1) || (day self >? days_in_month) then
      Raise (InvalidDateError (day self) (month self) (year self)
               ("День должен быть в диапазоне 1-" ++ py_str days_in_month
                ++ " для месяца " ++ py_str (month self))%string)
    else Return tt.

(** [Person(last_name=..., ..., year=...)]: the generated [__init__]
    stores the fields and calls [__post_init__]. *)
Definition new_Person (current_year : Z)
    (last_name first_name phone : pystr) (day month year : Z)
  : result exn Person :=
  let self := mkPerson last_name first_name phone day month year in
  bind (__post_init__ current_year self) (fun _ => Return self).

Definition birthday_in_month (self : Person) (m : Z) : bool :=
  month self =? m.

Record BirthdayBook : Type := mkBirthdayBook { people : list Person }.

(** [lambda p: (p.last_name.lower(), p.first_name.lower())]; [None] is
    the AttributeError of [None.lower()]. *)
Definition sort_key (p : Person) : option (string * string) :=
  match last_name p, first_name p with
  | Some l, Some f => Some (lower l, lower f)
  | _, _ => None
  end.

(** [<] on tuples of two strings. *)
Definition key_lt (a b : string * string) : option bool :=
  tuple_lt (Some (fst a), Some (snd a)) (Some (fst b), Some (snd b)).

(** [self.people.sort(key=...)] on the list given; the exception of a
    failed sort and the list it leaves: the list as it was when the key
    function raised, an arrangement of it when a comparison raised. *)
Definition sort_people (l : list Person) : BirthdayBook * result exn unit :=
  match list_sort sort_key key_lt l with
  | Sorted_ok l' => (mkBirthdayBook l', Return tt)
  | KeyRaised => (mkBirthdayBook l, Raise AttributeError)
  | LtRaised =>
      (mkBirthdayBook (arrange l (sort_raised _ _ sort_key key_lt l)),
       Raise TypeError)
  end.

Definition add (current_year : Z) (self : BirthdayBook)
    (last_name first_name phone : string) (day month year : Z)
  : BirthdayBook * result exn unit :=
  if (month <? 1) || (month >? 12) then
    (self, Raise (InvalidMonthError month invalid_month_message))
  else
    match new_Person current_year (Some last_name) (Some first_name)
            (Some phone) day month year with
    | Raise e => (self, Raise e)
    | Return person => sort_people (people self ++ [person])
    end.

(** The filter leaves the book as it is; the day is an int, so the sort
    of the result cannot raise. *)
Definition filter_by_month (self : BirthdayBook) (month : Z)
  : BirthdayBook * result exn (list Person) :=
  if (month <? 1) || (month >? 12) then
    (self, Raise (InvalidMonthError month invalid_month_message))
  else
    let result := filter (fun person => birthday_in_month person month)
                    (people self) in
    (self, Return (stable_sort (fun p => Some (day p)) int_lt result)).

(** The tree [save] hands to [tree.write]. *)
Definition person_element (person : Person) : ET.Element :=
  ET.mkElement "person" None
    [ ET.leaf "last_name" (last_name person);
      ET.leaf "first_name" (first_name person);
      ET.leaf "phone" (phone person);
      ET.leaf "day" (Some (py_str (day person)));
      ET.leaf "month" (Some (py_str (month person)));
      ET.leaf "year" (Some (py_str (year person))) ].

Definition save_tree (self : BirthdayBook) : ET.Element :=
  ET.mkElement "birthdays" None (map person_element (people self)).

(** [write_error] is the exception [tree.write] raised, if any.  The
    book is not changed; the outcome carries the tree written. *)
Definition save (self : BirthdayBook) (filename : string)
    (write_error : option string) : result exn ET.Element :=
  match write_error with
  | None => Return (save_tree self)
  | Some e =>
      Raise (DataFormatError filename
               ("Ошибка при сохранении в файл " ++ filename ++ ": " ++ e)%string)
  end.

(** [element.find(name).text]: AttributeError when there is no such
    child. *)
Definition field_text (name : string) (e : ET.Element) : result exn pystr :=
  match ET.find name e with
  | Some c => Return (ET.text c)
  | None => Raise AttributeError
  end.

(** [int(element.find(name).text)]: [int(None)] is a TypeError, a string
    that is no numeral a ValueError. *)
Definition field_int (name : string) (e : ET.Element) : result exn Z :=
  bind (field_text name e) (fun x =>
    match x with
    | None => Raise TypeError
    | Some s =>
        match py_int s with
        | Some n => Return n
        | None => Raise ValueError
        end
    end).

(** The body of the inner [try] of [load]. *)
Definition load_entry (current_year : Z) (person_element : ET.Element)
  : result exn Person :=
  bind (field_text "last_name" person_element) (fun last_name =>
  bind (field_text "first_name" person_element) (fun first_name =>
  bind (field_text "phone" person_element) (fun phone =>
  bind (field_int "day" person_element) (fun day =>
  bind (field_int "month" person_element) (fun month =>
  bind (field_int "year" person_element) (fun year =>
  new_Person current_year last_name first_name phone day month year)))))).

(** [except (AttributeError, ValueError, InvalidDateError,
    InvalidMonthError)] *)
Definition caught (e : exn) : bool :=
  match e with
  | AttributeError | ValueError => true
  | InvalidDateError _ _ _ _ | InvalidMonthError _ _ => true
  | DataFormatError _ _ | TypeError | OSError _ | LookupError => false
  end.

(** The [for] loop of [load], from the state [(loaded_people, errors)];
    an exception the inner [try] does not catch ends it. *)
Fixpoint load_loop (current_year : Z) (elements : list ET.Element)
    (loaded_people : list Person) (errors : Z)
  : result exn (list Person * Z) :=
  match elements with
  | [] => Return (loaded_people, errors)
  | person_element :: rest =>
      match load_entry current_year person_element with
      | Return person =>
          load_loop current_year rest (loaded_people ++ [person]) errors
      | Raise e =>
          if caught e then load_loop current_year rest loaded_people (errors + 1)
          else Raise e
      end
  end.

(** [load]; its value is what it reports: the number of records loaded
    and the number of entries skipped. *)
Definition load (current_year : Z) (self : BirthdayBook) (filename : string)
    (file : ET.parsed) : BirthdayBook * result exn (Z * Z) :=
  match file with
  | ET.Tree root =>
      match load_loop current_year (ET.findall "person" root) [] 0 with
      | Raise e => (self, Raise e)
      | Return (loaded_people, errors) =>
          match sort_people loaded_people with
          | (self', Return _) =>
              (self', Return (Z.of_nat (List.length (people self')), errors))
          | (self', Raise e) => (self', Raise e)
          end
      end
  | ET.ParseError e =>
      (self, Raise (DataFormatError filename
               ("Ошибка парсинга XML файла " ++ filename ++ ": " ++ e)%string))
  | ET.FileNotFoundError =>
      (self, Raise (DataFormatError filename
               ("Файл не найден: " ++ filename)%string))
  | ET.OSError kind => (self, Raise (OSError kind))
  | ET.LookupError => (self, Raise LookupError)
  | ET.ValueError => (self, Raise ValueError)
  end.

(** The books a session can hold when every call so far returned: a new
    book, then calls of [add] and [load] that did not raise, each at its
    own clock reading and on its own file. *)
Inductive reachable_ok : BirthdayBook -> Prop :=
| reach_new : reachable_ok (mkBirthdayBook [])
| reach_add current_year self last_name first_name phone day month year self' :
    reachable_ok self ->
    add current_year self last_name first_name phone day month year
      = (self', Return tt) ->
    reachable_ok self'
| reach_load current_year self filename file self' report :
    reachable_ok self ->
    load current_year self filename file = (self', Return report) ->
    reachable_ok self'.

(** The order [add] and [load] sort by. *)
Definition sorted (self : BirthdayBook) : Prop :=
  sorted_by sort_key key_lt (people self).

(** A record [Person(...)] accepts at the clock reading given. *)
Definition valid (current_year : Z) (p : Person) : Prop :=
  __post_init__ current_year p = Return tt.

(** Its string fields hold text that a file gives back unchanged. *)
Definition plain (p : Person) : bool :=
  match last_name p, first_name p, phone p with
  | Some l, Some f, Some t =>
      ET.plain_text l && ET.plain_text f && ET.plain_text t
  | _, _, _ => false
  end.

(** The property [age]; [today] is [datetime.now()] at the call, as
    (year, month, day). *)
Definition age (today : Z * Z * Z) (self : Person) : Z :=
  let '(today_year, today_month, today_day) := today in
  let age := today_year - year self in
  if int_tuple_lt (today_month, today_day) (month self, day self)
  then age - 1
  else age.

(** The books a session can hold up to the year [now]: a new book, then
    calls of [add] and [load], whether they return or raise, each at a
    clock reading that is not after [now]. *)
Inductive reachable (now : Z) : BirthdayBook -> Prop :=
| start : reachable now (mkBirthdayBook [])
| after_add current_year self last_name first_name phone day month year :
    current_year <= now ->
    reachable now self ->
    reachable now
      (fst (add current_year self last_name first_name phone day month year))
| after_load current_year self filename file :
    current_year <= now ->
    reachable now self ->
    reachable now (fst (load current_year self filename file)).

(** Dates as (year, month, day), in the order of the calendar. *)
Definition date_lt (a b : Z * Z * Z) : Prop :=
  let '(y1, m1, d1) := a in
  let '(y2, m2, d2) := b in
  y1 < y2 \/ (y1 = y2 /\ (m1 < m2 \/ (m1 = m2 /\ d1 < d2))).

Definition date_le (a b : Z * Z * Z) : Prop := a = b \/ date_lt a b.

(** What [filter_by_month] returns, and nothing when it raises. *)
Definition born_in (self : BirthdayBook) (month : Z) : list Person :=
  match snd (filter_by_month self month) with
  | Return result => result
  | Raise _ => []
  end.

(** The records of the entries that the inner [try] of [load] takes. *)
Definition accepted (current_year : Z) (elements : list ET.Element)
  : list Person :=
  flat_map (fun person_element =>
              match load_entry current_year person_element with
              | Return person => [person]
              | Raise _ => []
              end) elements.

End WithBuiltins.

End Birthday.

(** * car/models.py and car/storage.py *)

Module Car.
Import Py.

Inductive exn : Type :=
| SpeedLimitExceededError (current_speed max_speed : Z) (car_info message : string)
| InvalidSpeedError (speed : Z) (message : string)
| DataFormatError (filename message : string)
| AttributeError
| ValueError
| TypeError
| OSError (kind : ET.os_error)
| LookupError.

Record Car : Type := mkCar {
  brand : pystr;
  model : pystr;
  license_plate : pystr;
  max_speed : Z;
  current_speed : Z
}.

Section WithBuiltins.
Context {B : Builtins}.

(** [SpeedLimitExceededError(current_speed, max_speed, car_info)]: its
    [__init__] builds the message from [max_speed]. *)
Definition speed_limit_exceeded (current_speed max_speed : Z)
    (car_info : string) : exn :=
  SpeedLimitExceededError current_speed max_speed car_info
    ("Превышена максимальная скорость " ++ py_str max_speed ++ " км/ч")%string.

Definition __post_init__ (self : Car) : result exn unit :=
  if max_speed self <=? 0 then
    Raise (InvalidSpeedError (max_speed self)
             "Максимальная скорость должна быть положительной")
  else if current_speed self <? 0 then
    Raise (InvalidSpeedError (current_speed self)
             "Текущая скорость не может быть отрицательной")
  else if current_speed self >? max_speed self then
    Raise (speed_limit_exceeded (current_speed self) (max_speed self)
             (format (brand self) ++ " " ++ format (model self)
              ++ " (" ++ format (license_plate self) ++ ")")%string)
  else Return tt.

Definition new_Car (brand model license_plate : pystr)
    (max_speed current_speed : Z) : result exn Car :=
  let self := mkCar brand model license_plate max_speed current_speed in
  bind (__post_init__ self) (fun _ => Return self).

Definition speed_status (self : Car) : string :=
  if current_speed self >? max_speed self then "ПРЕВЫШЕНИЕ"
  else if current_speed self =? 0 then "ОСТАНОВЛЕН"
  else "В ПРЕДЕЛАХ".

Definition is_speeding (self : Car) : bool :=
  current_speed self >? max_speed self.

Record CarRegistry : Type := mkCarRegistry { cars : list Car }.

(** [lambda car: (car.brand, car.model)] *)
Definition sort_key (car : Car) : option (pystr * pystr) :=
  Some (brand car, model car).

(** [self.cars.sort(key=...)] on the list given.  When a comparison
    raises, the sort leaves an arrangement of the list. *)
Definition sort_cars (l : list Car) : CarRegistry * result exn unit :=
  match list_sort sort_key tuple_lt l with
  | Sorted_ok l' => (mkCarRegistry l', Return tt)
  | KeyRaised => (mkCarRegistry l, Raise AttributeError)
  | LtRaised =>
      (mkCarRegistry (arrange l (sort_raised _ _ sort_key tuple_lt l)),
       Raise TypeError)
  end.

Definition add (self : CarRegistry) (brand model license_plate : string)
    (max_speed current_speed : Z) : CarRegistry * result exn unit :=
  match new_Car (Some brand) (Some model) (Some license_plate)
          max_speed current_speed with
  | Raise e => (self, Raise e)
  | Return car => sort_cars (cars self ++ [car])
  end.

(** [reverse=True] orders by [>] and keeps equal keys in their order. *)
Definition select_speeding (self : CarRegistry) : CarRegistry * list Car :=
  let result := filter is_speeding (cars self) in
  (self, stable_sort (fun car => Some (current_speed car))
           (fun a b => int_lt b a) result).

Definition car_element (car : Car) : ET.Element :=
  ET.mkElement "car" None
    [ ET.leaf "brand" (brand car);
      ET.leaf "model" (model car);
      ET.leaf "license_plate" (license_plate car);
      ET.leaf "max_speed" (Some (py_str (max_speed car)));
      ET.leaf "current_speed" (Some (py_str (current_speed car))) ].

Definition save_tree (self : CarRegistry) : ET.Element :=
  ET.mkElement "cars" None (map car_element (cars self)).

Definition save (self : CarRegistry) (filename : string)
    (write_error : option string) : result exn ET.Element :=
  match write_error with
  | None => Return (save_tree self)
  | Some e =>
      Raise (DataFormatError filename
               ("Ошибка при сохранении в файл " ++ filename ++ ": " ++ e)%string)
  end.

Definition field_text (name : string) (e : ET.Element) : result exn pystr :=
  match ET.find name e with
  | Some c => Return (ET.text c)
  | None => Raise AttributeError
  end.

Definition field_int (name : string) (e : ET.Element) : result exn Z :=
  bind (field_text name e) (fun x =>
    match x with
    | None => Raise TypeError
    | Some s =>
        match py_int s with
        | Some n => Return n
        | None => Raise ValueError
        end
    end).

Definition load_entry (car_element : ET.Element) : result exn Car :=
  bind (field_text "brand" car_element) (fun brand =>
  bind (field_text "model" car_element) (fun model =>
  bind (field_text "license_plate" car_element) (fun license_plate =>
  bind (field_int "max_speed" car_element) (fun max_speed =>
  bind (field_int "current_speed" car_element) (fun current_speed =>
  new_Car brand model license_plate max_speed current_speed))))).

(** [except (AttributeError, ValueError, InvalidSpeedError,
    SpeedLimitExceededError)] *)
Definition caught (e : exn) : bool :=
  match e with
  | AttributeError | ValueError => true
  | InvalidSpeedError _ _ | SpeedLimitExceededError _ _ _ _ => true
  | DataFormatError _ _ | TypeError | OSError _ | LookupError => false
  end.

Fixpoint load_loop (elements : list ET.Element)
    (loaded_cars : list Car) (errors : Z) : result exn (list Car * Z) :=
  match elements with
  | [] => Return (loaded_cars, errors)
  | car_element :: rest =>
      match load_entry car_element with
      | Return car => load_loop rest (loaded_cars ++ [car]) errors
      | Raise e =>
          if caught e then load_loop rest loaded_cars (errors + 1)
          else Raise e
      end
  end.

Definition load (self : CarRegistry) (filename : string)
    (file : ET.parsed) : CarRegistry * result exn (Z * Z) :=
  match file with
  | ET.Tree root =>
      match load_loop (ET.findall "car" root) [] 0 with
      | Raise e => (self, Raise e)
      | Return (loaded_cars, errors) =>
          match sort_cars loaded_cars with
          | (self', Return _) =>
              (self', Return (Z.of_nat (List.length (cars self')), errors))
          | (self', Raise e) => (self', Raise e)
          end
      end
  | ET.ParseError e =>
      (self, Raise (DataFormatError filename
               ("Ошибка парсинга XML файла " ++ filename ++ ": " ++ e)%string))
  | ET.FileNotFoundError =>
      (self, Raise (DataFormatError filename
               ("Файл не найден: " ++ filename)%string))
  | ET.OSError kind => (self, Raise (OSError kind))
  | ET.LookupError => (self, Raise LookupError)
  | ET.ValueError => (self, Raise ValueError)
  end.

Inductive reachable_ok : CarRegistry -> Prop :=
| reach_new : reachable_ok (mkCarRegistry [])
| reach_add self brand model license_plate max_speed current_speed self' :
    reachable_ok self ->
    add self brand model license_plate max_speed current_speed
      = (self', Return tt) ->
    reachable_ok self'
| reach_load self filename file self' report :
    reachable_ok self ->
    load self filename file = (self', Return report) ->
    reachable_ok self'.

(** The registries a session can hold: a new registry, then calls of
    [add] and [load], whether they return or raise. *)
Inductive reachable : CarRegistry -> Prop :=
| start : reachable (mkCarRegistry [])
| after_add self brand model license_plate max_speed current_speed :
    reachable self ->
    reachable (fst (add self brand model license_plate max_speed current_speed))
| after_load self filename file :
    reachable self ->
    reachable (fst (load self filename file)).

Definition sorted (self : CarRegistry) : Prop :=
  sorted_by sort_key tuple_lt (cars self).

Definition valid (c : Car) : Prop := __post_init__ c = Return tt.

(** The car does not exceed its limit. *)
Definition within_limit (c : Car) : Prop := current_speed c <= max_speed c.

Definition plain (c : Car) : bool :=
  match brand c, model c, license_plate c with
  | Some b, Some m, Some l =>
      ET.plain_text b && ET.plain_text m && ET.plain_text l
  | _, _, _ => false
  end.

(** [__str__] of the exceptions of car/models.py; the builtin exceptions
    have none in these files. *)
Definition __str__ (e : exn) : option string :=
  match e with
  | SpeedLimitExceededError current_speed _ car_info message =>
      if negb (String.eqb car_info "")
      then Some (car_info ++ ": " ++ py_str current_speed ++ " -> " ++ message)%string
      else Some (py_str current_speed ++ " -> " ++ message)%string
  | InvalidSpeedError speed message =>
      Some (py_str speed ++ " -> " ++ message)%string
  | DataFormatError filename message =>
      Some (filename ++ " -> " ++ message)%string
  | AttributeError | ValueError | TypeError | OSError _ | LookupError => None
  end.

(** [type(e).__name__]: the class of the exception. *)
Definition type_name (e : exn) : string :=
  match e with
  | SpeedLimitExceededError _ _ _ _ => "SpeedLimitExceededError"
  | InvalidSpeedError _ _ => "InvalidSpeedError"
  | DataFormatError _ _ => "DataFormatError"
  | AttributeError => "AttributeError"
  | ValueError => "ValueError"
  | TypeError => "TypeError"
  | OSError ET.NotADirectoryError => "NotADirectoryError"
  | OSError ET.IsADirectoryError => "IsADirectoryError"
  | OSError ET.PermissionError => "PermissionError"
  | OSError ET.OtherOSError => "OSError"
  | LookupError => "LookupError"
  end.

Definition STANDARD_MAX_SPEED : Z := 200.

(** [check_speed]: the registry is not read. *)
Definition check_speed (self : CarRegistry) (speed : Z) : result exn string :=
  if speed >? STANDARD_MAX_SPEED then
    Raise (speed_limit_exceeded speed STANDARD_MAX_SPEED "")
  else
    Return ("Скорость " ++ py_str speed ++ " км/ч в пределах нормы ("
            ++ py_str STANDARD_MAX_SPEED ++ " км/ч).")%string.

Definition accepted (elements : list ET.Element) : list Car :=
  flat_map (fun car_element =>
              match load_entry car_element with
              | Return car => [car]
              | Raise _ => []
              end) elements.

Context {S : Strip}.

(** [car.brand.lower()]: AttributeError when the brand is [None]. *)
Definition brand_matches (brand_lower : string) (car : Car)
  : result exn bool :=
  match brand car with
  | Some b => Return (contains brand_lower (lower b))
  | None => Raise AttributeError
  end.

Definition select_by_brand (self : CarRegistry) (brand : string)
  : result exn (list Car) :=
  let brand_lower := lower (strip brand) in
  comprehension (brand_matches brand_lower) (cars self).

End WithBuiltins.

End Car.

(** * library/models.py and library/storage.py *)

Module Library.
Import Py.

Inductive exn : Type :=
| InvalidInputError (value : Z) (message : string)
| DataFormatError (filename message : string)
| AttributeError
| ValueError
| TypeError
| OSError (kind : ET.os_error)
| LookupError.

Record Book : Type := mkBook {
  title : pystr;
  author : pystr;
  year : Z;
  genre : pystr;
  pages : Z
}.

Section WithBuiltins.
Context {B : Builtins}.

(** The local [current_year = 2024  # Текущий год] of [__post_init__]. *)
Definition current_year : Z := 2024.

Definition __post_init__ (self : Book) : result exn unit :=
  if (year self <? 0) || (year self >? current_year) then
    Raise (InvalidInputError (year self)
             ("Год издания должен быть в диапазоне 0-" ++ py_str current_year)%string)
  else if pages self <=? 0 then
    Raise (InvalidInputError (pages self)
             "Количество страниц должно быть положительным")
  else Return tt.

Definition new_Book (title author : pystr) (year : Z) (genre : pystr)
    (pages : Z) : result exn Book :=
  let self := mkBook title author year genre pages in
  bind (__post_init__ self) (fun _ => Return self).

Record Library : Type := mkLibrary { books : list Book }.

(** [lambda book: book.title] *)
Definition sort_key (book : Book) : option pystr := Some (title book).

(** [self.books.sort(key=...)] on the list given.  When a comparison
    raises, the sort leaves an arrangement of the list. *)
Definition sort_books (l : list Book) : Library * result exn unit :=
  match list_sort sort_key pystr_lt l with
  | Sorted_ok l' => (mkLibrary l', Return tt)
  | KeyRaised => (mkLibrary l, Raise AttributeError)
  | LtRaised =>
      (mkLibrary (arrange l (sort_raised _ _ sort_key pystr_lt l)),
       Raise TypeError)
  end.

Definition add (self : Library) (title author : string) (year : Z)
    (genre : string) (pages : Z) : Library * result exn unit :=
  match new_Book (Some title) (Some author) year (Some genre) pages with
  | Raise e => (self, Raise e)
  | Return book => sort_books (books self ++ [book])
  end.

Definition book_element (book : Book) : ET.Element :=
  ET.mkElement "book" None
    [ ET.leaf "title" (title book);
      ET.leaf "author" (author book);
      ET.leaf "year" (Some (py_str (year book)));
      ET.leaf "genre" (genre book);
      ET.leaf "pages" (Some (py_str (pages book))) ].

Definition save_tree (self : Library) : ET.Element :=
  ET.mkElement "library" None (map book_element (books self)).

Definition save (self : Library) (filename : string)
    (write_error : option string) : result exn ET.Element :=
  match write_error with
  | None => Return (save_tree self)
  | Some e =>
      Raise (DataFormatError filename
               ("Ошибка при сохранении в файл " ++ filename ++ ": " ++ e)%string)
  end.

Definition field_text (name : string) (e : ET.Element) : result exn pystr :=
  match ET.find name e with
  | Some c => Return (ET.text c)
  | None => Raise AttributeError
  end.

Definition field_int (name : string) (e : ET.Element) : result exn Z :=
  bind (field_text name e) (fun x =>
    match x with
    | None => Raise TypeError
    | Some s =>
        match py_int s with
        | Some n => Return n
        | None => Raise ValueError
        end
    end).

Definition load_entry (book_element : ET.Element) : result exn Book :=
  bind (field_text "title" book_element) (fun title =>
  bind (field_text "author" book_element) (fun author =>
  bind (field_int "year" book_element) (fun year =>
  bind (field_text "genre" book_element) (fun genre =>
  bind (field_int "pages" book_element) (fun pages =>
  new_Book title author year genre pages))))).

(** [except (AttributeError, ValueError)] *)
Definition caught (e : exn) : bool :=
  match e with
  | AttributeError | ValueError => true
  | InvalidInputError _ _ | DataFormatError _ _ | TypeError => false
  | OSError _ | LookupError => false
  end.

(** The loop keeps no count of the entries it skips. *)
Fixpoint load_loop (elements : list ET.Element) (loaded_books : list Book)
  : result exn (list Book) :=
  match elements with
  | [] => Return loaded_books
  | book_element :: rest =>
      match load_entry book_element with
      | Return book => load_loop rest (loaded_books ++ [book])
      | Raise e =>
          if caught e then load_loop rest loaded_books
          else Raise e
      end
  end.

(** [load]; its value is what it reports: the number of books loaded. *)
Definition load (self : Library) (filename : string) (file : ET.parsed)
  : Library * result exn Z :=
  match file with
  | ET.Tree root =>
      match load_loop (ET.findall "book" root) [] with
      | Raise e => (self, Raise e)
      | Return loaded_books =>
          match sort_books loaded_books with
          | (self', Return _) =>
              (self', Return (Z.of_nat (List.length (books self'))))
          | (self', Raise e) => (self', Raise e)
          end
      end
  | ET.ParseError e =>
      (self, Raise (DataFormatError filename
               ("Ошибка парсинга XML файла " ++ filename ++ ": " ++ e)%string))
  | ET.FileNotFoundError =>
      (self, Raise (DataFormatError filename
               ("Файл не найден: " ++ filename)%string))
  | ET.OSError kind => (self, Raise (OSError kind))
  | ET.LookupError => (self, Raise LookupError)
  | ET.ValueError => (self, Raise ValueError)
  end.

Inductive reachable_ok : Library -> Prop :=
| reach_new : reachable_ok (mkLibrary [])
| reach_add self title author year genre pages self' :
    reachable_ok self ->
    add self title author year genre pages = (self', Return tt) ->
    reachable_ok self'
| reach_load self filename file self' report :
    reachable_ok self ->
    load self filename file = (self', Return report) ->
    reachable_ok self'.

Definition sorted (self : Library) : Prop :=
  sorted_by sort_key pystr_lt (books self).

(** Sorted by title without regard to case: by [book.title.lower()]. *)
Definition sorted_ignoring_case (self : Library) : Prop :=
  sorted_by (fun book => Some (option_map lower (title book))) pystr_lt
    (books self).

Definition valid (b : Book) : Prop := __post_init__ b = Return tt.

Definition plain (b : Book) : bool :=
  match title b, author b, genre b with
  | Some t, Some a, Some g =>
      ET.plain_text t && ET.plain_text a && ET.plain_text g
  | _, _, _ => false
  end.

(** The libraries a session can hold: a new library, then calls of [add]
    and [load], whether they return or raise. *)
Inductive reachable : Library -> Prop :=
| start : reachable (mkLibrary [])
| after_add self title author year genre pages :
    reachable self ->
    reachable (fst (add self title author year genre pages))
| after_load self filename file :
    reachable self ->
    reachable (fst (load self filename file)).

Definition accepted (elements : list ET.Element) : list Book :=
  flat_map (fun book_element =>
              match load_entry book_element with
              | Return book => [book]
              | Raise _ => []
              end) elements.

Context {S : Strip}.

(** [x.lower()] on a field: AttributeError when it is [None]. *)
Definition field_lower (x : pystr) : result exn string :=
  match x with
  | Some s => Return (lower s)
  | None => Raise AttributeError
  end.

(** The condition of [select]; [or] evaluates its right operand only when
    the left one is false. *)
Definition matches (criterion : string) (book : Book) : result exn bool :=
  bind (field_lower (author book)) (fun a =>
  if contains criterion a then Return true else
  bind (field_lower (genre book)) (fun g =>
  if contains criterion g then Return true else
  bind (field_lower (title book)) (fun t =>
  Return (contains criterion t)))).

Definition select (self : Library) (criterion : string)
  : result exn (list Book) :=
  let criterion := lower (strip criterion) in
  comprehension (matches criterion) (books self).

End WithBuiltins.

End Library.

(** * Builtins to run the programs on ASCII text and short lists

    [lower] on ASCII letters, [int] on plain decimal numerals (digits with
    an optional minus sign) and [str]: what Python's builtins give on such
    text; and the sort of CPython 3.11 on a list of fewer than 64 items,
    which is one run: [count_run] finds the run the list begins with,
    reversed when it descends, and [binarysort] puts the other items into
    it one by one.  A comparison that raises ends the sort where it
    is. *)

Module Ascii_builtins.

Definition lower_char (c : ascii) : ascii :=
  let n := N_of_ascii c in
  if ((65 <=? n) && (n <=? 90))%N then ascii_of_N (n + 32) else c.

Fixpoint lower (s : string) : string :=
  match s with
  | EmptyString => EmptyString
  | String c s' => String (lower_char c) (lower s')
  end.

Definition py_int (s : string) : option Z :=
  option_map Z.of_int (NilZero.int_of_string s).

Definition py_str (n : Z) : string :=
  NilZero.string_of_int (Z.to_int n).

Section ShortSort.
Context {X : Type}.
(** [islt x y] is [x < y] on the keys; [None] when it raises. *)
Variable islt : X -> X -> option bool.

(** The loops of [count_run]: the run goes on while the next item is less
    than the one before it (descending), or is not (ascending). *)
Fixpoint run_while (descending : bool) (prev : X) (l : list X) (n : nat)
  : option nat :=
  match l with
  | [] => Some n
  | x :: l' =>
      match islt x prev with
      | None => None
      | Some less =>
          if Bool.eqb less descending then run_while descending x l' (S n)
          else Some n
      end
  end.

(** The length of the run and whether it descends. *)
Definition count_run (l : list X) : option (nat * bool) :=
  match l with
  | [] => Some (0%nat, false)
  | [_] => Some (1%nat, false)
  | a :: b :: rest =>
      match islt b a with
      | None => None
      | Some descending =>
          option_map (fun n => (n, descending))
            (run_while descending b rest 2)
      end
  end.

(** The binary search of [binarysort] for the place of [pivot] in
    [sorted], between [l] and [r]. *)
Fixpoint search (fuel : nat) (pivot : X) (sorted : list X) (l r : nat)
  : option nat :=
  match fuel with
  | O => Some l
  | S fuel' =>
      let p := (l + (r - l) / 2)%nat in
      match nth_error sorted p with
      | None => Some l
      | Some x =>
          match islt pivot x with
          | None => None
          | Some true =>
              if (l <? p)%nat then search fuel' pivot sorted l p else Some l
          | Some false =>
              if (p + 1 <? r)%nat then search fuel' pivot sorted (p + 1) r
              else Some (p + 1)%nat
          end
      end
  end.

(** [binarysort]: the items of [rest] go into [sorted] from the left; the
    value is the list when the sort ends. *)
Fixpoint binarysort (sorted rest : list X) : list X :=
  match rest with
  | [] => sorted
  | pivot :: rest' =>
      match search (S (List.length sorted)) pivot sorted 0
              (List.length sorted) with
      | None => sorted ++ rest
      | Some place =>
          binarysort (firstn place sorted ++ pivot :: skipn place sorted) rest'
      end
  end.

Definition short_sort (l : list X) : list X :=
  match count_run l with
  | None => l
  | Some (n, descending) =>
      let run := firstn n l in
      binarysort (if descending then List.rev run else run) (skipn n l)
  end.
End ShortSort.

(** The sort runs on the positions of the list, compared by the keys of
    the items there. *)
Definition sort_raised (A K : Type) (key : A -> option K)
    (lt : K -> K -> option bool) (l : list A) : list nat :=
  short_sort
    (fun i j =>
       match nth_error l i, nth_error l j with
       | Some x, Some y =>
           match key x, key y with
           | Some kx, Some ky => lt kx ky
           | _, _ => None
           end
       | _, _ => None
       end)
    (seq 0 (List.length l)).

#[export] Instance builtins : Py.Builtins := {
  Py.lower := lower;
  Py.py_int := py_int;
  Py.py_str := py_str;
  Py.sort_raised := sort_raised
}.

(** White space of ASCII, as [str.isspace] has it: tab to carriage
    return, the four separators 28 to 31 and the space. *)
Definition is_space (c : ascii) : bool :=
  let n := N_of_ascii c in
  (((9 <=? n) && (n <=? 13)) || ((28 <=? n) && (n <=? 32)))%N.

Fixpoint lstrip (s : string) : string :=
  match s with
  | EmptyString => EmptyString
  | String c s' => if is_space c then lstrip s' else s
  end.

Fixpoint rstrip (s : string) : string :=
  match s with
  | EmptyString => EmptyString
  | String c s' =>
      match rstrip s' with
      | EmptyString => if is_space c then EmptyString else String c EmptyString
      | r => String c r
      end
  end.

Definition strip (s : string) : string := rstrip (lstrip s).

#[export] Instance strings : Py.Strip := {
  Py.strip := strip
}.

End Ascii_builtins.

(** * Records and files to run the programs on *)

Module Examples.
Import Py.
#[local] Open Scope string_scope.

Definition ivanov : Birthday.Person :=
  Birthday.mkPerson (Some "Ivanov") (Some "Ivan") (Some "111") 15 5 1990.
Definition petrova : Birthday.Person :=
  Birthday.mkPerson (Some "Petrova") (Some "Maria") (Some "222") 3 1 1985.
Definition mikhailov : Birthday.Person :=
  Birthday.mkPerson (Some "Mikhailov") (Some "Dmitry") (Some "555") 15 5 1992.

Definition sidorov : Birthday.Person :=
  Birthday.mkPerson (Some "Sidorov") (Some "Aleksey") (Some "333") 22 8 1995.
Definition kozlova : Birthday.Person :=
  Birthday.mkPerson (Some "Kozlova") (Some "Anna") (Some "444") 7 12 1988.

(** The book of the fixture [book_with_people] of tests/test_birthdays.py,
    with the names in Latin letters: the people are given to
    [book.people] in the order of the list written there. *)
Definition book_with_people : Birthday.BirthdayBook :=
  Birthday.mkBirthdayBook [ivanov; petrova; sidorov; kozlova; mikhailov].

(** A book of people given in the order of a list a caller wrote down, as
    [book.people = [...]] does. *)
Definition unsorted_book : Birthday.BirthdayBook :=
  Birthday.mkBirthdayBook [petrova; ivanov].

Definition sorted_book : Birthday.BirthdayBook :=
  Birthday.mkBirthdayBook [ivanov; mikhailov; petrova].

Definition person_entry (last_name first_name phone day month year : string)
  : ET.Element :=
  ET.mkElement "person" None
    [ ET.leaf "last_name" (Some last_name);
      ET.leaf "first_name" (Some first_name);
      ET.leaf "phone" (Some phone);
      ET.leaf "day" (Some day);
      ET.leaf "month" (Some month);
      ET.leaf "year" (Some year) ].

(** Two entries; the second is 31 February. *)
Definition birthday_file : ET.Element :=
  ET.mkElement "birthdays" None
    [ person_entry "Ivanov" "Ivan" "111" "15" "5" "1990";
      person_entry "Petrova" "Maria" "222" "31" "2" "2000" ].

Definition audi : Car.Car :=
  Car.mkCar (Some "Audi") (Some "A4") (Some "A001AA") 200 200.
Definition bmw : Car.Car :=
  Car.mkCar (Some "BMW") (Some "X5") (Some "B002BB") 250 0.

Definition registry : Car.CarRegistry := Car.mkCarRegistry [audi; bmw].

Definition car_entry (brand model license_plate max_speed current_speed : string)
  : ET.Element :=
  ET.mkElement "car" None
    [ ET.leaf "brand" (Some brand);
      ET.leaf "model" (Some model);
      ET.leaf "license_plate" (Some license_plate);
      ET.leaf "max_speed" (Some max_speed);
      ET.leaf "current_speed" (Some current_speed) ].

(** Two entries; the second car is above its limit. *)
Definition car_file : ET.Element :=
  ET.mkElement "cars" None
    [ car_entry "Audi" "A4" "A001AA" "200" "200";
      car_entry "BMW" "X5" "B002BB" "200" "250" ].

Definition book_a : Library.Book :=
  Library.mkBook (Some "a") (Some "Author") 2000 (Some "Novel") 100.
Definition book_B : Library.Book :=
  Library.mkBook (Some "B") (Some "Author") 2000 (Some "Novel") 100.

(** The library after [add("a", ...)] and then [add("B", ...)]. *)
Definition library_B_a : Library.Library := Library.mkLibrary [book_B; book_a].

Definition book_entry (title author year genre pages : string) : ET.Element :=
  ET.mkElement "book" None
    [ ET.leaf "title" (Some title);
      ET.leaf "author" (Some author);
      ET.leaf "year" (Some year);
      ET.leaf "genre" (Some genre);
      ET.leaf "pages" (Some pages) ].

(** Two entries; the second has a year of publication that [Book] refuses. *)
Definition library_file : ET.Element :=
  ET.mkElement "library" None
    [ book_entry "Book A" "Author A" "2000" "Novel" "100";
      book_entry "Book B" "Author B" "3000" "Novel" "100" ].

(** A book whose title is the empty string. *)
Definition untitled : Library.Book :=
  Library.mkBook (Some "") (Some "Author") 2000 (Some "Novel") 100.

(** A file with one person whose last name is empty, and a file with one
    book whose title is empty. *)
Definition nameless_file : ET.Element :=
  ET.mkElement "birthdays" None
    [ ET.mkElement "person" None
        [ ET.leaf "last_name" None;
          ET.leaf "first_name" (Some "Ivan");
          ET.leaf "phone" (Some "111");
          ET.leaf "day" (Some "15");
          ET.leaf "month" (Some "5");
          ET.leaf "year" (Some "1990") ] ].

Definition nameless : Birthday.Person :=
  Birthday.mkPerson None (Some "Ivan") (Some "111") 15 5 1990.

Definition untitled_file : ET.Element :=
  ET.mkElement "library" None
    [ ET.mkElement "book" None
        [ ET.leaf "title" None;
          ET.leaf "author" (Some "Author");
          ET.leaf "year" (Some "2000");
          ET.leaf "genre" (Some "Novel");
          ET.leaf "pages" (Some "100") ] ].

Definition no_title : Library.Book :=
  Library.mkBook None (Some "Author") 2000 (Some "Novel") 100.

End Examples.

(** What the round trip through a file needs of [str] and [int]: the text
    of [str(n)] is read back from a file as it was written, and
    [int(str(n)) == n]. *)
Definition str_law (B : Py.Builtins) : Prop :=
  forall n : Z,
    ET.plain_text (Py.py_str n) = true /\ Py.py_int (Py.py_str n) = Some n.

(** * Facts about [list.sort] *)

Lemma nodupb_NoDup (l : list nat) : Py.nodupb l = true -> NoDup l.
Proof.
  induction l as [|i l IH]; cbn [Py.nodupb]; intros H; [constructor|].
  apply andb_prop in H as [Hi Hl]. constructor; [|now apply IH].
  intros Hin. apply negb_true_iff in Hi.
  assert (Hex : existsb (Nat.eqb i) l = true); [|congruence].
  apply existsb_exists. exists i. split; [exact Hin|]. apply Nat.eqb_refl.
Qed.

Lemma flat_map_shift {A : Type} (f : nat -> list A) (l : list nat) :
  flat_map f (map S l) = flat_map (fun i => f (S i)) l.
Proof.
  induction l as [|i l IH]; [reflexivity|].
  cbn [map flat_map]. now rewrite IH.
Qed.

Lemma flat_map_positions {A : Type} (l : list A) :
  flat_map (fun i => match nth_error l i with
                     | Some x => [x]
                     | None => []
                     end) (seq 0 (List.length l)) = l.
Proof.
  induction l as [|a l IH]; [reflexivity|].
  cbn [List.length seq flat_map nth_error Datatypes.app].
  rewrite <- seq_shift, flat_map_shift. cbn [nth_error]. now rewrite IH.
Qed.

(** A sort that raised leaves the items it was given. *)
Lemma arrange_perm {A : Type} (l : list A) (positions : list nat) :
  Permutation (Py.arrange l positions) l.
Proof.
  unfold Py.arrange, Py.is_arrangement.
  destruct (Nat.eqb (List.length positions) (List.length l)) eqn:Hlen;
    cbn [andb]; [|apply Permutation_refl].
  destruct (forallb (fun i => Nat.ltb i (List.length l)) positions) eqn:Hlt;
    cbn [andb]; [|apply Permutation_refl].
  destruct (Py.nodupb positions) eqn:Hnd; [|apply Permutation_refl].
  apply Nat.eqb_eq in Hlen. apply nodupb_NoDup in Hnd.
  assert (Hp : Permutation positions (seq 0 (List.length l))).
  { apply NoDup_Permutation_bis; [exact Hnd | |].
    - rewrite length_seq. lia.
    - intros i Hi. apply in_seq.
      rewrite forallb_forall in Hlt. specialize (Hlt i Hi).
      apply Nat.ltb_lt in Hlt. lia. }
  eapply perm_trans; [apply Permutation_flat_map, Hp|].
  rewrite flat_map_positions. apply Permutation_refl.
Qed.

Section SortFacts.
Import Py.
Context {A K : Type}.
Variable key : A -> option K.
Variable lt : K -> K -> option bool.

#[local] Abbreviation insert := (insert key lt).
#[local] Abbreviation stable_sort := (stable_sort key lt).
#[local] Abbreviation item_lt := (item_lt key lt).
#[local] Abbreviation comparable := (comparable key lt).
#[local] Abbreviation key_le := (key_le key lt).
#[local] Abbreviation sorted_by := (sorted_by key lt).

Lemma insert_perm (x : A) (l : list A) : Permutation (insert x l) (x :: l).
Proof.
  induction l as [|y l IH]; simpl.
  - apply Permutation_refl.
  - destruct (item_lt y x).
    + eapply perm_trans; [apply perm_skip, IH | apply perm_swap].
    + apply Permutation_refl.
Qed.

Lemma stable_sort_perm (l : list A) : Permutation (stable_sort l) l.
Proof.
  induction l as [|x l IH]; simpl.
  - apply perm_nil.
  - eapply perm_trans; [apply insert_perm | apply perm_skip, IH].
Qed.

Lemma key_le_comparable (x y : A) : key_le x y -> comparable y x = true.
Proof.
  intros (kx & ky & Hx & Hy & Hlt). unfold Py.comparable.
  now rewrite Hx, Hy, Hlt.
Qed.

Lemma key_le_not_lt (x y : A) : key_le x y -> item_lt y x = false.
Proof.
  intros (kx & ky & Hx & Hy & Hlt). unfold Py.item_lt.
  now rewrite Hx, Hy, Hlt.
Qed.

(** A list in order is left as it is. *)
Lemma sorted_insert_head (x : A) (l : list A) :
  Forall (key_le x) l -> insert x l = x :: l.
Proof.
  destruct l as [|y l]; simpl; [reflexivity|].
  intros H. inversion H as [|? ? Hxy _]; subst.
  now rewrite (key_le_not_lt _ _ Hxy).
Qed.

Lemma sorted_stable_sort (l : list A) : sorted_by l -> stable_sort l = l.
Proof.
  induction 1 as [|x l Hs IH Hx]; simpl; [reflexivity|].
  rewrite IH. now apply sorted_insert_head.
Qed.

Lemma sorted_pairwise_comparable (l : list A) :
  sorted_by l -> pairwise_comparable key lt l = true.
Proof.
  induction 1 as [|x l Hs IH Hx]; simpl; [reflexivity|].
  rewrite IH, andb_true_r. apply forallb_forall. intros y Hy.
  apply key_le_comparable. rewrite Forall_forall in Hx. now apply Hx.
Qed.

Lemma sorted_list_sort (l : list A) :
  forallb (has_key key) l = true -> sorted_by l ->
  list_sort key lt l = Sorted_ok l.
Proof.
  intros Hk Hs. unfold list_sort.
  rewrite Hk, (sorted_pairwise_comparable _ Hs); simpl.
  now rewrite sorted_stable_sort.
Qed.

(** Items that [<] does not tell apart keep their order. *)
Lemma insert_filter (P : A -> bool) (x : A) (l : list A) :
  (forall y, In y l -> P x = true -> P y = true -> item_lt y x = false) ->
  filter P (insert x l) = filter P (x :: l).
Proof.
  induction l as [|y l IH]; intros H; [reflexivity|].
  simpl insert. destruct (item_lt y x) eqn:Hyx; [|reflexivity].
  assert (IH' : filter P (insert x l) = filter P (x :: l)).
  { apply IH. intros z Hz. apply H. now right. }
  simpl. simpl in IH'. rewrite IH'.
  destruct (P x) eqn:Px, (P y) eqn:Py; try reflexivity.
  rewrite (H y (or_introl eq_refl) eq_refl Py) in Hyx. discriminate.
Qed.

Lemma stable_sort_filter (P : A -> bool) (l : list A) :
  (forall x y, P x = true -> P y = true -> item_lt y x = false) ->
  filter P (stable_sort l) = filter P l.
Proof.
  intros H. induction l as [|x l IH]; [reflexivity|].
  simpl stable_sort. rewrite insert_filter by (intros; now apply H).
  simpl. now rewrite IH.
Qed.

(** With an order on the keys, sorting puts the list in order. *)
Hypothesis lt_asym : forall a b, lt a b = Some true -> lt b a = Some false.
Hypothesis lt_negtrans :
  forall a b c, lt a b = Some false -> lt b c = Some false -> lt a c = Some false.

Lemma key_le_trans (x y z : A) : key_le x y -> key_le y z -> key_le x z.
Proof.
  intros (kx & ky & Hx & Hy & Hxy) (ky' & kz & Hy' & Hz & Hyz).
  rewrite Hy in Hy'. injection Hy' as <-.
  exists kx, kz. repeat split; trivial. eapply lt_negtrans; eassumption.
Qed.

Lemma insert_sorted (x : A) (l : list A) :
  sorted_by l -> Forall (fun y => comparable y x = true) l ->
  sorted_by (insert x l).
Proof.
  induction 1 as [|y l Hs IH Hy]; intros Hc; simpl.
  - constructor; constructor.
  - inversion Hc as [|? ? Hyx Hc']; subst.
    unfold Py.comparable in Hyx. unfold Py.item_lt.
    destruct (key y) as [ky|] eqn:Ky; [|discriminate].
    destruct (key x) as [kx|] eqn:Kx; [|discriminate].
    destruct (lt ky kx) as [[|]|] eqn:Hlt; [| |discriminate].
    + constructor; [now apply IH|].
      eapply Permutation_Forall; [apply Permutation_sym, insert_perm|].
      constructor; trivial.
      exists ky, kx. repeat split; trivial. now apply lt_asym.
    + assert (Hxy : key_le x y) by (exists kx, ky; repeat split; trivial).
      constructor; [now constructor|].
      constructor; trivial.
      eapply Forall_impl; [|exact Hy]. intros z Hz.
      eapply key_le_trans; eassumption.
Qed.

Lemma stable_sort_sorted (l : list A) :
  pairwise_comparable key lt l = true -> sorted_by (stable_sort l).
Proof.
  induction l as [|x l IH]; simpl; intros H.
  - constructor.
  - apply andb_prop in H as [Hx Hl].
    apply insert_sorted; [now apply IH|].
    eapply Permutation_Forall; [apply Permutation_sym, stable_sort_perm|].
    apply Forall_forall. now apply forallb_forall.
Qed.

Lemma list_sort_ok (l l' : list A) :
  list_sort key lt l = Sorted_ok l' ->
  sorted_by l' /\ Permutation l' l /\ forallb (has_key key) l' = true.
Proof.
  unfold list_sort.
  destruct (forallb (has_key key) l) eqn:Hk; simpl; [|discriminate].
  destruct (pairwise_comparable key lt l) eqn:Hc; simpl; [|discriminate].
  intros [= <-]. split; [now apply stable_sort_sorted|].
  split; [apply stable_sort_perm|].
  apply forallb_forall. intros x Hx.
  rewrite forallb_forall in Hk. apply Hk.
  eapply Permutation_in; [apply stable_sort_perm | exact Hx].
Qed.
End SortFacts.

(** * Facts about the comparisons *)

Lemma string_compare_refl (s : string) : String.compare s s = Eq.
Proof.
  induction s as [|c s IH]; simpl; [reflexivity|].
  unfold Ascii.compare. now rewrite N.compare_refl.
Qed.

Lemma string_compare_trans (a b c : string) :
  String.compare a b = Lt -> String.compare b c = Lt -> String.compare a c = Lt.
Proof.
  revert b c. induction a as [|x a IH]; intros [|y b] [|z c]; simpl; try easy.
  destruct (Ascii.compare x y) eqn:Hxy; try discriminate.
  - apply Ascii.compare_eq_iff in Hxy. subst y.
    destruct (Ascii.compare x z); try easy. apply IH.
  - intros _. destruct (Ascii.compare y z) eqn:Hyz; try discriminate.
    + apply Ascii.compare_eq_iff in Hyz. subst z. now rewrite Hxy.
    + intros _.
      assert (H : Ascii.compare x z = Lt).
      { unfold Ascii.compare in *. rewrite N.compare_lt_iff in *. lia. }
      now rewrite H.
Qed.

Lemma string_ltb_lt (a b : string) :
  String.ltb a b = true <-> String.compare a b = Lt.
Proof. unfold String.ltb. destruct (String.compare a b); easy. Qed.

Lemma string_ltb_asym (a b : string) :
  String.ltb a b = true -> String.ltb b a = false.
Proof.
  rewrite string_ltb_lt. intros H. unfold String.ltb.
  now rewrite String.compare_antisym, H.
Qed.

Lemma string_ltb_irrefl (a : string) : String.ltb a a = false.
Proof. unfold String.ltb. now rewrite string_compare_refl. Qed.

(** Two strings that are not equal are ordered one way or the other. *)
Lemma string_ltb_connex (a b : string) :
  a <> b -> String.ltb a b = false -> String.ltb b a = true.
Proof.
  intros Hne. unfold String.ltb. rewrite (String.compare_antisym a b).
  destruct (String.compare b a) eqn:H; simpl; try easy.
  apply String.compare_eq_iff in H. now subst.
Qed.

Lemma string_ltb_negtrans (a b c : string) :
  String.ltb a b = false -> String.ltb b c = false -> String.ltb a c = false.
Proof.
  intros Hab Hbc. destruct (String.ltb a c) eqn:Hac; [|reflexivity].
  destruct (String.eqb_spec a b) as [->|Hne]; [congruence|].
  apply string_ltb_connex in Hab; [|congruence].
  rewrite string_ltb_lt in Hab, Hac.
  pose proof (string_compare_trans _ _ _ Hab Hac) as Hlt.
  apply string_ltb_lt in Hlt. congruence.
Qed.

Lemma string_ltb_trans (a b c : string) :
  String.ltb a b = true -> String.ltb b c = true -> String.ltb a c = true.
Proof. rewrite !string_ltb_lt. apply string_compare_trans. Qed.

Lemma pystr_eqb_spec (a b : Py.pystr) : reflect (a = b) (Py.pystr_eqb a b).
Proof.
  destruct a as [s|], b as [t|]; simpl; try (constructor; congruence).
  destruct (String.eqb_spec s t); constructor; congruence.
Qed.

Lemma pystr_lt_asym (a b : Py.pystr) :
  Py.pystr_lt a b = Some true -> Py.pystr_lt b a = Some false.
Proof.
  destruct a as [s|], b as [t|]; simpl; try discriminate.
  intros [= H]. now rewrite (string_ltb_asym _ _ H).
Qed.

Lemma pystr_lt_negtrans (a b c : Py.pystr) :
  Py.pystr_lt a b = Some false -> Py.pystr_lt b c = Some false ->
  Py.pystr_lt a c = Some false.
Proof.
  destruct a as [s|], b as [t|], c as [u|]; simpl; try discriminate.
  intros [= H1] [= H2]. now rewrite (string_ltb_negtrans _ _ _ H1 H2).
Qed.

Lemma tuple_lt_asym (a b : Py.pystr * Py.pystr) :
  Py.tuple_lt a b = Some true -> Py.tuple_lt b a = Some false.
Proof.
  destruct a as [a1 a2], b as [b1 b2]. unfold Py.tuple_lt; simpl.
  destruct (pystr_eqb_spec a1 b1) as [->|H1].
  - destruct (pystr_eqb_spec b1 b1); [|congruence].
    destruct (pystr_eqb_spec a2 b2) as [->|H2]; [discriminate|].
    destruct (pystr_eqb_spec b2 a2); [congruence|]. apply pystr_lt_asym.
  - destruct (pystr_eqb_spec b1 a1); [congruence|]. apply pystr_lt_asym.
Qed.

(** What [Some false] says of two items of a tuple: they are equal, or
    both are strings and the first is not less. *)
Lemma pystr_ge_cases (a b : Py.pystr) :
  (if Py.pystr_eqb a b then Some false else Py.pystr_lt a b) = Some false <->
  a = b \/ exists s t, a = Some s /\ b = Some t /\ String.ltb s t = false.
Proof.
  destruct (pystr_eqb_spec a b) as [->|Hne]; split; auto.
  - destruct a as [s|], b as [t|]; simpl; try discriminate.
    intros [= H]. right. now exists s, t.
  - intros [->|(s & t & -> & -> & H)]; [congruence|]. simpl. now rewrite H.
Qed.

Lemma pystr_ge_trans (a b c : Py.pystr) :
  (if Py.pystr_eqb a b then Some false else Py.pystr_lt a b) = Some false ->
  (if Py.pystr_eqb b c then Some false else Py.pystr_lt b c) = Some false ->
  (if Py.pystr_eqb a c then Some false else Py.pystr_lt a c) = Some false.
Proof.
  rewrite !pystr_ge_cases.
  intros [Hab|(s & t & Ha & Hb & H1)] [Hbc|(t' & u & Hb' & Hc & H2)]; subst.
  - now left.
  - right. now exists t', u.
  - right. now exists s, t.
  - injection Hb' as <-. right. exists s, u. repeat split.
    eapply string_ltb_negtrans; eassumption.
Qed.

Lemma tuple_lt_negtrans (a b c : Py.pystr * Py.pystr) :
  Py.tuple_lt a b = Some false -> Py.tuple_lt b c = Some false ->
  Py.tuple_lt a c = Some false.
Proof.
  destruct a as [a1 a2], b as [b1 b2], c as [c1 c2]. unfold Py.tuple_lt; simpl.
  destruct (pystr_eqb_spec a1 b1) as [->|H1].
  - destruct (pystr_eqb_spec b1 c1) as [->|H2]; [apply pystr_ge_trans|].
    intros _ H. exact H.
  - destruct (pystr_eqb_spec b1 c1) as [<-|H2].
    + destruct (pystr_eqb_spec a1 b1); [congruence|]. intros H _. exact H.
    + destruct a1 as [s|], b1 as [t|], c1 as [u|]; simpl; try discriminate.
      intros [= Hst] [= Htu].
      assert (Hts : String.ltb t s = true)
        by (apply string_ltb_connex; congruence).
      assert (Hut : String.ltb u t = true)
        by (apply string_ltb_connex; congruence).
      pose proof (string_ltb_trans _ _ _ Hut Hts) as Hus.
      destruct (String.eqb_spec s u) as [->|_].
      * rewrite string_ltb_irrefl in Hus. discriminate.
      * now rewrite (string_ltb_asym _ _ Hus).
Qed.

Lemma int_lt_asym (a b : Z) : Py.int_lt a b = Some true -> Py.int_lt b a = Some false.
Proof. unfold Py.int_lt. intros [= H]. f_equal. lia. Qed.

Lemma int_lt_negtrans (a b c : Z) :
  Py.int_lt a b = Some false -> Py.int_lt b c = Some false ->
  Py.int_lt a c = Some false.
Proof. unfold Py.int_lt. intros [= H1] [= H2]. f_equal. lia. Qed.

(** * The birthday book *)

Section BirthdayFacts.
Import Py Birthday.
Context {B : Builtins}.

Lemma birthday_key_lt_asym (a b : string * string) :
  key_lt a b = Some true -> key_lt b a = Some false.
Proof. apply tuple_lt_asym. Qed.

Lemma birthday_key_lt_negtrans (a b c : string * string) :
  key_lt a b = Some false -> key_lt b c = Some false -> key_lt a c = Some false.
Proof. apply tuple_lt_negtrans. Qed.

Lemma birthday_sort_people_perm (l : list Person) :
  Permutation (people (fst (sort_people l))) l.
Proof.
  unfold sort_people.
  destruct (list_sort sort_key key_lt l) as [l'| |] eqn:H; simpl;
    try apply Permutation_refl; try apply arrange_perm.
  apply list_sort_ok in H;
    [tauto | apply birthday_key_lt_asym | apply birthday_key_lt_negtrans].
Qed.

Lemma birthday_sort_people_ok (l : list Person) (self : BirthdayBook) :
  sort_people l = (self, Return tt) -> sorted self.
Proof.
  unfold sort_people, sorted.
  destruct (list_sort sort_key key_lt l) as [l'| |] eqn:H; try discriminate.
  intros [= <-]. simpl.
  apply list_sort_ok in H;
    [tauto | apply birthday_key_lt_asym | apply birthday_key_lt_negtrans].
Qed.

Lemma birthday_sorted_sort_people (l : list Person) :
  forallb (has_key sort_key) l = true -> sorted (mkBirthdayBook l) ->
  sort_people l = (mkBirthdayBook l, Return tt).
Proof.
  intros Hk Hs. unfold sort_people.
  now rewrite (sorted_list_sort sort_key key_lt l Hk Hs).
Qed.

Lemma birthday_reachable_sorted (self : BirthdayBook) :
  reachable_ok self -> sorted self.
Proof.
  induction 1 as [|cy self ln fn ph d m y self' _ _ Hadd
                  |cy self f file self' r _ _ Hload].
  - constructor.
  - unfold add in Hadd.
    destruct ((m <? 1) || (m >? 12)); [discriminate|].
    destruct (new_Person cy (Some ln) (Some fn) (Some ph) d m y);
      [|discriminate].
    eapply birthday_sort_people_ok; eassumption.
  - unfold load in Hload. destruct file as [|e|root|kind| |]; try discriminate.
    destruct (load_loop cy (ET.findall "person" root) [] 0) as [[l n]|];
      [|discriminate].
    destruct (sort_people l) as [s [[]|]] eqn:Hs; [|discriminate].
    injection Hload as <- _. eapply birthday_sort_people_ok; eassumption.
Qed.

(** [add] when the construction of the record fails. *)
Lemma birthday_add_failure (cy : Z) (self : BirthdayBook)
    (ln fn ph : string) (d m y : Z) (e : exn) :
  new_Person cy (Some ln) (Some fn) (Some ph) d m y = Raise e ->
  add cy self ln fn ph d m y
  = (self, Raise (if (m <? 1) || (m >? 12)
                  then InvalidMonthError m invalid_month_message else e)).
Proof.
  intros H. unfold add. destruct ((m <? 1) || (m >? 12)); [reflexivity|].
  now rewrite H.
Qed.

Lemma birthday_post_init_ok (cy : Z) (p : Person) :
  __post_init__ cy p = Return tt <->
  1900 <= year p <= cy /\ 1 <= month p <= 12
  /\ 1 <= day p <= _get_days_in_month p.
Proof.
  unfold __post_init__.
  destruct ((year p <? 1900) || (year p >? cy)) eqn:Hy.
  { split; [discriminate|]. intros (Hr & _). exfalso.
    apply orb_true_iff in Hy as [Hy|Hy]; lia. }
  apply orb_false_iff in Hy as [Hy1 Hy2].
  destruct ((month p <? 1) || (month p >? 12)) eqn:Hm.
  { split; [discriminate|]. intros (_ & Hr & _). exfalso.
    apply orb_true_iff in Hm as [Hm|Hm]; lia. }
  apply orb_false_iff in Hm as [Hm1 Hm2].
  destruct ((day p <? 1) || (day p >? _get_days_in_month p)) eqn:Hd.
  { split; [discriminate|]. intros (_ & _ & Hr). exfalso.
    apply orb_true_iff in Hd as [Hd|Hd]; lia. }
  apply orb_false_iff in Hd as [Hd1 Hd2].
  split; [intros _|reflexivity]. lia.
Qed.

Lemma birthday_post_init_raises (cy : Z) (p : Person) (e : exn) :
  __post_init__ cy p = Raise e ->
  (exists msg, e = InvalidMonthError (month p) msg)
  \/ (exists msg, e = InvalidDateError (day p) (month p) (year p) msg).
Proof.
  unfold __post_init__.
  destruct ((year p <? 1900) || (year p >? cy)).
  { intros [= <-]. right. eauto. }
  destruct ((month p <? 1) || (month p >? 12)).
  { intros [= <-]. left. eauto. }
  destruct ((day p <? 1) || (day p >? _get_days_in_month p)).
  { intros [= <-]. right. eauto. }
  discriminate.
Qed.

Lemma birthday_new_Person_eq (cy : Z) (ln fn ph : pystr) (d m y : Z) :
  new_Person cy ln fn ph d m y
  = match __post_init__ cy (mkPerson ln fn ph d m y) with
    | Return _ => Return (mkPerson ln fn ph d m y)
    | Raise e => Raise e
    end.
Proof. reflexivity. Qed.

End BirthdayFacts.

(** * Files written and read again *)

Lemma plain_text_reread (s : string) :
  ET.plain_text s = true ->
  ET.has_forbidden_char s = false /\ ET.reread_text (Some s) = Some s.
Proof.
  unfold ET.plain_text. intros H.
  apply andb_prop in H as [H Hn]. apply andb_prop in H as [He Hc].
  apply negb_true_iff in Hc. split; [exact Hc|].
  apply String.eqb_eq in Hn. unfold ET.reread_text.
  destruct s as [|c s]; [discriminate|]. now rewrite Hn.
Qed.

Lemma leaf_reread (name s : string) :
  ET.plain_text s = true ->
  ET.well_formed (ET.leaf name (Some s)) = true
  /\ ET.reread_tree (ET.leaf name (Some s)) = ET.leaf name (Some s).
Proof.
  intros H. apply plain_text_reread in H as [Hc Hr].
  unfold ET.leaf. cbn [ET.well_formed ET.reread_tree forallb map].
  now rewrite Hc, Hr.
Qed.

(** A root over entries that are read back unchanged is read back
    unchanged. *)
Lemma root_reread {A : Type} (name : string) (entry : A -> ET.Element)
    (l : list A) :
  Forall (fun x => ET.well_formed (entry x) = true
                   /\ ET.reread_tree (entry x) = entry x) l ->
  ET.reread (ET.mkElement name None (map entry l))
  = Some (ET.mkElement name None (map entry l)).
Proof.
  intros H. unfold ET.reread.
  assert (Hw : forallb ET.well_formed (map entry l) = true).
  { induction H as [|x l [Hx _] _ IH]; cbn [forallb map]; [reflexivity|].
    rewrite Hx, IH. reflexivity. }
  assert (Hr : map ET.reread_tree (map entry l) = map entry l).
  { clear Hw. induction H as [|x l [_ Hx] _ IH]; cbn [map]; [reflexivity|].
    now rewrite Hx, IH. }
  cbn [ET.well_formed ET.reread_tree ET.reread_text]. simpl andb.
  now rewrite Hw, Hr.
Qed.

Lemma findall_entries {A : Type} (root name : string) (x : option string)
    (entry : A -> ET.Element) (l : list A) :
  (forall a, ET.tag (entry a) = name) ->
  ET.findall name (ET.mkElement root x (map entry l)) = map entry l.
Proof.
  intros Htag. unfold ET.findall. simpl.
  induction l as [|a l IH]; simpl; [reflexivity|].
  now rewrite Htag, String.eqb_refl, IH.
Qed.

Section BirthdayRoundTrip.
Import Py Birthday.
Context {B : Builtins}.
Hypothesis law : str_law B.

Lemma birthday_person_element_reread (p : Person) :
  plain p = true ->
  ET.well_formed (person_element p) = true
  /\ ET.reread_tree (person_element p) = person_element p.
Proof.
  unfold plain, person_element.
  destruct (last_name p) as [l|], (first_name p) as [f|], (phone p) as [t|];
    try discriminate.
  intros H. apply andb_prop in H as [H Ht]. apply andb_prop in H as [Hl Hf].
  destruct (leaf_reread "last_name" l Hl) as [W1 R1].
  destruct (leaf_reread "first_name" f Hf) as [W2 R2].
  destruct (leaf_reread "phone" t Ht) as [W3 R3].
  destruct (leaf_reread "day" _ (proj1 (law (day p)))) as [W4 R4].
  destruct (leaf_reread "month" _ (proj1 (law (month p)))) as [W5 R5].
  destruct (leaf_reread "year" _ (proj1 (law (year p)))) as [W6 R6].
  cbn [ET.well_formed ET.reread_tree ET.reread_text forallb map].
  rewrite W1, W2, W3, W4, W5, W6, R1, R2, R3, R4, R5, R6. now split.
Qed.

Lemma birthday_load_entry_saved (cy : Z) (p : Person) :
  valid cy p -> load_entry cy (person_element p) = Return p.
Proof.
  intros Hv. destruct p as [l f t d m y]. unfold valid in Hv.
  unfold load_entry, field_int, field_text, person_element. simpl.
  rewrite !(proj2 (law _)). simpl.
  rewrite birthday_new_Person_eq. now rewrite Hv.
Qed.

Lemma birthday_load_loop_saved (cy : Z) (l acc : list Person) (n : Z) :
  Forall (valid cy) l ->
  load_loop cy (map person_element l) acc n = Return (acc ++ l, n).
Proof.
  intros H. revert acc. induction H as [|p l Hp _ IH]; intros acc; simpl.
  - now rewrite app_nil_r.
  - rewrite (birthday_load_entry_saved cy p Hp), IH.
    now rewrite <- app_assoc.
Qed.

Lemma birthday_plain_has_key (l : list Person) :
  forallb plain l = true -> forallb (has_key sort_key) l = true.
Proof.
  intros H. apply forallb_forall. intros p Hp.
  rewrite forallb_forall in H. specialize (H p Hp).
  unfold plain in H. unfold has_key, sort_key.
  destruct (last_name p), (first_name p); try discriminate. reflexivity.
Qed.

Lemma birthday_round_trip (cy : Z) (filename : string) (self : BirthdayBook) :
  Forall (valid cy) (people self) ->
  forallb plain (people self) = true ->
  sorted self ->
  ET.reread (save_tree self) = Some (save_tree self)
  /\ load cy (mkBirthdayBook []) filename (ET.Tree (save_tree self))
     = (self, Return (Z.of_nat (List.length (people self)), 0)).
Proof.
  destruct self as [l]. simpl. intros Hv Hp Hs. split.
  - unfold save_tree. simpl. apply root_reread.
    apply Forall_forall. intros p Hin. apply birthday_person_element_reread.
    rewrite forallb_forall in Hp. now apply Hp.
  - unfold load, save_tree. simpl people.
    rewrite (findall_entries "birthdays" "person" None person_element l)
      by reflexivity.
    rewrite (birthday_load_loop_saved cy l [] 0 Hv).
    change ([] ++ l) with l.
    now rewrite (birthday_sorted_sort_people l
                   (birthday_plain_has_key l Hp) Hs).
Qed.
End BirthdayRoundTrip.

(** * The car registry *)

Section CarFacts.
Import Py Car.
Context {B : Builtins}.

Lemma car_sort_cars_perm (l : list Car) :
  Permutation (cars (fst (sort_cars l))) l.
Proof.
  unfold sort_cars.
  destruct (list_sort sort_key tuple_lt l) as [l'| |] eqn:H; simpl;
    try apply Permutation_refl; try apply arrange_perm.
  apply list_sort_ok in H;
    [tauto | apply tuple_lt_asym | apply tuple_lt_negtrans].
Qed.

Lemma car_sort_cars_ok (l : list Car) (self : CarRegistry) :
  sort_cars l = (self, Return tt) -> sorted self.
Proof.
  unfold sort_cars, sorted.
  destruct (list_sort sort_key tuple_lt l) as [l'| |] eqn:H; try discriminate.
  intros [= <-]. simpl.
  apply list_sort_ok in H;
    [tauto | apply tuple_lt_asym | apply tuple_lt_negtrans].
Qed.

Lemma car_sorted_sort_cars (l : list Car) :
  sorted (mkCarRegistry l) -> sort_cars l = (mkCarRegistry l, Return tt).
Proof.
  intros Hs. unfold sort_cars.
  rewrite (sorted_list_sort sort_key tuple_lt l); trivial.
  now apply forallb_forall.
Qed.

Lemma car_reachable_sorted (self : CarRegistry) :
  reachable_ok self -> sorted self.
Proof.
  induction 1 as [|self b m lp ms cs self' _ _ Hadd
                  |self f file self' r _ _ Hload].
  - constructor.
  - unfold add in Hadd.
    destruct (new_Car (Some b) (Some m) (Some lp) ms cs); [|discriminate].
    eapply car_sort_cars_ok; eassumption.
  - unfold load in Hload. destruct file as [|e|root|kind| |]; try discriminate.
    destruct (load_loop (ET.findall "car" root) [] 0) as [[l n]|];
      [|discriminate].
    destruct (sort_cars l) as [s [[]|]] eqn:Hs; [|discriminate].
    injection Hload as <- _. eapply car_sort_cars_ok; eassumption.
Qed.

Lemma car_add_failure (self : CarRegistry) (b m lp : string) (ms cs : Z)
    (e : exn) :
  new_Car (Some b) (Some m) (Some lp) ms cs = Raise e ->
  add self b m lp ms cs = (self, Raise e).
Proof. intros H. unfold add. now rewrite H. Qed.

Lemma car_new_Car_eq (b m lp : pystr) (ms cs : Z) :
  new_Car b m lp ms cs
  = match __post_init__ (mkCar b m lp ms cs) with
    | Return _ => Return (mkCar b m lp ms cs)
    | Raise e => Raise e
    end.
Proof. reflexivity. Qed.

Lemma car_post_init_ok (c : Car) :
  __post_init__ c = Return tt <-> 0 < max_speed c /\ 0 <= current_speed c <= max_speed c.
Proof.
  unfold __post_init__.
  destruct (max_speed c <=? 0) eqn:H1; [split; [discriminate|lia]|].
  destruct (current_speed c <? 0) eqn:H2; [split; [discriminate|lia]|].
  destruct (current_speed c >? max_speed c) eqn:H3; [split; [discriminate|lia]|].
  split; [intros _; lia | reflexivity].
Qed.

Lemma car_new_Car_within_limit (b m lp : pystr) (ms cs : Z) (c : Car) :
  new_Car b m lp ms cs = Return c -> within_limit c.
Proof.
  rewrite car_new_Car_eq.
  destruct (__post_init__ (mkCar b m lp ms cs)) as [[]|] eqn:H; [|discriminate].
  intros [= <-]. apply car_post_init_ok in H. unfold within_limit. simpl in *. lia.
Qed.

Lemma car_load_entry_within_limit (e : ET.Element) (c : Car) :
  load_entry e = Return c -> within_limit c.
Proof.
  unfold load_entry, bind.
  destruct (field_text "brand" e); [|discriminate].
  destruct (field_text "model" e); [|discriminate].
  destruct (field_text "license_plate" e); [|discriminate].
  destruct (field_int "max_speed" e); [|discriminate].
  destruct (field_int "current_speed" e); [|discriminate].
  apply car_new_Car_within_limit.
Qed.

Lemma car_load_loop_within_limit (es : list ET.Element) (acc l : list Car)
    (n n' : Z) :
  Forall within_limit acc ->
  load_loop es acc n = Return (l, n') -> Forall within_limit l.
Proof.
  revert acc n. induction es as [|e es IH]; intros acc n Hacc; simpl.
  - now intros [= <- _].
  - destruct (load_entry e) as [c|x] eqn:He.
    + apply IH. apply Forall_app. split; [exact Hacc|].
      constructor; [|constructor]. eapply car_load_entry_within_limit; eassumption.
    + destruct (caught x); [now apply IH | discriminate].
Qed.

Lemma car_reachable_within_limit (self : CarRegistry) :
  reachable self -> Forall within_limit (cars self).
Proof.
  induction 1 as [|self b m lp ms cs _ IH|self f file _ IH].
  - constructor.
  - unfold add.
    destruct (new_Car (Some b) (Some m) (Some lp) ms cs) as [c|e] eqn:Hc;
      [|exact IH].
    eapply Permutation_Forall; [apply Permutation_sym, car_sort_cars_perm|].
    apply Forall_app. split; [exact IH|].
    constructor; [|constructor]. eapply car_new_Car_within_limit; eassumption.
  - unfold load. destruct file as [|e|root|kind| |]; try exact IH.
    destruct (load_loop (ET.findall "car" root) [] 0) as [[l n]|e] eqn:Hl;
      [|exact IH].
    assert (Hf : Forall within_limit l)
      by (eapply car_load_loop_within_limit; [constructor | eassumption]).
    pose proof (car_sort_cars_perm l) as Hp.
    destruct (sort_cars l) as [s [[]|x]]; simpl in *;
      (eapply Permutation_Forall; [apply Permutation_sym, Hp | exact Hf]).
Qed.

Lemma car_no_speeding (l : list Car) :
  Forall within_limit l -> filter is_speeding l = [].
Proof.
  induction 1 as [|c l Hc _ IH]; simpl; [reflexivity|].
  unfold is_speeding at 1. unfold within_limit in Hc.
  destruct (current_speed c >? max_speed c) eqn:H; [lia | exact IH].
Qed.

Lemma car_status_within_limit (c : Car) :
  within_limit c -> speed_status c <> "ПРЕВЫШЕНИЕ"%string.
Proof.
  unfold within_limit, speed_status. intros H.
  destruct (current_speed c >? max_speed c) eqn:H1; [lia|].
  destruct (current_speed c =? 0); discriminate.
Qed.
End CarFacts.

Section CarRoundTrip.
Import Py Car.
Context {B : Builtins}.
Hypothesis law : str_law B.

Lemma car_element_reread (c : Car) :
  plain c = true ->
  ET.well_formed (car_element c) = true
  /\ ET.reread_tree (car_element c) = car_element c.
Proof.
  unfold plain, car_element.
  destruct (brand c) as [b|], (model c) as [m|], (license_plate c) as [l|];
    try discriminate.
  intros H. apply andb_prop in H as [H Hl]. apply andb_prop in H as [Hb Hm].
  destruct (leaf_reread "brand" b Hb) as [W1 R1].
  destruct (leaf_reread "model" m Hm) as [W2 R2].
  destruct (leaf_reread "license_plate" l Hl) as [W3 R3].
  destruct (leaf_reread "max_speed" _ (proj1 (law (max_speed c)))) as [W4 R4].
  destruct (leaf_reread "current_speed" _ (proj1 (law (current_speed c))))
    as [W5 R5].
  cbn [ET.well_formed ET.reread_tree ET.reread_text forallb map].
  rewrite W1, W2, W3, W4, W5, R1, R2, R3, R4, R5. now split.
Qed.

Lemma car_load_entry_saved (c : Car) :
  valid c -> load_entry (car_element c) = Return c.
Proof.
  intros Hv. destruct c as [b m l ms cs]. unfold valid in Hv.
  unfold load_entry, field_int, field_text, car_element. simpl.
  rewrite !(proj2 (law _)). simpl.
  rewrite car_new_Car_eq. now rewrite Hv.
Qed.

Lemma car_load_loop_saved (l acc : list Car) (n : Z) :
  Forall valid l ->
  load_loop (map car_element l) acc n = Return (acc ++ l, n).
Proof.
  intros H. revert acc. induction H as [|c l Hc _ IH]; intros acc; simpl.
  - now rewrite app_nil_r.
  - rewrite (car_load_entry_saved c Hc), IH. now rewrite <- app_assoc.
Qed.

Lemma car_round_trip (filename : string) (self : CarRegistry) :
  Forall valid (cars self) ->
  forallb plain (cars self) = true ->
  sorted self ->
  ET.reread (save_tree self) = Some (save_tree self)
  /\ load (mkCarRegistry []) filename (ET.Tree (save_tree self))
     = (self, Return (Z.of_nat (List.length (cars self)), 0)).
Proof.
  destruct self as [l]. simpl. intros Hv Hp Hs. split.
  - unfold save_tree. simpl. apply root_reread.
    apply Forall_forall. intros c Hin. apply car_element_reread.
    rewrite forallb_forall in Hp. now apply Hp.
  - unfold load, save_tree. simpl cars.
    rewrite (findall_entries "cars" "car" None car_element l) by reflexivity.
    rewrite (car_load_loop_saved l [] 0 Hv).
    change ([] ++ l) with l.
    now rewrite (car_sorted_sort_cars l Hs).
Qed.
End CarRoundTrip.

(** * The library *)

Section LibraryFacts.
Import Py Library.
Context {B : Builtins}.

Lemma library_sort_books_ok (l : list Book) (self : Library) :
  sort_books l = (self, Return tt) -> sorted self.
Proof.
  unfold sort_books, sorted.
  destruct (list_sort sort_key pystr_lt l) as [l'| |] eqn:H; try discriminate.
  intros [= <-]. simpl.
  apply list_sort_ok in H;
    [tauto | apply pystr_lt_asym | apply pystr_lt_negtrans].
Qed.

Lemma library_sorted_sort_books (l : list Book) :
  sorted (mkLibrary l) -> sort_books l = (mkLibrary l, Return tt).
Proof.
  intros Hs. unfold sort_books.
  rewrite (sorted_list_sort sort_key pystr_lt l); trivial.
  now apply forallb_forall.
Qed.

Lemma library_reachable_sorted (self : Library) :
  reachable_ok self -> sorted self.
Proof.
  induction 1 as [|self t a y g p self' _ _ Hadd
                  |self f file self' r _ _ Hload].
  - constructor.
  - unfold add in Hadd.
    destruct (new_Book (Some t) (Some a) y (Some g) p); [|discriminate].
    eapply library_sort_books_ok; eassumption.
  - unfold load in Hload. destruct file as [|e|root|kind| |]; try discriminate.
    destruct (load_loop (ET.findall "book" root) []) as [l|]; [|discriminate].
    destruct (sort_books l) as [s [[]|]] eqn:Hs; [|discriminate].
    injection Hload as <- _. eapply library_sort_books_ok; eassumption.
Qed.

Lemma library_add_failure (self : Library) (t a : string) (y : Z) (g : string)
    (p : Z) (e : exn) :
  new_Book (Some t) (Some a) y (Some g) p = Raise e ->
  add self t a y g p = (self, Raise e).
Proof. intros H. unfold add. now rewrite H. Qed.

Lemma library_new_Book_eq (t a : pystr) (y : Z) (g : pystr) (p : Z) :
  new_Book t a y g p
  = match __post_init__ (mkBook t a y g p) with
    | Return _ => Return (mkBook t a y g p)
    | Raise e => Raise e
    end.
Proof. reflexivity. Qed.

(** What the code accepts: a year from 0 to the literal 2024 and a positive
    number of pages. *)
Lemma library_post_init_ok (b : Book) :
  __post_init__ b = Return tt <-> 0 <= year b <= 2024 /\ 0 < pages b.
Proof.
  unfold __post_init__, current_year.
  destruct ((year b <? 0) || (year b >? 2024)) eqn:Hy.
  { split; [discriminate|]. intros [Hr _]. exfalso.
    apply orb_true_iff in Hy as [Hy|Hy]; lia. }
  apply orb_false_iff in Hy as [Hy1 Hy2].
  destruct (pages b <=? 0) eqn:Hp; [split; [discriminate|lia]|].
  split; [intros _; lia | reflexivity].
Qed.
End LibraryFacts.

Section LibraryRoundTrip.
Import Py Library.
Context {B : Builtins}.
Hypothesis law : str_law B.

Lemma library_book_element_reread (b : Book) :
  plain b = true ->
  ET.well_formed (book_element b) = true
  /\ ET.reread_tree (book_element b) = book_element b.
Proof.
  unfold plain, book_element.
  destruct (title b) as [t|], (author b) as [a|], (genre b) as [g|];
    try discriminate.
  intros H. apply andb_prop in H as [H Hg]. apply andb_prop in H as [Ht Ha].
  destruct (leaf_reread "title" t Ht) as [W1 R1].
  destruct (leaf_reread "author" a Ha) as [W2 R2].
  destruct (leaf_reread "genre" g Hg) as [W3 R3].
  destruct (leaf_reread "year" _ (proj1 (law (year b)))) as [W4 R4].
  destruct (leaf_reread "pages" _ (proj1 (law (pages b)))) as [W5 R5].
  cbn [ET.well_formed ET.reread_tree ET.reread_text forallb map].
  rewrite W1, W2, W3, W4, W5, R1, R2, R3, R4, R5. now split.
Qed.

Lemma library_load_entry_saved (b : Book) :
  valid b -> load_entry (book_element b) = Return b.
Proof.
  intros Hv. destruct b as [t a y g p]. unfold valid in Hv.
  unfold load_entry, field_int, field_text, book_element. simpl.
  rewrite !(proj2 (law _)). simpl.
  rewrite library_new_Book_eq. now rewrite Hv.
Qed.

Lemma library_load_loop_saved (l acc : list Book) :
  Forall valid l -> load_loop (map book_element l) acc = Return (acc ++ l).
Proof.
  intros H. revert acc. induction H as [|b l Hb _ IH]; intros acc; simpl.
  - now rewrite app_nil_r.
  - rewrite (library_load_entry_saved b Hb), IH. now rewrite <- app_assoc.
Qed.

Lemma library_round_trip (filename : string) (self : Library) :
  Forall valid (books self) ->
  forallb plain (books self) = true ->
  sorted self ->
  ET.reread (save_tree self) = Some (save_tree self)
  /\ load (mkLibrary []) filename (ET.Tree (save_tree self))
     = (self, Return (Z.of_nat (List.length (books self)))).
Proof.
  destruct self as [l]. simpl. intros Hv Hp Hs. split.
  - unfold save_tree. simpl. apply root_reread.
    apply Forall_forall. intros b Hin. apply library_book_element_reread.
    rewrite forallb_forall in Hp. now apply Hp.
  - unfold load, save_tree. simpl books.
    rewrite (findall_entries "library" "book" None book_element l)
      by reflexivity.
    rewrite (library_load_loop_saved l [] Hv).
    change ([] ++ l) with l.
    now rewrite (library_sorted_sort_books l Hs).
Qed.
End LibraryRoundTrip.

(** * The ASCII builtins satisfy what the round trip needs *)

(** A byte of ASCII begins no surrogate and no U+FFFE or U+FFFF. *)
Lemma starts_noncharacter_ascii (c : ascii) (s : string) :
  (N_of_ascii c <? 128)%N = true -> ET.starts_noncharacter c s = false.
Proof.
  intros H. apply N.ltb_lt in H. unfold ET.starts_noncharacter.
  destruct s as [|c1 s]; [reflexivity|].
  destruct (N.eqb_spec (N_of_ascii c) 237) as [E|_]; [lia|].
  destruct (N.eqb_spec (N_of_ascii c) 239) as [E|_]; [lia|].
  reflexivity.
Qed.

Lemma digits_reread (d : Decimal.uint) :
  ET.has_forbidden_char (NilEmpty.string_of_uint d) = false
  /\ ET.normalize_newlines (NilEmpty.string_of_uint d)
     = NilEmpty.string_of_uint d.
Proof.
  induction d as [|d [IH1 IH2]|d [IH1 IH2]|d [IH1 IH2]|d [IH1 IH2]|d [IH1 IH2]
                  |d [IH1 IH2]|d [IH1 IH2]|d [IH1 IH2]|d [IH1 IH2]|d [IH1 IH2]];
    cbn [NilEmpty.string_of_uint ET.has_forbidden_char];
    rewrite ?starts_noncharacter_ascii by reflexivity;
    (split; [easy|]);
    change (ET.normalize_newlines (String ?c ?s))
      with (String c (ET.normalize_newlines s)); now rewrite ?IH2.
Qed.

Lemma numeral_reread (d : Decimal.uint) :
  ET.plain_text (NilZero.string_of_uint d) = true
  /\ ET.plain_text (String "-" (NilZero.string_of_uint d)) = true.
Proof.
  assert (H : NilZero.string_of_uint d <> EmptyString
              /\ ET.has_forbidden_char (NilZero.string_of_uint d) = false
              /\ ET.normalize_newlines (NilZero.string_of_uint d)
                 = NilZero.string_of_uint d).
  { destruct (digits_reread d) as [H1 H2].
    destruct d; try (split; [discriminate | split; [exact H1 | exact H2]]).
    repeat split; discriminate. }
  destruct H as (Hne & Hc & Hn). unfold ET.plain_text. split.
  - rewrite Hc, Hn, String.eqb_refl.
    destruct (String.eqb_spec (NilZero.string_of_uint d) EmptyString);
      [contradiction | reflexivity].
  - cbn [ET.has_forbidden_char].
    rewrite starts_noncharacter_ascii by reflexivity.
    change (ET.normalize_newlines (String "-" ?s))
      with (String "-" (ET.normalize_newlines s)).
    rewrite Hc, Hn, String.eqb_refl. reflexivity.
Qed.

Lemma ascii_builtins_law : str_law Ascii_builtins.builtins.
Proof.
  intros n. split.
  - cbn [Py.py_str Ascii_builtins.builtins]. unfold Ascii_builtins.py_str.
    destruct n as [|p|p]; cbn [Z.to_int NilZero.string_of_int];
      apply numeral_reread.
  - cbn [Py.py_str Py.py_int Ascii_builtins.builtins].
    unfold Ascii_builtins.py_int, Ascii_builtins.py_str.
    rewrite NilZero.isi.
    + cbn [option_map]. now rewrite DecimalZ.of_to.
    + destruct n as [|p|p]; cbn [Z.to_int]; try discriminate.
      intros [= H]. now apply DecimalPos.Unsigned.to_uint_nonnil in H.
    + destruct n as [|p|p]; cbn [Z.to_int]; try discriminate.
      intros [= H]. now apply DecimalPos.Unsigned.to_uint_nonnil in H.
Qed.

(** * The properties of the specification *)



(** C6, as the code has it.  [Car(...)] checks that [max_speed] is
    positive first, then that [current_speed] is not negative, then that
    [current_speed] does not exceed [max_speed].  The first two checks
    raise InvalidSpeedError, with the value at fault and a message of
    their own; the third raises SpeedLimitExceededError with the two
    speeds and the car.  With [max_speed <= 0] the first error is raised
    whatever the current speed is; for every positive [max_speed] a
    current speed above it fails with SpeedLimitExceededError (as 250
    against 200 does), and a current speed equal to it is accepted. *)
Theorem car_construction {B : Py.Builtins}
    (brand model license_plate : Py.pystr) (max_speed current_speed : Z) :
  let new := Car.new_Car brand model license_plate in
  let info := (Py.format brand ++ " " ++ Py.format model
               ++ " (" ++ Py.format license_plate ++ ")")%string in
  let exceeded (current limit : Z) :=
    Car.SpeedLimitExceededError current limit info
      ("Превышена максимальная скорость " ++ Py.py_str limit ++ " км/ч")%string in
  (max_speed <= 0 ->
   new max_speed current_speed
   = Py.Raise (Car.InvalidSpeedError max_speed
                 "Максимальная скорость должна быть положительной"))
  /\ (0 < max_speed -> current_speed < 0 ->
      new max_speed current_speed
      = Py.Raise (Car.InvalidSpeedError current_speed
                    "Текущая скорость не может быть отрицательной"))
  /\ (0 < max_speed -> max_speed < current_speed ->
      new max_speed current_speed
      = Py.Raise (exceeded current_speed max_speed))
  /\ (0 < max_speed -> 0 <= current_speed <= max_speed ->
      new max_speed current_speed
      = Py.Return (Car.mkCar brand model license_plate max_speed current_speed))
  /\ (0 < max_speed ->
      new max_speed max_speed
      = Py.Return (Car.mkCar brand model license_plate max_speed max_speed))
  /\ new 200 250 = Py.Raise (exceeded 250 200)
  /\ (forall e,
        new max_speed current_speed = Py.Raise e ->
        (Car.type_name e = "InvalidSpeedError"%string
         <-> max_speed <= 0 \/ current_speed < 0)
        /\ (Car.type_name e = "SpeedLimitExceededError"%string
            <-> 0 < max_speed < current_speed)).
Proof.
  intros new info exceeded.
  unfold new, exceeded, Car.new_Car, Car.__post_init__,
    Car.speed_limit_exceeded, Py.bind.
  cbn [Car.max_speed Car.current_speed Car.brand Car.model Car.license_plate].
  fold info.
  split; [|split; [|split; [|split; [|split; [|split]]]]].
  - intros H. destruct (max_speed <=? 0) eqn:E; [reflexivity | lia].
  - intros H1 H2. destruct (max_speed <=? 0) eqn:E1; [lia|].
    destruct (current_speed <? 0) eqn:E2; [reflexivity | lia].
  - intros H1 H2. destruct (max_speed <=? 0) eqn:E1; [lia|].
    destruct (current_speed <? 0) eqn:E2; [lia|].
    destruct (current_speed >? max_speed) eqn:E3; [reflexivity | lia].
  - intros H1 H2. destruct (max_speed <=? 0) eqn:E1; [lia|].
    destruct (current_speed <? 0) eqn:E2; [lia|].
    destruct (current_speed >? max_speed) eqn:E3; [lia | reflexivity].
  - intros H1. destruct (max_speed <=? 0) eqn:E1; [lia|].
    destruct (max_speed <? 0) eqn:E2; [lia|].
    destruct (max_speed >? max_speed) eqn:E3; [lia | reflexivity].
  - reflexivity.
  - intros e.
    destruct (max_speed <=? 0) eqn:E1.
    { intros [= <-]. cbn [Car.type_name].
      split; split; intros H; try reflexivity; try discriminate; lia. }
    destruct (current_speed <? 0) eqn:E2.
    { intros [= <-]. cbn [Car.type_name].
      split; split; intros H; try reflexivity; try discriminate; lia. }
    destruct (current_speed >? max_speed) eqn:E3; [|discriminate].
    intros [= <-]. cbn [Car.type_name].
    split; split; intros H; try reflexivity; try discriminate; lia.
Qed.

Lemma car_construction_witness :
  Car.new_Car (B := Ascii_builtins.builtins)
    (Some "Audi"%string) (Some "A4"%string) (Some "A001AA"%string) 200 200
  = Py.Return Examples.audi.
Proof.
  apply (car_construction (B := Ascii_builtins.builtins)
           (Some "Audi"%string) (Some "A4"%string) (Some "A001AA"%string)
           200 200); lia.
Defined.

(** C6, as stated, fails: a limit that is not positive and a current
    speed that is negative are two constraints, and the errors raised for
    them are of one kind, InvalidSpeedError. *)
Lemma car_speed_errors_share_kind :
  exists e1 e2,
    Car.new_Car (B := Ascii_builtins.builtins)
      (Some "Audi"%string) (Some "A4"%string) (Some "A001AA"%string) 0 100
    = Py.Raise e1
    /\ Car.new_Car (B := Ascii_builtins.builtins)
         (Some "Audi"%string) (Some "A4"%string) (Some "A001AA"%string)
         200 (-1)
       = Py.Raise e2
    /\ e1 = Car.InvalidSpeedError 0
              "Максимальная скорость должна быть положительной"
    /\ e2 = Car.InvalidSpeedError (-1)
              "Текущая скорость не может быть отрицательной"
    /\ Car.type_name e1 = Car.type_name e2.
Proof. do 2 eexists. repeat split. Qed.

(** C7, as the code has it.  When [ET.parse] raises FileNotFoundError
    (no file at the path) or ParseError (the content is not well-formed),
    [load] of each of the three collections raises one DataFormatError
    that carries the path and a message with the cause.  Any other
    exception of [ET.parse] leaves [load] as it is: NotADirectoryError for
    a path under a regular file, where no file is either, the other
    errors of [open], LookupError and ValueError for a declared encoding
    the parser does not have.  In every case the collection [load] was
    called on keeps its contents. *)
Theorem load_structural_failure {B : Py.Builtins} (current_year : Z)
    (filename cause : string) (kind : ET.os_error)
    (book : Birthday.BirthdayBook) (registry : Car.CarRegistry)
    (library : Library.Library) :
  let absent := ("Файл не найден: " ++ filename)%string in
  let malformed :=
    ("Ошибка парсинга XML файла " ++ filename ++ ": " ++ cause)%string in
  (Birthday.load current_year book filename ET.FileNotFoundError
     = (book, Py.Raise (Birthday.DataFormatError filename absent))
   /\ Birthday.load current_year book filename (ET.ParseError cause)
     = (book, Py.Raise (Birthday.DataFormatError filename malformed))
   /\ Car.load registry filename ET.FileNotFoundError
     = (registry, Py.Raise (Car.DataFormatError filename absent))
   /\ Car.load registry filename (ET.ParseError cause)
     = (registry, Py.Raise (Car.DataFormatError filename malformed))
   /\ Library.load library filename ET.FileNotFoundError
     = (library, Py.Raise (Library.DataFormatError filename absent))
   /\ Library.load library filename (ET.ParseError cause)
     = (library, Py.Raise (Library.DataFormatError filename malformed)))
  /\ (Birthday.load current_year book filename (ET.OSError kind)
       = (book, Py.Raise (Birthday.OSError kind))
      /\ Birthday.load current_year book filename ET.LookupError
        = (book, Py.Raise Birthday.LookupError)
      /\ Birthday.load current_year book filename ET.ValueError
        = (book, Py.Raise Birthday.ValueError)
      /\ Car.load registry filename (ET.OSError kind)
        = (registry, Py.Raise (Car.OSError kind))
      /\ Car.load registry filename ET.LookupError
        = (registry, Py.Raise Car.LookupError)
      /\ Car.load registry filename ET.ValueError
        = (registry, Py.Raise Car.ValueError)
      /\ Library.load library filename (ET.OSError kind)
        = (library, Py.Raise (Library.OSError kind))
      /\ Library.load library filename ET.LookupError
        = (library, Py.Raise Library.LookupError)
      /\ Library.load library filename ET.ValueError
        = (library, Py.Raise Library.ValueError))
  /\ (forall file,
        match file with ET.Tree _ => False | _ => True end ->
        fst (Birthday.load current_year book filename file) = book
        /\ fst (Car.load registry filename file) = registry
        /\ fst (Library.load library filename file) = library).
Proof.
  split; [repeat split|]. split; [repeat split|].
  intros [| | | | |]; cbn; tauto.
Qed.

Lemma load_structural_failure_witness :
  fst (Birthday.load (B := Ascii_builtins.builtins) 2024
         Examples.sorted_book "birthdays.xml"
         (ET.ParseError "syntax error: line 1, column 0"))
  = Examples.sorted_book
  /\ fst (Car.load (B := Ascii_builtins.builtins) Examples.registry
            "birthdays.xml" (ET.ParseError "syntax error: line 1, column 0"))
     = Examples.registry
  /\ fst (Library.load (B := Ascii_builtins.builtins) Examples.library_B_a
            "birthdays.xml" (ET.ParseError "syntax error: line 1, column 0"))
     = Examples.library_B_a.
Proof.
  apply (load_structural_failure (B := Ascii_builtins.builtins) 2024
           "birthdays.xml" "" ET.OtherOSError Examples.sorted_book
           Examples.registry Examples.library_B_a).
  exact I.
Defined.

(** C7, as stated, fails.  For a path under a regular file there is no
    file, [ET.parse] raises NotADirectoryError, and so does [load]; for a
    file that declares an encoding the parser does not know, [ET.parse]
    raises LookupError, and so does [load]: neither is a
    DataFormatError. *)
Lemma load_raises_other_errors :
  Birthday.load (B := Ascii_builtins.builtins) 2024
    (Birthday.mkBirthdayBook []) "notes.txt/birthdays.xml"
    (ET.OSError ET.NotADirectoryError)
  = (Birthday.mkBirthdayBook [],
     Py.Raise (Birthday.OSError ET.NotADirectoryError))
  /\ Car.load (B := Ascii_builtins.builtins) (Car.mkCarRegistry [])
       "cars.xml" ET.LookupError
     = (Car.mkCarRegistry [], Py.Raise Car.LookupError)
  /\ (forall filename message,
        snd (Birthday.load (B := Ascii_builtins.builtins) 2024
               (Birthday.mkBirthdayBook []) "notes.txt/birthdays.xml"
               (ET.OSError ET.NotADirectoryError))
        <> Py.Raise (Birthday.DataFormatError filename message))
  /\ (forall filename message,
        snd (Car.load (B := Ascii_builtins.builtins) (Car.mkCarRegistry [])
               "cars.xml" ET.LookupError)
        <> Py.Raise (Car.DataFormatError filename message)).
Proof. repeat split; discriminate. Qed.

(** C9.  [Book(...)] with the year 2025 and 100 pages raises
    InvalidInputError, whatever the year of the call is: the bound of the
    year is the literal 2024, and no year after it is accepted; up to 2024
    the construction succeeds exactly when the year is not negative and
    the number of pages is positive. *)
Theorem book_after_2024_rejected {B : Py.Builtins}
    (title author genre : Py.pystr) (year pages : Z) :
  Library.new_Book title author 2025 genre 100
  = Py.Raise (Library.InvalidInputError 2025
      ("Год издания должен быть в диапазоне 0-" ++ Py.py_str 2024)%string)
  /\ (Library.new_Book title author year genre pages
      = Py.Return (Library.mkBook title author year genre pages)
      <-> 0 <= year <= 2024 /\ 0 < pages)
  /\ (forall e, Library.new_Book title author year genre pages = Py.Raise e ->
        exists msg, e = Library.InvalidInputError year msg
                    \/ e = Library.InvalidInputError pages msg).
Proof.
  split; [reflexivity|].
  rewrite library_new_Book_eq.
  pose proof (library_post_init_ok
                (Library.mkBook title author year genre pages)) as Hok.
  cbn [Library.year Library.pages] in Hok.
  split.
  - destruct (Library.__post_init__
                (Library.mkBook title author year genre pages)) as [[]|e].
    + split; [intros _; now apply Hok | reflexivity].
    + split; [discriminate|]. intros H. apply Hok in H. discriminate.
  - intros e. unfold Library.__post_init__.
    cbn [Library.year Library.pages].
    destruct ((year <? 0) || (year >? Library.current_year)).
    { intros [= <-]. eauto. }
    destruct (pages <=? 0); [|discriminate].
    intros [= <-]. eauto.
Qed.

(** C1.  A library file with a good entry and an entry whose year is 3000:
    [Library.load] raises the InvalidInputError of the second entry, loads
    nothing and reports nothing, where [BirthdayBook.load] and
    [CarRegistry.load] on a file with a good entry and an entry that fails
    validation load the good one and report one skipped. *)
Theorem library_load_aborts_on_invalid_entry :
  Library.load (B := Ascii_builtins.builtins) (Library.mkLibrary [])
    "library.xml" (ET.Tree Examples.library_file)
  = (Library.mkLibrary [],
     Py.Raise (Library.InvalidInputError 3000
                 "Год издания должен быть в диапазоне 0-2024"))
  /\ Birthday.load (B := Ascii_builtins.builtins) 2024
       (Birthday.mkBirthdayBook []) "birthdays.xml"
       (ET.Tree Examples.birthday_file)
     = (Birthday.mkBirthdayBook [Examples.ivanov], Py.Return (1, 1))
  /\ Car.load (B := Ascii_builtins.builtins) (Car.mkCarRegistry [])
       "cars.xml" (ET.Tree Examples.car_file)
     = (Car.mkCarRegistry [Examples.audi], Py.Return (1, 1)).
Proof. repeat split. Qed.

(** * Selecting by month *)

Section FilterFacts.
Import Py Birthday.

Lemma day_pairwise_comparable (l : list Person) :
  pairwise_comparable (fun p => Some (day p)) int_lt l = true.
Proof.
  induction l as [|x l IH]; simpl; [reflexivity|].
  rewrite IH, andb_true_r. now apply forallb_forall.
Qed.

Lemma day_sorted_by (l : list Person) :
  sorted_by (fun p => Some (day p)) int_lt l ->
  StronglySorted (fun p q => day p <= day q) l.
Proof.
  induction 1 as [|x l _ IH Hx]; constructor; [exact IH|].
  eapply Forall_impl; [|exact Hx].
  intros y (kx & ky & [= <-] & [= <-] & [= Hlt]). lia.
Qed.

Lemma day_stable_sort_sorted (l : list Person) :
  StronglySorted (fun p q => day p <= day q)
    (stable_sort (fun p => Some (day p)) int_lt l).
Proof.
  apply day_sorted_by, stable_sort_sorted.
  - apply int_lt_asym.
  - apply int_lt_negtrans.
  - apply day_pairwise_comparable.
Qed.

Lemma day_stable_sort_stable (d : Z) (l : list Person) :
  filter (fun p => day p =? d) (stable_sort (fun p => Some (day p)) int_lt l)
  = filter (fun p => day p =? d) l.
Proof.
  apply stable_sort_filter. intros x y Hx Hy. unfold item_lt, int_lt.
  apply Z.eqb_eq in Hx, Hy. apply Z.ltb_ge. lia.
Qed.
End FilterFacts.

(** C8.  For a month from 1 to 12, [filter_by_month] returns the persons
    of the book born in that month and no others, by day in ascending
    order, those with the same day in the order they have in the book, and
    the book keeps its sequence; for any other month it raises
    InvalidMonthError and returns nothing. *)
Theorem filter_by_month_spec (self : Birthday.BirthdayBook) (month : Z) :
  let born := filter (fun p => Birthday.month p =? month)
                (Birthday.people self) in
  (1 <= month <= 12 ->
   exists result,
     Birthday.filter_by_month self month = (self, Py.Return result)
     /\ Permutation result born
     /\ (forall p, In p result <->
                   In p (Birthday.people self) /\ Birthday.month p = month)
     /\ StronglySorted (fun p q => Birthday.day p <= Birthday.day q) result
     /\ (forall d, filter (fun p => Birthday.day p =? d) result
                   = filter (fun p => Birthday.day p =? d) born))
  /\ (~ 1 <= month <= 12 ->
      Birthday.filter_by_month self month
      = (self, Py.Raise (Birthday.InvalidMonthError month
                           "Недопустимый номер месяца"))).
Proof.
  intros born. unfold Birthday.filter_by_month. split.
  - intros Hm.
    destruct ((month <? 1) || (month >? 12)) eqn:E;
      [apply orb_true_iff in E as [E|E]; lia|].
    eexists. split; [reflexivity|].
    unfold Birthday.birthday_in_month. fold born.
    assert (Hp : Permutation
                   (Py.stable_sort (fun p => Some (Birthday.day p)) Py.int_lt born)
                   born) by apply stable_sort_perm.
    split; [exact Hp|]. split; [|split].
    + intros p. split.
      * intros Hin. apply (Permutation_in _ Hp) in Hin.
        apply filter_In in Hin as [Hin Hq]. split; [exact Hin|].
        now apply Z.eqb_eq.
      * intros [Hin Hq]. apply (Permutation_in _ (Permutation_sym Hp)).
        apply filter_In. split; [exact Hin|]. now apply Z.eqb_eq.
    + apply day_stable_sort_sorted.
    + intros d. apply day_stable_sort_stable.
  - intros Hm.
    destruct ((month <? 1) || (month >? 12)) eqn:E; [reflexivity|].
    apply orb_false_iff in E as [E1 E2]. lia.
Qed.

Lemma filter_by_month_spec_witness :
  exists result,
    Birthday.filter_by_month Examples.sorted_book 5
    = (Examples.sorted_book, Py.Return result)
    /\ Permutation result [Examples.ivanov; Examples.mikhailov]
    /\ (forall p, In p result <->
                  In p (Birthday.people Examples.sorted_book)
                  /\ Birthday.month p = 5)
    /\ StronglySorted (fun p q => Birthday.day p <= Birthday.day q) result
    /\ (forall d, filter (fun p => Birthday.day p =? d) result
                  = filter (fun p => Birthday.day p =? d)
                      [Examples.ivanov; Examples.mikhailov]).
Proof.
  apply (filter_by_month_spec Examples.sorted_book 5).
  lia.
Defined.

(** C10.  Every car of a registry that a session can hold (a new registry,
    then any calls of [add] and [load], whether they return or raise) has
    a current speed within its limit; so [select_speeding] returns the
    empty list and leaves the registry as it is, and no car of the registry
    is speeding or has the status of an exceeded limit. *)
Theorem registry_never_speeding {B : Py.Builtins} (self : Car.CarRegistry) :
  Car.reachable self ->
  Forall Car.within_limit (Car.cars self)
  /\ Car.select_speeding self = (self, [])
  /\ Forall (fun car => Car.is_speeding car = false
                        /\ Car.speed_status car <> "ПРЕВЫШЕНИЕ"%string)
       (Car.cars self).
Proof.
  intros H. apply car_reachable_within_limit in H.
  split; [exact H|]. split.
  - unfold Car.select_speeding. now rewrite (car_no_speeding _ H).
  - eapply Forall_impl; [|exact H]. intros car Hc. split.
    + unfold Car.is_speeding, Car.within_limit in *.
      destruct (Car.current_speed car >? Car.max_speed car) eqn:E;
        [lia | reflexivity].
    + now apply car_status_within_limit.
Qed.

Lemma registry_never_speeding_witness :
  Forall Car.within_limit (Car.cars Examples.registry)
  /\ Car.select_speeding Examples.registry = (Examples.registry, [])
  /\ Forall (fun car => Car.is_speeding car = false
                        /\ Car.speed_status car <> "ПРЕВЫШЕНИЕ"%string)
       (Car.cars Examples.registry).
Proof.
  apply (registry_never_speeding (B := Ascii_builtins.builtins)
           Examples.registry).
  change Examples.registry
    with (fst (Car.add (B := Ascii_builtins.builtins)
                 (fst (Car.add (B := Ascii_builtins.builtins)
                         (Car.mkCarRegistry []) "Audi" "A4" "A001AA" 200 200))
                 "BMW" "X5" "B002BB" 250 0)).
  apply Car.after_add, Car.after_add, Car.start.
Defined.

(** C2, as the code has it.  After any sequence of successful [add] and
    [load] calls the sequence is in the order of its key: the people by
    (last name, first name), both in lower case; the cars by
    (brand, model) and the books by title, compared as they are written,
    capitals before small letters. *)
Theorem collections_sorted {B : Py.Builtins} :
  (forall book, Birthday.reachable_ok book -> Birthday.sorted book)
  /\ (forall registry, Car.reachable_ok registry -> Car.sorted registry)
  /\ (forall library, Library.reachable_ok library -> Library.sorted library).
Proof.
  split; [|split].
  - apply @birthday_reachable_sorted.
  - apply @car_reachable_sorted.
  - apply @library_reachable_sorted.
Qed.

Lemma collections_sorted_witness :
  Birthday.sorted (B := Ascii_builtins.builtins) Examples.sorted_book
  /\ Car.sorted Examples.registry
  /\ Library.sorted Examples.library_B_a.
Proof.
  destruct (collections_sorted (B := Ascii_builtins.builtins))
    as (Hbook & Hregistry & Hlibrary).
  split; [|split].
  - apply Hbook.
    apply (Birthday.reach_add 2024
             (Birthday.mkBirthdayBook [Examples.mikhailov; Examples.petrova])
             "Ivanov" "Ivan" "111" 15 5 1990); [|reflexivity].
    apply (Birthday.reach_add 2024
             (Birthday.mkBirthdayBook [Examples.petrova])
             "Mikhailov" "Dmitry" "555" 15 5 1992); [|reflexivity].
    apply (Birthday.reach_add 2024 (Birthday.mkBirthdayBook [])
             "Petrova" "Maria" "222" 3 1 1985); [|reflexivity].
    apply Birthday.reach_new.
  - apply Hregistry.
    apply (Car.reach_add (Car.mkCarRegistry [Examples.bmw])
             "Audi" "A4" "A001AA" 200 200); [|reflexivity].
    apply (Car.reach_add (Car.mkCarRegistry [])
             "BMW" "X5" "B002BB" 250 0); [|reflexivity].
    apply Car.reach_new.
  - apply Hlibrary.
    apply (Library.reach_add (Library.mkLibrary [Examples.book_a])
             "B" "Author" 2000 "Novel" 100); [|reflexivity].
    apply (Library.reach_add (Library.mkLibrary [])
             "a" "Author" 2000 "Novel" 100); [|reflexivity].
    apply Library.reach_new.
Defined.

(** C2, as stated, fails for the library: after [add("a", ...)] and then
    [add("B", ...)] the books stand as B, a, which is not the order of the
    titles without regard to case. *)
Lemma library_order_is_case_sensitive :
  Library.reachable_ok (B := Ascii_builtins.builtins) Examples.library_B_a
  /\ ~ Library.sorted_ignoring_case (B := Ascii_builtins.builtins)
         Examples.library_B_a.
Proof.
  split.
  - apply (Library.reach_add (Library.mkLibrary [Examples.book_a])
             "B" "Author" 2000 "Novel" 100); [|reflexivity].
    apply (Library.reach_add (Library.mkLibrary [])
             "a" "Author" 2000 "Novel" 100); [|reflexivity].
    apply Library.reach_new.
  - unfold Library.sorted_ignoring_case, Py.sorted_by. intros H.
    inversion H as [|x l _ Hx]; subst.
    inversion Hx as [|y l' Hle _]; subst.
    destruct Hle as (kx & ky & [= <-] & [= <-] & Hlt).
    vm_compute in Hlt. discriminate.
Qed.

(** C4, as the code has it.  An [add] whose record cannot be constructed
    leaves the collection as it was.  [CarRegistry.add] and [Library.add]
    raise the error of the construction; [BirthdayBook.add] raises it when
    the month is from 1 to 12, and for any other month raises
    InvalidMonthError before it constructs anything. *)
Theorem failing_add_leaves_collection {B : Py.Builtins} :
  (forall current_year book last_name first_name phone day month year e,
     Birthday.new_Person current_year (Some last_name) (Some first_name)
       (Some phone) day month year = Py.Raise e ->
     fst (Birthday.add current_year book last_name first_name phone
            day month year) = book
     /\ (1 <= month <= 12 ->
         snd (Birthday.add current_year book last_name first_name phone
                day month year) = Py.Raise e)
     /\ (~ 1 <= month <= 12 ->
         snd (Birthday.add current_year book last_name first_name phone
                day month year)
         = Py.Raise (Birthday.InvalidMonthError month
                       "Недопустимый номер месяца")))
  /\ (forall registry brand model license_plate max_speed current_speed e,
        Car.new_Car (Some brand) (Some model) (Some license_plate)
          max_speed current_speed = Py.Raise e ->
        Car.add registry brand model license_plate max_speed current_speed
        = (registry, Py.Raise e))
  /\ (forall library title author year genre pages e,
        Library.new_Book (Some title) (Some author) year (Some genre) pages
        = Py.Raise e ->
        Library.add library title author year genre pages
        = (library, Py.Raise e)).
Proof.
  split; [|split].
  - intros cy book ln fn ph d m y e H.
    rewrite (birthday_add_failure cy book ln fn ph d m y e H).
    split; [reflexivity|]. cbn [snd]. split; intros Hm.
    + destruct ((m <? 1) || (m >? 12)) eqn:E; [|reflexivity].
      apply orb_true_iff in E as [E|E]; lia.
    + destruct ((m <? 1) || (m >? 12)) eqn:E; [reflexivity|].
      apply orb_false_iff in E as [E1 E2]. lia.
  - intros. now apply car_add_failure.
  - intros. now apply library_add_failure.
Qed.

Lemma failing_add_leaves_collection_witness :
  Car.add (B := Ascii_builtins.builtins) Examples.registry
    "Lada" "Vesta" "C003CC" 200 250
  = (Examples.registry,
     Py.Raise (Car.speed_limit_exceeded (B := Ascii_builtins.builtins)
                 250 200 "Lada Vesta (C003CC)")).
Proof.
  apply (failing_add_leaves_collection (B := Ascii_builtins.builtins)).
  reflexivity.
Defined.

(** C4, as stated, fails for the birthday book: with month 13 and year 1800
    the construction of the person raises InvalidDateError for the year,
    and [add] raises InvalidMonthError. *)
Lemma birthday_add_reports_month_first :
  Birthday.new_Person (B := Ascii_builtins.builtins) 2024
    (Some "Ivanov"%string) (Some "Ivan"%string) (Some "111"%string) 1 13 1800
  = Py.Raise (Birthday.InvalidDateError 1 13 1800
                "Год должен быть в диапазоне 1900-2024")
  /\ Birthday.add (B := Ascii_builtins.builtins) 2024
       (Birthday.mkBirthdayBook []) "Ivanov" "Ivan" "111" 1 13 1800
     = (Birthday.mkBirthdayBook [],
        Py.Raise (Birthday.InvalidMonthError 13 "Недопустимый номер месяца"))
  /\ snd (Birthday.add (B := Ascii_builtins.builtins) 2024
            (Birthday.mkBirthdayBook []) "Ivanov" "Ivan" "111" 1 13 1800)
     <> Py.Raise (Birthday.InvalidDateError 1 13 1800
                    "Год должен быть в диапазоне 1900-2024").
Proof. repeat split. discriminate. Qed.

(** X23.  When [str] gives numerals that [int] reads back, a collection
    that is in the order of its key (as [add] and [load] leave it), holds
    valid records and has string fields that are not empty and hold
    nothing that is no character of XML and no carriage return is
    written to a tree that a file gives back as it is, and [load] of that
    tree into an empty collection gives the same records in the same
    order, all counted and none skipped. *)
Theorem save_load_round_trip {B : Py.Builtins} (law : str_law B) :
  (forall current_year filename book,
     Forall (Birthday.valid current_year) (Birthday.people book) ->
     forallb Birthday.plain (Birthday.people book) = true ->
     Birthday.sorted book ->
     ET.reread (Birthday.save_tree book) = Some (Birthday.save_tree book)
     /\ Birthday.load current_year (Birthday.mkBirthdayBook []) filename
          (ET.Tree (Birthday.save_tree book))
        = (book, Py.Return (Z.of_nat (List.length (Birthday.people book)), 0)))
  /\ (forall filename registry,
        Forall Car.valid (Car.cars registry) ->
        forallb Car.plain (Car.cars registry) = true ->
        Car.sorted registry ->
        ET.reread (Car.save_tree registry) = Some (Car.save_tree registry)
        /\ Car.load (Car.mkCarRegistry []) filename
             (ET.Tree (Car.save_tree registry))
           = (registry,
              Py.Return (Z.of_nat (List.length (Car.cars registry)), 0)))
  /\ (forall filename library,
        Forall Library.valid (Library.books library) ->
        forallb Library.plain (Library.books library) = true ->
        Library.sorted library ->
        ET.reread (Library.save_tree library)
        = Some (Library.save_tree library)
        /\ Library.load (Library.mkLibrary []) filename
             (ET.Tree (Library.save_tree library))
           = (library,
              Py.Return (Z.of_nat (List.length (Library.books library))))).
Proof.
  split; [|split].
  - intros. now apply birthday_round_trip.
  - intros. now apply car_round_trip.
  - intros. now apply library_round_trip.
Qed.

Lemma save_load_round_trip_witness :
  Birthday.load (B := Ascii_builtins.builtins) 2024
    (Birthday.mkBirthdayBook []) "birthdays.xml"
    (ET.Tree (Birthday.save_tree (B := Ascii_builtins.builtins) Examples.sorted_book))
  = (Examples.sorted_book, Py.Return (3, 0))
  /\ Car.load (B := Ascii_builtins.builtins) (Car.mkCarRegistry []) "cars.xml"
       (ET.Tree (Car.save_tree (B := Ascii_builtins.builtins) Examples.registry))
     = (Examples.registry, Py.Return (2, 0))
  /\ Library.load (B := Ascii_builtins.builtins) (Library.mkLibrary [])
       "library.xml" (ET.Tree (Library.save_tree (B := Ascii_builtins.builtins) Examples.library_B_a))
     = (Examples.library_B_a, Py.Return 2).
Proof.
  destruct (save_load_round_trip ascii_builtins_law)
    as (Hbook & Hregistry & Hlibrary).
  split; [|split].
  - apply (Hbook 2024 "birthdays.xml"%string Examples.sorted_book).
    + repeat constructor.
    + reflexivity.
    + apply (birthday_sort_people_ok (Birthday.people Examples.sorted_book)).
      reflexivity.
  - apply (Hregistry "cars.xml"%string Examples.registry).
    + repeat constructor.
    + reflexivity.
    + apply (car_sort_cars_ok (B := Ascii_builtins.builtins) (Car.cars Examples.registry)). reflexivity.
  - apply (Hlibrary "library.xml"%string Examples.library_B_a).
    + repeat constructor.
    + reflexivity.
    + apply (library_sort_books_ok (B := Ascii_builtins.builtins)
             (Library.books Examples.library_B_a)).
      reflexivity.
Defined.


(** * The age of a person *)

(** X1.  [age] is the number of anniversaries that have come: it is [a]
    exactly when the anniversary number [a] is today or before and the
    next one is still ahead. *)
Theorem age_counts_anniversaries (today : Z * Z * Z) (p : Birthday.Person)
    (a : Z) :
  Birthday.age today p = a <->
  Birthday.date_le
    (Birthday.year p + a, Birthday.month p, Birthday.day p) today
  /\ Birthday.date_lt today
       (Birthday.year p + a + 1, Birthday.month p, Birthday.day p).
Proof.
  destruct today as [[Y M] D].
  unfold Birthday.age, Birthday.date_le, Birthday.date_lt, Py.int_tuple_lt.
  cbn [fst snd].
  destruct (M =? Birthday.month p) eqn:Em; cbn [negb];
    [destruct (D =? Birthday.day p) eqn:Ed; cbn [negb];
       [|destruct (D <? Birthday.day p) eqn:Eld]
    |destruct (M <? Birthday.month p) eqn:Elm];
    (split;
     [ intros <-; split; [|lia];
       first [ left; f_equal; [f_equal|]; lia | right; lia ]
     | intros [[[= H1 H2 H3]|H] H']; lia ]).
Qed.

(** X2.  The age does not go down as the days pass. *)
Theorem age_monotone (today later : Z * Z * Z) (p : Birthday.Person) :
  Birthday.date_le today later ->
  Birthday.age today p <= Birthday.age later p.
Proof.
  destruct today as [[Y M] D], later as [[Y' M'] D'].
  unfold Birthday.age, Birthday.date_le, Birthday.date_lt, Py.int_tuple_lt.
  cbn [fst snd]. intros H.
  assert (H' : Y < Y' \/ (Y = Y' /\ (M < M' \/ (M = M' /\ D <= D')))).
  { destruct H as [[= -> -> ->]|H]; lia. }
  clear H.
  destruct (M =? Birthday.month p) eqn:E1, (D =? Birthday.day p) eqn:E2,
    (M <? Birthday.month p) eqn:E3, (D <? Birthday.day p) eqn:E4,
    (M' =? Birthday.month p) eqn:E1', (D' =? Birthday.day p) eqn:E2',
    (M' <? Birthday.month p) eqn:E3', (D' <? Birthday.day p) eqn:E4';
    cbn [negb]; lia.
Qed.

Lemma age_monotone_witness :
  Birthday.age (2024, 5, 14) Examples.ivanov
  <= Birthday.age (2024, 5, 15) Examples.ivanov.
Proof.
  apply (age_monotone (2024, 5, 14) (2024, 5, 15) Examples.ivanov).
  right. simpl. lia.
Defined.

(** X3.  A person that [Person(...)] accepted when the year was
    [current_year] has, in that year or later, an age from -1 to the
    years since 1900; the age is negative exactly for a person born in
    the year of today whose birthday is still ahead. *)
Theorem age_of_valid_person {B : Py.Builtins} (current_year : Z)
    (today_year today_month today_day : Z) (p : Birthday.Person) :
  Birthday.valid current_year p ->
  current_year <= today_year ->
  let age := Birthday.age (today_year, today_month, today_day) p in
  -1 <= age <= today_year - 1900
  /\ (age < 0 <->
      Birthday.year p = today_year
      /\ (today_month < Birthday.month p
          \/ (today_month = Birthday.month p
              /\ today_day < Birthday.day p))).
Proof.
  intros Hv Hc. apply birthday_post_init_ok in Hv.
  destruct Hv as (Hy & _ & _).
  unfold Birthday.age, Py.int_tuple_lt. cbn [fst snd].
  destruct (today_month =? Birthday.month p) eqn:E1,
    (today_day =? Birthday.day p) eqn:E2,
    (today_month <? Birthday.month p) eqn:E3,
    (today_day <? Birthday.day p) eqn:E4; cbn [negb]; lia.
Qed.

Lemma age_of_valid_person_witness :
  let age :=
    Birthday.age (2024, 1, 1)
      (Birthday.mkPerson (Some "Ivanov"%string) (Some "Ivan"%string)
         (Some "111"%string) 31 12 2024) in
  -1 <= age <= 2024 - 1900
  /\ (age < 0 <-> 2024 = 2024 /\ (1 < 12 \/ (1 = 12 /\ 1 < 31))).
Proof.
  apply (age_of_valid_person (B := Ascii_builtins.builtins) 2024 2024 1 1
           (Birthday.mkPerson (Some "Ivanov"%string) (Some "Ivan"%string)
              (Some "111"%string) 31 12 2024)).
  - reflexivity.
  - lia.
Defined.

(** * The calendar of [_get_days_in_month] *)

(** X4.  Whatever the record, [_get_days_in_month] gives 28 to 31 days; over
    the twelve months of a year the days add up to 366 when the year is
    divisible by 4 and not by 100, or by 400, and to 365 otherwise. *)
Theorem days_in_year (last_name first_name phone : Py.pystr) (day year : Z)
    (p : Birthday.Person) :
  28 <= Birthday._get_days_in_month p <= 31
  /\ fold_right Z.add 0
       (map (fun month =>
               Birthday._get_days_in_month
                 (Birthday.mkPerson last_name first_name phone day month year))
          [1; 2; 3; 4; 5; 6; 7; 8; 9; 10; 11; 12])
     = if ((year mod 4 =? 0) && negb (year mod 100 =? 0))
          || (year mod 400 =? 0)
       then 366 else 365.
Proof.
  split.
  - unfold Birthday._get_days_in_month.
    destruct (Birthday.month p =? 2).
    + destruct (((Birthday.year p mod 4 =? 0)
                 && negb (Birthday.year p mod 100 =? 0))
                || (Birthday.year p mod 400 =? 0)); lia.
    + destruct (existsb (Z.eqb (Birthday.month p)) [4; 6; 9; 11]); lia.
  - unfold Birthday._get_days_in_month.
    cbn [map fold_right Birthday.month Birthday.year Z.eqb existsb
         Pos.eqb orb].
    destruct (((year mod 4 =? 0) && negb (year mod 100 =? 0))
              || (year mod 400 =? 0)); reflexivity.
Qed.

(** * The months of a book *)

Section MonthFacts.
Import Py Birthday.

Lemma born_in_perm (self : BirthdayBook) (m : Z) :
  1 <= m <= 12 ->
  Permutation (born_in self m) (filter (fun p => month p =? m) (people self)).
Proof.
  intros Hm. unfold born_in, filter_by_month.
  destruct ((m <? 1) || (m >? 12)) eqn:E;
    [apply orb_true_iff in E as [E|E]; lia|].
  cbn [snd]. apply stable_sort_perm.
Qed.

Lemma months_cons (p : Person) (l : list Person) (ms : list Z) :
  NoDup ms ->
  Permutation
    (List.concat (map (fun m => filter (fun q => month q =? m) (p :: l)) ms))
    ((if existsb (Z.eqb (month p)) ms then [p] else [])
     ++ List.concat (map (fun m => filter (fun q => month q =? m) l) ms)).
Proof.
  induction 1 as [|m ms Hnin Hnd IH]; [apply Permutation_refl|].
  cbn [map List.concat filter existsb].
  destruct (month p =? m) eqn:E.
  - apply Z.eqb_eq in E. cbn [orb app].
    assert (Hex : existsb (Z.eqb (month p)) ms = false).
    { apply not_true_is_false. intros Hex.
      apply existsb_exists in Hex as (x & Hin & Hx).
      apply Z.eqb_eq in Hx. congruence. }
    rewrite Hex in IH. cbn [app] in IH.
    constructor. now apply Permutation_app_head.
  - cbn [orb].
    eapply perm_trans; [apply Permutation_app_head, IH|].
    rewrite !app_assoc. apply Permutation_app_tail, Permutation_app_comm.
Qed.

Lemma months_partition (l : list Person) (ms : list Z) :
  NoDup ms ->
  Forall (fun p => In (month p) ms) l ->
  Permutation (List.concat (map (fun m => filter (fun q => month q =? m) l) ms)) l.
Proof.
  intros Hnd. induction 1 as [|p l Hp _ IH].
  - induction ms as [|m ms IHms]; [constructor|].
    cbn [map List.concat filter app]. apply IHms. now inversion Hnd.
  - eapply perm_trans; [now apply months_cons|].
    assert (Hex : existsb (Z.eqb (month p)) ms = true).
    { apply existsb_exists. exists (month p). split; [exact Hp|].
      apply Z.eqb_refl. }
    rewrite Hex. cbn [app]. now constructor.
Qed.

Lemma concat_perm {A : Type} (ls ls' : list (list A)) :
  Forall2 (@Permutation A) ls ls' -> Permutation (List.concat ls) (List.concat ls').
Proof.
  induction 1; [constructor|]. cbn [List.concat]. now apply Permutation_app.
Qed.
End MonthFacts.

(** X5.  The twelve selections by month divide a book of valid records:
    put together, the results of [filter_by_month] for the months 1 to 12
    hold every person of the book once. *)
Theorem months_divide_book {B : Py.Builtins} (current_year : Z)
    (book : Birthday.BirthdayBook) :
  Forall (Birthday.valid current_year) (Birthday.people book) ->
  Permutation
    (List.concat (map (Birthday.born_in book)
               [1; 2; 3; 4; 5; 6; 7; 8; 9; 10; 11; 12]))
    (Birthday.people book).
Proof.
  intros Hv.
  eapply perm_trans;
    [|apply (months_partition (Birthday.people book)
               [1; 2; 3; 4; 5; 6; 7; 8; 9; 10; 11; 12])].
  - apply concat_perm.
    repeat (constructor; [apply born_in_perm; lia|]). constructor.
  - repeat (constructor; [cbn [In]; lia|]). constructor.
  - eapply Forall_impl; [|exact Hv]. intros p Hp.
    apply birthday_post_init_ok in Hp. destruct Hp as (_ & Hm & _).
    cbn [In]. lia.
Qed.

Lemma months_divide_book_witness :
  Permutation
    (List.concat (map (Birthday.born_in Examples.sorted_book)
               [1; 2; 3; 4; 5; 6; 7; 8; 9; 10; 11; 12]))
    (Birthday.people Examples.sorted_book).
Proof.
  apply (months_divide_book (B := Ascii_builtins.builtins) 2024
           Examples.sorted_book).
  repeat constructor.
Defined.

(** * What [load] takes from a tree *)

Section BirthdayLoadFacts.
Import Py Birthday.
Context {B : Builtins}.

Lemma birthday_load_entry_valid (cy : Z) (e : ET.Element) (p : Person) :
  load_entry cy e = Return p -> valid cy p.
Proof.
  unfold load_entry, bind.
  destruct (field_text "last_name" e); [|discriminate].
  destruct (field_text "first_name" e); [|discriminate].
  destruct (field_text "phone" e); [|discriminate].
  destruct (field_int "day" e); [|discriminate].
  destruct (field_int "month" e); [|discriminate].
  destruct (field_int "year" e); [|discriminate].
  rewrite birthday_new_Person_eq. unfold valid.
  destruct (__post_init__ cy _) as [[]|] eqn:H; [|discriminate].
  now intros [= <-].
Qed.

Lemma birthday_field_text_raises (name : string) (e : ET.Element) (x : exn) :
  field_text name e = Raise x -> x = AttributeError.
Proof. unfold field_text. destruct (ET.find name e); congruence. Qed.

Lemma birthday_field_int_raises (name : string) (e : ET.Element) (x : exn) :
  field_int name e = Raise x ->
  x = AttributeError \/ x = TypeError \/ x = ValueError.
Proof.
  unfold field_int, bind.
  destruct (field_text name e) as [[s|]|y] eqn:H.
  - destruct (py_int s); [discriminate|]. intros [= <-]. tauto.
  - intros [= <-]. tauto.
  - intros [= <-]. apply birthday_field_text_raises in H. tauto.
Qed.

(** The exceptions of an entry: those the inner [try] catches, and
    TypeError. *)
Lemma birthday_load_entry_raises (cy : Z) (e : ET.Element) (x : exn) :
  load_entry cy e = Raise x -> x = TypeError \/ caught x = true.
Proof.
  unfold load_entry, bind.
  destruct (field_text "last_name" e) as [ln|y] eqn:H1;
    [|intros [= <-]; apply birthday_field_text_raises in H1; subst; now right].
  destruct (field_text "first_name" e) as [fn|y] eqn:H2;
    [|intros [= <-]; apply birthday_field_text_raises in H2; subst; now right].
  destruct (field_text "phone" e) as [ph|y] eqn:H3;
    [|intros [= <-]; apply birthday_field_text_raises in H3; subst; now right].
  destruct (field_int "day" e) as [d|y] eqn:H4;
    [|intros [= <-]; apply birthday_field_int_raises in H4;
      destruct H4 as [-> | [-> | ->]]; auto].
  destruct (field_int "month" e) as [m|y] eqn:H5;
    [|intros [= <-]; apply birthday_field_int_raises in H5;
      destruct H5 as [-> | [-> | ->]]; auto].
  destruct (field_int "year" e) as [yr|y] eqn:H6;
    [|intros [= <-]; apply birthday_field_int_raises in H6;
      destruct H6 as [-> | [-> | ->]]; auto].
  rewrite birthday_new_Person_eq.
  destruct (__post_init__ cy _) as [[]|z] eqn:H; [discriminate|].
  intros [= <-]. apply birthday_post_init_raises in H.
  destruct H as [[msg ->] | [msg ->]]; now right.
Qed.

Lemma birthday_load_loop_spec (cy : Z) (es : list ET.Element)
    (acc : list Person) (n : Z) :
  match load_loop cy es acc n with
  | Return (l, n') =>
      l = acc ++ accepted cy es
      /\ Z.of_nat (List.length (accepted cy es)) + (n' - n)
         = Z.of_nat (List.length es)
      /\ n <= n'
  | Raise x =>
      x = TypeError
      /\ exists e, In e es /\ load_entry cy e = Raise TypeError
  end.
Proof.
  revert acc n. induction es as [|e es IH]; intros acc n.
  - cbn. rewrite app_nil_r. split; [reflexivity | lia].
  - cbn [load_loop accepted flat_map].
    destruct (load_entry cy e) as [p|x] eqn:He.
    + specialize (IH (acc ++ [p]) n).
      destruct (load_loop cy es (acc ++ [p]) n) as [[l n']|x].
      * destruct IH as [-> IH]. fold (accepted cy es).
        rewrite <- app_assoc. split; [reflexivity|].
        rewrite length_app. cbn [List.length]. lia.
      * destruct IH as [-> (e' & Hin & He')]. split; [reflexivity|].
        exists e'. split; [now right | exact He'].
    + destruct (caught x) eqn:Hc.
      * specialize (IH acc (n + 1)).
        destruct (load_loop cy es acc (n + 1)) as [[l n']|y].
        -- destruct IH as [-> IH]. fold (accepted cy es).
           change ([] ++ accepted cy es) with (accepted cy es).
           split; [reflexivity|]. cbn [List.length]. lia.
        -- destruct IH as [-> (e' & Hin & He')]. split; [reflexivity|].
           exists e'. split; [now right | exact He'].
      * apply birthday_load_entry_raises in He as He'.
        destruct He' as [-> | He']; [|congruence].
        split; [reflexivity|]. exists e. split; [now left | exact He].
Qed.

Lemma birthday_accepted_valid (cy : Z) (es : list ET.Element) :
  Forall (valid cy) (accepted cy es).
Proof.
  induction es as [|e es IH]; [constructor|].
  cbn [accepted flat_map]. apply Forall_app. split; [|exact IH].
  destruct (load_entry cy e) as [p|] eqn:He; [|constructor].
  constructor; [|constructor]. eapply birthday_load_entry_valid; eassumption.
Qed.

(** Two people that both have a key can be compared. *)
Lemma birthday_pairwise_comparable (l : list Person) :
  forallb (has_key sort_key) l = true ->
  pairwise_comparable sort_key key_lt l = true.
Proof.
  induction l as [|x l IH]; [reflexivity|].
  cbn [forallb pairwise_comparable]. intros H.
  apply andb_prop in H as [Hx Hl]. rewrite (IH Hl), andb_true_r.
  apply forallb_forall. intros y Hy.
  rewrite forallb_forall in Hl. specialize (Hl y Hy).
  unfold has_key in Hx, Hl. unfold comparable.
  destruct (sort_key y) as [[a b]|]; [|discriminate].
  destruct (sort_key x) as [[c d]|]; [|discriminate].
  unfold key_lt, tuple_lt. cbn [fst snd pystr_eqb pystr_lt].
  destruct (String.eqb a c); [destruct (String.eqb b d)|]; reflexivity.
Qed.

Lemma birthday_no_key (l : list Person) :
  forallb (has_key sort_key) l = false ->
  Exists (fun p => last_name p = None \/ first_name p = None) l.
Proof.
  induction l as [|p l IH]; [discriminate|].
  cbn [forallb]. intros Hk. apply andb_false_iff in Hk as [Hk|Hk].
  - left. unfold has_key, sort_key in Hk.
    destruct (last_name p); [|now left].
    destruct (first_name p); [discriminate | now right].
  - right. now apply IH.
Qed.

Lemma birthday_sort_people_cases (l : list Person) :
  (forallb (has_key sort_key) l = true /\
   exists l', sort_people l = (mkBirthdayBook l', Return tt))
  \/ (forallb (has_key sort_key) l = false /\
      sort_people l = (mkBirthdayBook l, Raise AttributeError)).
Proof.
  unfold sort_people, list_sort.
  destruct (forallb (has_key sort_key) l) eqn:Hk; cbn [negb].
  - left. split; [reflexivity|].
    rewrite (birthday_pairwise_comparable l Hk). cbn [negb]. eauto.
  - right. split; reflexivity.
Qed.
End BirthdayLoadFacts.

(** X7.  When [BirthdayBook.load] returns, the book holds the records of the
    entries that could be read and passed validation, and only those, in
    the order of the key, whatever it held before; the first number is
    their count, and the two numbers add up to the number of [person]
    entries of the file. *)
Theorem birthday_load_accounting {B : Py.Builtins} (current_year : Z)
    (self : Birthday.BirthdayBook) (filename : string) (root : ET.Element)
    (self' : Birthday.BirthdayBook) (loaded skipped : Z) :
  Birthday.load current_year self filename (ET.Tree root)
  = (self', Py.Return (loaded, skipped)) ->
  let entries := ET.findall "person" root in
  Permutation (Birthday.people self') (Birthday.accepted current_year entries)
  /\ Birthday.sorted self'
  /\ Forall (Birthday.valid current_year) (Birthday.people self')
  /\ loaded = Z.of_nat (List.length (Birthday.people self'))
  /\ 0 <= skipped
  /\ loaded + skipped = Z.of_nat (List.length entries)
  /\ (forall other,
        Birthday.load current_year other filename (ET.Tree root)
        = (self', Py.Return (loaded, skipped))).
Proof.
  intros H entries. unfold Birthday.load in *. fold entries in H |- *.
  pose proof (birthday_load_loop_spec current_year entries [] 0) as Hl.
  destruct (Birthday.load_loop current_year entries [] 0) as [[l n]|x];
    [|discriminate].
  destruct Hl as (-> & Hn & Hle).
  change ([] ++ Birthday.accepted current_year entries)
    with (Birthday.accepted current_year entries) in *.
  pose proof (birthday_sort_people_perm
                (Birthday.accepted current_year entries)) as Hp.
  destruct (Birthday.sort_people (Birthday.accepted current_year entries))
    as [s [[]|x]] eqn:Hs; cbv beta iota in H; [|discriminate].
  injection H as <- <- <-. cbn [fst] in Hp.
  split; [exact Hp|].
  split; [eapply birthday_sort_people_ok; eassumption|].
  split.
  { eapply Permutation_Forall; [apply Permutation_sym, Hp|].
    apply birthday_accepted_valid. }
  rewrite (Permutation_length Hp).
  split; [reflexivity|]. split; [lia|]. split; [lia|].
  intros other. reflexivity.
Qed.

Lemma birthday_load_accounting_witness :
  Permutation [Examples.ivanov]
    (Birthday.accepted (B := Ascii_builtins.builtins) 2024
       (ET.findall "person" Examples.birthday_file))
  /\ Birthday.sorted (B := Ascii_builtins.builtins)
       (Birthday.mkBirthdayBook [Examples.ivanov])
  /\ Forall (Birthday.valid (B := Ascii_builtins.builtins) 2024)
       [Examples.ivanov]
  /\ 1 = Z.of_nat (List.length [Examples.ivanov])
  /\ 0 <= 1
  /\ 1 + 1 = Z.of_nat (List.length (ET.findall "person" Examples.birthday_file))
  /\ (forall other,
        Birthday.load (B := Ascii_builtins.builtins) 2024 other
          "birthdays.xml" (ET.Tree Examples.birthday_file)
        = (Birthday.mkBirthdayBook [Examples.ivanov], Py.Return (1, 1))).
Proof.
  apply (birthday_load_accounting (B := Ascii_builtins.builtins) 2024
           Examples.unsorted_book "birthdays.xml" Examples.birthday_file
           (Birthday.mkBirthdayBook [Examples.ivanov]) 1 1).
  reflexivity.
Defined.

(** X8.  [BirthdayBook.load] of a parsed file raises nothing but TypeError and
    AttributeError.  TypeError comes from an entry with an empty numeric
    element, and the book is then as it was; AttributeError comes from
    the sort, after the book has been given the records read, one of
    which has no last name or no first name. *)
Theorem birthday_load_failure {B : Py.Builtins} (current_year : Z)
    (self : Birthday.BirthdayBook) (filename : string) (root : ET.Element)
    (self' : Birthday.BirthdayBook) (e : Birthday.exn) :
  Birthday.load current_year self filename (ET.Tree root)
  = (self', Py.Raise e) ->
  let entries := ET.findall "person" root in
  (e = Birthday.TypeError /\ self' = self
   /\ exists entry, In entry entries
        /\ Birthday.load_entry current_year entry
           = Py.Raise Birthday.TypeError)
  \/ (e = Birthday.AttributeError
      /\ Birthday.people self' = Birthday.accepted current_year entries
      /\ Exists (fun p => Birthday.last_name p = None
                          \/ Birthday.first_name p = None)
           (Birthday.people self')).
Proof.
  intros H entries. unfold Birthday.load in H. fold entries in H.
  pose proof (birthday_load_loop_spec current_year entries [] 0) as Hl.
  destruct (Birthday.load_loop current_year entries [] 0) as [[l n]|x].
  - destruct Hl as [-> _].
    change ([] ++ Birthday.accepted current_year entries)
      with (Birthday.accepted current_year entries) in H.
    right.
    destruct (birthday_sort_people_cases
                (Birthday.accepted current_year entries))
      as [[_ (l' & Hs)]|[Hk Hs]]; rewrite Hs in H; [discriminate|].
    injection H as <- <-. split; [reflexivity|]. split; [reflexivity|].
    cbn [Birthday.people]. now apply birthday_no_key.
  - destruct Hl as [-> Hex]. injection H as <- <-. left. auto.
Qed.

Lemma birthday_load_failure_witness :
  let file :=
    ET.mkElement "birthdays" None
      [ ET.mkElement "person" None
          [ ET.leaf "last_name" (Some "Ivanov"%string);
            ET.leaf "first_name" (Some "Ivan"%string);
            ET.leaf "phone" (Some "111"%string);
            ET.leaf "day" None;
            ET.leaf "month" (Some "5"%string);
            ET.leaf "year" (Some "1990"%string) ] ] in
  (Birthday.TypeError = Birthday.TypeError
   /\ Examples.sorted_book = Examples.sorted_book
   /\ exists entry, In entry (ET.findall "person" file)
        /\ Birthday.load_entry (B := Ascii_builtins.builtins) 2024 entry
           = Py.Raise Birthday.TypeError)
  \/ (Birthday.TypeError = Birthday.AttributeError
      /\ Birthday.people Examples.sorted_book
         = Birthday.accepted (B := Ascii_builtins.builtins) 2024
             (ET.findall "person" file)
      /\ Exists (fun p => Birthday.last_name p = None
                          \/ Birthday.first_name p = None)
           (Birthday.people Examples.sorted_book)).
Proof.
  intros file.
  apply (birthday_load_failure (B := Ascii_builtins.builtins) 2024
           Examples.sorted_book "birthdays.xml" file
           Examples.sorted_book Birthday.TypeError).
  reflexivity.
Defined.

Section CarLoadFacts.
Import Py Car.
Context {B : Builtins}.

Lemma car_load_entry_valid (e : ET.Element) (c : Car) :
  load_entry e = Return c -> valid c.
Proof.
  unfold load_entry, bind.
  destruct (field_text "brand" e); [|discriminate].
  destruct (field_text "model" e); [|discriminate].
  destruct (field_text "license_plate" e); [|discriminate].
  destruct (field_int "max_speed" e); [|discriminate].
  destruct (field_int "current_speed" e); [|discriminate].
  rewrite car_new_Car_eq. unfold valid.
  destruct (__post_init__ _) as [[]|] eqn:H; [|discriminate].
  now intros [= <-].
Qed.

Lemma car_field_text_raises (name : string) (e : ET.Element) (x : exn) :
  field_text name e = Raise x -> x = AttributeError.
Proof. unfold field_text. destruct (ET.find name e); congruence. Qed.

Lemma car_field_int_raises (name : string) (e : ET.Element) (x : exn) :
  field_int name e = Raise x ->
  x = AttributeError \/ x = TypeError \/ x = ValueError.
Proof.
  unfold field_int, bind.
  destruct (field_text name e) as [[s|]|y] eqn:H.
  - destruct (py_int s); [discriminate|]. intros [= <-]. tauto.
  - intros [= <-]. tauto.
  - intros [= <-]. apply car_field_text_raises in H. tauto.
Qed.

Lemma car_post_init_raises (c : Car) (x : exn) :
  __post_init__ c = Raise x -> caught x = true.
Proof.
  unfold __post_init__, speed_limit_exceeded.
  destruct (max_speed c <=? 0); [now intros [= <-]|].
  destruct (current_speed c <? 0); [now intros [= <-]|].
  destruct (current_speed c >? max_speed c); [now intros [= <-]|].
  discriminate.
Qed.

Lemma car_load_entry_raises (e : ET.Element) (x : exn) :
  load_entry e = Raise x -> x = TypeError \/ caught x = true.
Proof.
  unfold load_entry, bind.
  destruct (field_text "brand" e) as [b|y] eqn:H1;
    [|intros [= <-]; apply car_field_text_raises in H1; subst; now right].
  destruct (field_text "model" e) as [m|y] eqn:H2;
    [|intros [= <-]; apply car_field_text_raises in H2; subst; now right].
  destruct (field_text "license_plate" e) as [lp|y] eqn:H3;
    [|intros [= <-]; apply car_field_text_raises in H3; subst; now right].
  destruct (field_int "max_speed" e) as [ms|y] eqn:H4;
    [|intros [= <-]; apply car_field_int_raises in H4;
      destruct H4 as [-> | [-> | ->]]; auto].
  destruct (field_int "current_speed" e) as [cs|y] eqn:H5;
    [|intros [= <-]; apply car_field_int_raises in H5;
      destruct H5 as [-> | [-> | ->]]; auto].
  rewrite car_new_Car_eq.
  destruct (__post_init__ _) as [[]|z] eqn:H; [discriminate|].
  intros [= <-]. right. eapply car_post_init_raises; eassumption.
Qed.

Lemma car_load_loop_spec (es : list ET.Element) (acc : list Car) (n : Z) :
  match load_loop es acc n with
  | Return (l, n') =>
      l = acc ++ accepted es
      /\ Z.of_nat (List.length (accepted es)) + (n' - n)
         = Z.of_nat (List.length es)
      /\ n <= n'
  | Raise x =>
      x = TypeError /\ exists e, In e es /\ load_entry e = Raise TypeError
  end.
Proof.
  revert acc n. induction es as [|e es IH]; intros acc n.
  - cbn. rewrite app_nil_r. split; [reflexivity | lia].
  - cbn [load_loop accepted flat_map].
    destruct (load_entry e) as [c|x] eqn:He.
    + specialize (IH (acc ++ [c]) n).
      destruct (load_loop es (acc ++ [c]) n) as [[l n']|x].
      * destruct IH as [-> IH]. fold (accepted es).
        rewrite <- app_assoc. split; [reflexivity|].
        rewrite length_app. cbn [List.length]. lia.
      * destruct IH as [-> (e' & Hin & He')]. split; [reflexivity|].
        exists e'. split; [now right | exact He'].
    + destruct (caught x) eqn:Hc.
      * specialize (IH acc (n + 1)).
        destruct (load_loop es acc (n + 1)) as [[l n']|y].
        -- destruct IH as [-> IH]. fold (accepted es).
           change ([] ++ accepted es) with (accepted es).
           split; [reflexivity|]. cbn [List.length]. lia.
        -- destruct IH as [-> (e' & Hin & He')]. split; [reflexivity|].
           exists e'. split; [now right | exact He'].
      * apply car_load_entry_raises in He as He'.
        destruct He' as [-> | He']; [|congruence].
        split; [reflexivity|]. exists e. split; [now left | exact He].
Qed.

Lemma car_accepted_valid (es : list ET.Element) : Forall valid (accepted es).
Proof.
  induction es as [|e es IH]; [constructor|].
  cbn [accepted flat_map]. apply Forall_app. split; [|exact IH].
  destruct (load_entry e) as [c|] eqn:He; [|constructor].
  constructor; [|constructor]. eapply car_load_entry_valid; eassumption.
Qed.
End CarLoadFacts.

(** X9.  When [CarRegistry.load] returns, the registry holds the cars of the
    entries that could be read and passed validation, and only those, in
    the order of the key, whatever it held before; the first number is
    their count, and the two numbers add up to the number of [car]
    entries of the file. *)
Theorem car_load_accounting {B : Py.Builtins}
    (self : Car.CarRegistry) (filename : string) (root : ET.Element)
    (self' : Car.CarRegistry) (loaded skipped : Z) :
  Car.load self filename (ET.Tree root)
  = (self', Py.Return (loaded, skipped)) ->
  let entries := ET.findall "car" root in
  Permutation (Car.cars self') (Car.accepted entries)
  /\ Car.sorted self'
  /\ Forall Car.valid (Car.cars self')
  /\ loaded = Z.of_nat (List.length (Car.cars self'))
  /\ 0 <= skipped
  /\ loaded + skipped = Z.of_nat (List.length entries)
  /\ (forall other,
        Car.load other filename (ET.Tree root)
        = (self', Py.Return (loaded, skipped))).
Proof.
  intros H entries. unfold Car.load in *. fold entries in H |- *.
  pose proof (car_load_loop_spec entries [] 0) as Hl.
  destruct (Car.load_loop entries [] 0) as [[l n]|x]; [|discriminate].
  destruct Hl as (-> & Hn & Hle).
  change ([] ++ Car.accepted entries) with (Car.accepted entries) in *.
  pose proof (car_sort_cars_perm (Car.accepted entries)) as Hp.
  destruct (Car.sort_cars (Car.accepted entries)) as [s [[]|x]] eqn:Hs;
    cbv beta iota in H; [|discriminate].
  injection H as <- <- <-. cbn [fst] in Hp.
  split; [exact Hp|].
  split; [eapply car_sort_cars_ok; eassumption|].
  split.
  { eapply Permutation_Forall; [apply Permutation_sym, Hp|].
    apply car_accepted_valid. }
  rewrite (Permutation_length Hp).
  split; [reflexivity|]. split; [lia|]. split; [lia|].
  intros other. reflexivity.
Qed.

Lemma car_load_accounting_witness :
  Permutation [Examples.audi]
    (Car.accepted (B := Ascii_builtins.builtins)
       (ET.findall "car" Examples.car_file))
  /\ Car.sorted (Car.mkCarRegistry [Examples.audi])
  /\ Forall (Car.valid (B := Ascii_builtins.builtins)) [Examples.audi]
  /\ 1 = Z.of_nat (List.length [Examples.audi])
  /\ 0 <= 1
  /\ 1 + 1 = Z.of_nat (List.length (ET.findall "car" Examples.car_file))
  /\ (forall other,
        Car.load (B := Ascii_builtins.builtins) other "cars.xml"
          (ET.Tree Examples.car_file)
        = (Car.mkCarRegistry [Examples.audi], Py.Return (1, 1))).
Proof.
  apply (car_load_accounting (B := Ascii_builtins.builtins)
           Examples.registry "cars.xml" Examples.car_file
           (Car.mkCarRegistry [Examples.audi]) 1 1).
  reflexivity.
Defined.

Section LibraryLoadFacts.
Import Py Library.
Context {B : Builtins}.

Lemma library_sort_books_perm (l : list Book) :
  Permutation (books (fst (sort_books l))) l.
Proof.
  unfold sort_books.
  destruct (list_sort sort_key pystr_lt l) as [l'| |] eqn:H; simpl;
    try apply Permutation_refl; try apply arrange_perm.
  apply list_sort_ok in H;
    [tauto | apply pystr_lt_asym | apply pystr_lt_negtrans].
Qed.

Lemma library_load_entry_valid (e : ET.Element) (b : Book) :
  load_entry e = Return b -> valid b.
Proof.
  unfold load_entry, bind.
  destruct (field_text "title" e); [|discriminate].
  destruct (field_text "author" e); [|discriminate].
  destruct (field_int "year" e); [|discriminate].
  destruct (field_text "genre" e); [|discriminate].
  destruct (field_int "pages" e); [|discriminate].
  rewrite library_new_Book_eq. unfold valid.
  destruct (__post_init__ _) as [[]|] eqn:H; [|discriminate].
  now intros [= <-].
Qed.

Lemma library_accepted_valid (es : list ET.Element) :
  Forall valid (accepted es).
Proof.
  induction es as [|e es IH]; [constructor|].
  cbn [accepted flat_map]. apply Forall_app. split; [|exact IH].
  destruct (load_entry e) as [b|] eqn:He; [|constructor].
  constructor; [|constructor]. eapply library_load_entry_valid; eassumption.
Qed.

Lemma library_field_text_raises (name : string) (e : ET.Element) (x : exn) :
  field_text name e = Raise x -> x = AttributeError.
Proof. unfold field_text. destruct (ET.find name e); congruence. Qed.

Lemma library_field_int_raises (name : string) (e : ET.Element) (x : exn) :
  field_int name e = Raise x ->
  x = AttributeError \/ x = TypeError \/ x = ValueError.
Proof.
  unfold field_int, bind.
  destruct (field_text name e) as [[s|]|y] eqn:H.
  - destruct (py_int s); [discriminate|]. intros [= <-]. tauto.
  - intros [= <-]. tauto.
  - intros [= <-]. apply library_field_text_raises in H. tauto.
Qed.

Lemma library_post_init_raises (b : Book) (x : exn) :
  __post_init__ b = Raise x -> exists value message, x = InvalidInputError value message.
Proof.
  unfold __post_init__.
  destruct ((year b <? 0) || (year b >? current_year));
    [intros [= <-]; eauto|].
  destruct (pages b <=? 0); [intros [= <-]; eauto | discriminate].
Qed.

(** The exceptions of an entry: the two the inner [try] catches, TypeError
    and the error of the validation. *)
Lemma library_load_entry_raises (e : ET.Element) (x : exn) :
  load_entry e = Raise x ->
  caught x = true \/ x = TypeError
  \/ exists value message, x = InvalidInputError value message.
Proof.
  unfold load_entry, bind.
  destruct (field_text "title" e) as [t|y] eqn:H1;
    [|intros [= <-]; apply library_field_text_raises in H1; subst; now left].
  destruct (field_text "author" e) as [a|y] eqn:H2;
    [|intros [= <-]; apply library_field_text_raises in H2; subst; now left].
  destruct (field_int "year" e) as [yr|y] eqn:H3;
    [|intros [= <-]; apply library_field_int_raises in H3;
      destruct H3 as [-> | [-> | ->]]; auto].
  destruct (field_text "genre" e) as [g|y] eqn:H4;
    [|intros [= <-]; apply library_field_text_raises in H4; subst; now left].
  destruct (field_int "pages" e) as [pg|y] eqn:H5;
    [|intros [= <-]; apply library_field_int_raises in H5;
      destruct H5 as [-> | [-> | ->]]; auto].
  rewrite library_new_Book_eq.
  destruct (__post_init__ _) as [[]|z] eqn:H; [discriminate|].
  intros [= <-]. right. right. eapply library_post_init_raises; eassumption.
Qed.

Lemma library_load_loop_spec (es : list ET.Element) (acc : list Book) :
  match load_loop es acc with
  | Return l =>
      l = acc ++ accepted es
      /\ Forall (fun e => forall x, load_entry e = Raise x -> caught x = true) es
  | Raise x =>
      caught x = false /\ exists e, In e es /\ load_entry e = Raise x
  end.
Proof.
  revert acc. induction es as [|e es IH]; intros acc.
  - cbn. rewrite app_nil_r. split; [reflexivity | constructor].
  - cbn [load_loop accepted flat_map].
    destruct (load_entry e) as [b|x] eqn:He.
    + specialize (IH (acc ++ [b])).
      destruct (load_loop es (acc ++ [b])) as [l|x].
      * destruct IH as [-> IH]. fold (accepted es).
        rewrite <- app_assoc. split; [reflexivity|].
        constructor; [intros x Hx; congruence | exact IH].
      * destruct IH as [Hx (e' & Hin & He')]. split; [exact Hx|].
        exists e'. split; [now right | exact He'].
    + destruct (caught x) eqn:Hc.
      * specialize (IH acc).
        destruct (load_loop es acc) as [l|y].
        -- destruct IH as [-> IH]. fold (accepted es).
           change ([] ++ accepted es) with (accepted es).
           split; [reflexivity|].
           constructor; [intros y Hy; congruence | exact IH].
        -- destruct IH as [Hy (e' & Hin & He')]. split; [exact Hy|].
           exists e'. split; [now right | exact He'].
      * split; [exact Hc|]. exists e. split; [now left | exact He].
Qed.

Lemma library_accepted_length (es : list ET.Element) :
  (List.length (accepted es) <= List.length es)%nat.
Proof.
  induction es as [|e es IH]; [reflexivity|].
  cbn [accepted flat_map]. rewrite length_app. fold (accepted es).
  destruct (load_entry e); cbn [List.length]; lia.
Qed.

(** Books that all have a title can be compared. *)
Lemma library_pairwise_comparable (l : list Book) :
  Forall (fun b => title b <> None) l ->
  pairwise_comparable sort_key pystr_lt l = true.
Proof.
  induction 1 as [|x l Hx Hl IH]; [reflexivity|].
  cbn [pairwise_comparable]. rewrite IH, andb_true_r.
  apply forallb_forall. intros y Hy.
  rewrite Forall_forall in Hl. specialize (Hl y Hy).
  unfold comparable, sort_key.
  destruct (title y); [|congruence]. destruct (title x); [|congruence].
  reflexivity.
Qed.

Lemma library_sort_books_cases (l : list Book) :
  (exists l', sort_books l = (mkLibrary l', Return tt))
  \/ (exists l', sort_books l = (mkLibrary l', Raise TypeError)
                 /\ Permutation l' l
                 /\ Exists (fun b => title b = None) l).
Proof.
  unfold sort_books, list_sort.
  assert (Hk : forallb (has_key sort_key) l = true)
    by now apply forallb_forall.
  rewrite Hk. cbn [negb].
  destruct (pairwise_comparable sort_key pystr_lt l) eqn:Hc; cbn [negb].
  - left. eauto.
  - right. eexists. split; [reflexivity|]. split; [apply arrange_perm|].
    apply Exists_exists.
    destruct (forallb (fun b => match title b with Some _ => true
                                                  | None => false end) l)
      eqn:Ht.
    + rewrite library_pairwise_comparable in Hc; [discriminate|].
      apply Forall_forall. intros b Hb.
      rewrite forallb_forall in Ht. specialize (Ht b Hb).
      destruct (title b); [discriminate | discriminate].
    + apply not_true_iff_false in Ht.
      destruct (existsb (fun b => match title b with Some _ => false
                                                    | None => true end) l)
        eqn:Hex.
      * apply existsb_exists in Hex as (b & Hb & Hn).
        exists b. split; [exact Hb|]. destruct (title b); [discriminate|reflexivity].
      * exfalso. apply Ht. apply forallb_forall. intros b Hb.
        destruct (title b) eqn:Tb; [reflexivity|].
        assert (existsb (fun b => match title b with Some _ => false
                                                    | None => true end) l
                = true); [|congruence].
        apply existsb_exists. exists b. split; [exact Hb|]. now rewrite Tb.
Qed.
End LibraryLoadFacts.

(** X10.  When [Library.load] returns, the library holds the books of the
    entries that could be read and passed validation, in the order of the
    key, whatever it held before, and reports their number; every other
    entry of the file lacked a field or had a year or a number of pages
    that is no numeral: no entry failed the validation of [Book]. *)
Theorem library_load_accounting {B : Py.Builtins}
    (self : Library.Library) (filename : string) (root : ET.Element)
    (self' : Library.Library) (loaded : Z) :
  Library.load self filename (ET.Tree root) = (self', Py.Return loaded) ->
  let entries := ET.findall "book" root in
  Permutation (Library.books self') (Library.accepted entries)
  /\ Library.sorted self'
  /\ Forall Library.valid (Library.books self')
  /\ loaded = Z.of_nat (List.length (Library.books self'))
  /\ loaded <= Z.of_nat (List.length entries)
  /\ Forall (fun entry =>
               forall e, Library.load_entry entry = Py.Raise e ->
                         e = Library.AttributeError \/ e = Library.ValueError)
       entries
  /\ (forall other,
        Library.load other filename (ET.Tree root)
        = (self', Py.Return loaded)).
Proof.
  intros H entries. unfold Library.load in *. fold entries in H |- *.
  pose proof (library_load_loop_spec entries []) as Hl.
  destruct (Library.load_loop entries []) as [l|x]; [|discriminate].
  destruct Hl as (-> & Hc).
  change ([] ++ Library.accepted entries) with (Library.accepted entries) in *.
  pose proof (library_sort_books_perm (Library.accepted entries)) as Hp.
  destruct (Library.sort_books (Library.accepted entries)) as [s [[]|x]] eqn:Hs;
    cbv beta iota in H; [|discriminate].
  injection H as <- <-. cbn [fst] in Hp.
  split; [exact Hp|].
  split; [eapply library_sort_books_ok; eassumption|].
  split.
  { eapply Permutation_Forall; [apply Permutation_sym, Hp|].
    apply library_accepted_valid. }
  rewrite (Permutation_length Hp).
  split; [reflexivity|].
  split; [pose proof (library_accepted_length entries); lia|].
  split; [|intros other; reflexivity].
  eapply Forall_impl; [|exact Hc]. intros entry He e Hr.
  specialize (He e Hr). destruct e; try discriminate; auto.
Qed.

Lemma library_load_accounting_witness :
  let file :=
    ET.mkElement "library" None
      [ Examples.book_entry "Book A" "Author A" "2000" "Novel" "100";
        Examples.book_entry "Book B" "Author B" "MM" "Novel" "100" ] in
  let book_A :=
    Library.mkBook (Some "Book A"%string) (Some "Author A"%string) 2000
      (Some "Novel"%string) 100 in
  let entries := ET.findall "book" file in
  Permutation [book_A]
    (Library.accepted (B := Ascii_builtins.builtins) entries)
  /\ Library.sorted (Library.mkLibrary [book_A])
  /\ Forall (Library.valid (B := Ascii_builtins.builtins)) [book_A]
  /\ 1 = Z.of_nat (List.length [book_A])
  /\ 1 <= Z.of_nat (List.length entries)
  /\ Forall (fun entry =>
               forall e,
                 Library.load_entry (B := Ascii_builtins.builtins) entry
                 = Py.Raise e ->
                 e = Library.AttributeError \/ e = Library.ValueError)
       entries
  /\ (forall other,
        Library.load (B := Ascii_builtins.builtins) other "library.xml"
          (ET.Tree file)
        = (Library.mkLibrary [book_A], Py.Return 1)).
Proof.
  intros file book_A.
  apply (library_load_accounting (B := Ascii_builtins.builtins)
           Examples.library_B_a "library.xml" file
           (Library.mkLibrary [book_A]) 1).
  reflexivity.
Defined.

(** X11.  [Library.load] of a parsed file raises nothing but TypeError and
    InvalidInputError.  When the exception is that of an entry (an empty
    numeric element, or a book that fails validation), the library is as
    it was; otherwise it is the TypeError of the sort, after the library
    has been given the books read, one of which has no title: it then
    holds those books, in an order the sort has left. *)
Theorem library_load_failure {B : Py.Builtins}
    (self : Library.Library) (filename : string) (root : ET.Element)
    (self' : Library.Library) (e : Library.exn) :
  Library.load self filename (ET.Tree root) = (self', Py.Raise e) ->
  let entries := ET.findall "book" root in
  (self' = self
   /\ (e = Library.TypeError
       \/ exists value message, e = Library.InvalidInputError value message)
   /\ exists entry, In entry entries
        /\ Library.load_entry entry = Py.Raise e)
  \/ (e = Library.TypeError
      /\ Permutation (Library.books self') (Library.accepted entries)
      /\ Exists (fun b => Library.title b = None) (Library.books self')).
Proof.
  intros H entries. unfold Library.load in H. fold entries in H.
  pose proof (library_load_loop_spec entries []) as Hl.
  destruct (Library.load_loop entries []) as [l|x].
  - destruct Hl as [-> _].
    change ([] ++ Library.accepted entries)
      with (Library.accepted entries) in H.
    right.
    destruct (library_sort_books_cases (Library.accepted entries))
      as [(l' & Hs)|(l' & Hs & Hp & Hex)]; rewrite Hs in H; [discriminate|].
    injection H as <- <-. cbn [Library.books].
    split; [reflexivity|]. split; [exact Hp|].
    apply Exists_exists in Hex as (b & Hb & Hn). apply Exists_exists.
    exists b. split; [|exact Hn].
    now apply (Permutation_in _ (Permutation_sym Hp)).
  - destruct Hl as [Hx (entry & Hin & He)]. injection H as <- <-. left.
    split; [reflexivity|]. split; [|eauto].
    apply library_load_entry_raises in He as Hr.
    destruct Hr as [Hr|[Hr|Hr]]; [congruence | now left | now right].
Qed.

Lemma library_load_failure_witness :
  (Library.mkLibrary [] = Library.mkLibrary []
   /\ (Library.InvalidInputError 3000
         "Год издания должен быть в диапазоне 0-2024"
       = Library.TypeError
       \/ exists value message,
            Library.InvalidInputError 3000
              "Год издания должен быть в диапазоне 0-2024"
            = Library.InvalidInputError value message)
   /\ exists entry, In entry (ET.findall "book" Examples.library_file)
        /\ Library.load_entry (B := Ascii_builtins.builtins) entry
           = Py.Raise (Library.InvalidInputError 3000
                         "Год издания должен быть в диапазоне 0-2024"))
  \/ (Library.InvalidInputError 3000
        "Год издания должен быть в диапазоне 0-2024"
      = Library.TypeError
      /\ Permutation (Library.books (Library.mkLibrary []))
           (Library.accepted (B := Ascii_builtins.builtins)
              (ET.findall "book" Examples.library_file))
      /\ Exists (fun b => Library.title b = None)
           (Library.books (Library.mkLibrary []))).
Proof.
  apply (library_load_failure (B := Ascii_builtins.builtins)
           (Library.mkLibrary []) "library.xml" Examples.library_file
           (Library.mkLibrary [])
           (Library.InvalidInputError 3000
              "Год издания должен быть в диапазоне 0-2024")).
  reflexivity.
Defined.

(** * Files in which every element has text *)

Lemma find_all_text (name : string) (e c : ET.Element) :
  ET.all_text e = true -> ET.find name e = Some c ->
  exists s, ET.text c = Some s.
Proof.
  unfold ET.all_text, ET.find. intros Ha Hf.
  apply find_some in Hf as [Hin _].
  rewrite forallb_forall in Ha. specialize (Ha c Hin).
  destruct (ET.text c) as [s|]; [eauto | discriminate].
Qed.

Section TextFacts.
Import Py.
Context {B : Builtins}.

Lemma birthday_field_text_text (name : string) (e : ET.Element) :
  ET.all_text e = true ->
  (exists s, Birthday.field_text name e = Return (Some s))
  \/ Birthday.field_text name e = Raise Birthday.AttributeError.
Proof.
  intros Ha. unfold Birthday.field_text.
  destruct (ET.find name e) as [c|] eqn:Hf; [|now right].
  destruct (find_all_text name e c Ha Hf) as [s Hs]. left. rewrite Hs. eauto.
Qed.

Lemma birthday_field_int_text (name : string) (e : ET.Element) :
  ET.all_text e = true ->
  Birthday.field_int name e <> Raise Birthday.TypeError.
Proof.
  intros Ha. unfold Birthday.field_int, bind.
  destruct (birthday_field_text_text name e Ha) as [[s ->]| ->];
    [|discriminate].
  destruct (py_int s); discriminate.
Qed.

Lemma birthday_load_entry_text (cy : Z) (e : ET.Element) :
  ET.all_text e = true ->
  match Birthday.load_entry cy e with
  | Return p => has_key Birthday.sort_key p = true
  | Raise x => x <> Birthday.TypeError
  end.
Proof.
  intros Ha. unfold Birthday.load_entry, bind.
  destruct (birthday_field_text_text "last_name" e Ha) as [[ln ->]| ->];
    [|discriminate].
  destruct (birthday_field_text_text "first_name" e Ha) as [[fn ->]| ->];
    [|discriminate].
  destruct (birthday_field_text_text "phone" e Ha) as [[ph ->]| ->];
    [|discriminate].
  pose proof (birthday_field_int_text "day" e Ha) as Hd.
  destruct (Birthday.field_int "day" e) as [d|x]; [|congruence].
  pose proof (birthday_field_int_text "month" e Ha) as Hm.
  destruct (Birthday.field_int "month" e) as [m|x]; [|congruence].
  pose proof (birthday_field_int_text "year" e Ha) as Hy.
  destruct (Birthday.field_int "year" e) as [y|x]; [|congruence].
  rewrite birthday_new_Person_eq.
  destruct (Birthday.__post_init__ cy _) as [[]|x] eqn:H; [reflexivity|].
  apply birthday_post_init_raises in H.
  destruct H as [[msg ->] | [msg ->]]; discriminate.
Qed.

Lemma birthday_accepted_has_key (cy : Z) (es : list ET.Element) :
  forallb ET.all_text es = true ->
  forallb (has_key Birthday.sort_key) (Birthday.accepted cy es) = true.
Proof.
  induction es as [|e es IH]; [reflexivity|].
  cbn [forallb Birthday.accepted flat_map]. intros H.
  apply andb_prop in H as [He Hes]. rewrite forallb_app.
  fold (Birthday.accepted cy es). rewrite (IH Hes), andb_true_r.
  pose proof (birthday_load_entry_text cy e He) as Ht.
  destruct (Birthday.load_entry cy e); [|reflexivity].
  cbn [forallb]. now rewrite Ht.
Qed.

Lemma car_field_text_text (name : string) (e : ET.Element) :
  ET.all_text e = true ->
  (exists s, Car.field_text name e = Return (Some s))
  \/ Car.field_text name e = Raise Car.AttributeError.
Proof.
  intros Ha. unfold Car.field_text.
  destruct (ET.find name e) as [c|] eqn:Hf; [|now right].
  destruct (find_all_text name e c Ha Hf) as [s Hs]. left. rewrite Hs. eauto.
Qed.

Lemma car_field_int_text (name : string) (e : ET.Element) :
  ET.all_text e = true -> Car.field_int name e <> Raise Car.TypeError.
Proof.
  intros Ha. unfold Car.field_int, bind.
  destruct (car_field_text_text name e Ha) as [[s ->]| ->]; [|discriminate].
  destruct (py_int s); discriminate.
Qed.

Lemma car_load_entry_text (e : ET.Element) :
  ET.all_text e = true ->
  match Car.load_entry e with
  | Return c => Car.brand c <> None /\ Car.model c <> None
  | Raise x => x <> Car.TypeError
  end.
Proof.
  intros Ha. unfold Car.load_entry, bind.
  destruct (car_field_text_text "brand" e Ha) as [[b ->]| ->];
    [|discriminate].
  destruct (car_field_text_text "model" e Ha) as [[m ->]| ->];
    [|discriminate].
  destruct (car_field_text_text "license_plate" e Ha) as [[lp ->]| ->];
    [|discriminate].
  pose proof (car_field_int_text "max_speed" e Ha) as H1.
  destruct (Car.field_int "max_speed" e) as [ms|x]; [|congruence].
  pose proof (car_field_int_text "current_speed" e Ha) as H2.
  destruct (Car.field_int "current_speed" e) as [cs|x]; [|congruence].
  rewrite car_new_Car_eq.
  destruct (Car.__post_init__ _) as [[]|x] eqn:H;
    [split; discriminate|].
  apply car_post_init_raises in H. intros ->. discriminate.
Qed.

Lemma car_accepted_named (es : list ET.Element) :
  forallb ET.all_text es = true ->
  Forall (fun c => Car.brand c <> None /\ Car.model c <> None)
    (Car.accepted es).
Proof.
  induction es as [|e es IH]; [constructor|].
  cbn [forallb Car.accepted flat_map]. intros H.
  apply andb_prop in H as [He Hes]. apply Forall_app. split; [|now apply IH].
  pose proof (car_load_entry_text e He) as Ht.
  destruct (Car.load_entry e); [|constructor].
  constructor; [exact Ht | constructor].
Qed.

(** Cars that all have a brand and a model can be compared. *)
Lemma car_pairwise_comparable (l : list Car.Car) :
  Forall (fun c => Car.brand c <> None /\ Car.model c <> None) l ->
  pairwise_comparable Car.sort_key tuple_lt l = true.
Proof.
  induction 1 as [|x l Hx Hl IH]; [reflexivity|].
  cbn [pairwise_comparable]. rewrite IH, andb_true_r.
  apply forallb_forall. intros y Hy.
  rewrite Forall_forall in Hl. destruct (Hl y Hy) as [Hb Hm].
  destruct Hx as [Hb' Hm'].
  unfold comparable, Car.sort_key, tuple_lt. cbn [fst snd].
  destruct (Car.brand y); [|congruence]. destruct (Car.model y); [|congruence].
  destruct (Car.brand x); [|congruence]. destruct (Car.model x); [|congruence].
  cbn [pystr_eqb pystr_lt].
  destruct (String.eqb s s1); [destruct (String.eqb s0 s2)|]; reflexivity.
Qed.

Lemma car_sort_cars_named (l : list Car.Car) :
  Forall (fun c => Car.brand c <> None /\ Car.model c <> None) l ->
  exists l', Car.sort_cars l = (Car.mkCarRegistry l', Return tt).
Proof.
  intros H. unfold Car.sort_cars, list_sort.
  assert (Hk : forallb (has_key Car.sort_key) l = true)
    by now apply forallb_forall.
  rewrite Hk, (car_pairwise_comparable l H). cbn [negb]. eauto.
Qed.

Lemma library_field_text_text (name : string) (e : ET.Element) :
  ET.all_text e = true ->
  (exists s, Library.field_text name e = Return (Some s))
  \/ Library.field_text name e = Raise Library.AttributeError.
Proof.
  intros Ha. unfold Library.field_text.
  destruct (ET.find name e) as [c|] eqn:Hf; [|now right].
  destruct (find_all_text name e c Ha Hf) as [s Hs]. left. rewrite Hs. eauto.
Qed.

Lemma library_field_int_text (name : string) (e : ET.Element) :
  ET.all_text e = true -> Library.field_int name e <> Raise Library.TypeError.
Proof.
  intros Ha. unfold Library.field_int, bind.
  destruct (library_field_text_text name e Ha) as [[s ->]| ->];
    [|discriminate].
  destruct (py_int s); discriminate.
Qed.

Lemma library_load_entry_text (e : ET.Element) :
  ET.all_text e = true ->
  match Library.load_entry e with
  | Return b => Library.title b <> None
  | Raise x => x <> Library.TypeError
  end.
Proof.
  intros Ha. unfold Library.load_entry, bind.
  destruct (library_field_text_text "title" e Ha) as [[t ->]| ->];
    [|discriminate].
  destruct (library_field_text_text "author" e Ha) as [[a ->]| ->];
    [|discriminate].
  pose proof (library_field_int_text "year" e Ha) as H1.
  destruct (Library.field_int "year" e) as [y|x]; [|congruence].
  destruct (library_field_text_text "genre" e Ha) as [[g ->]| ->];
    [|discriminate].
  pose proof (library_field_int_text "pages" e Ha) as H2.
  destruct (Library.field_int "pages" e) as [pg|x]; [|congruence].
  rewrite library_new_Book_eq.
  destruct (Library.__post_init__ _) as [[]|x] eqn:H; [discriminate|].
  apply library_post_init_raises in H as (v & msg & ->). discriminate.
Qed.

Lemma library_accepted_titled (es : list ET.Element) :
  forallb ET.all_text es = true ->
  Forall (fun b => Library.title b <> None) (Library.accepted es).
Proof.
  induction es as [|e es IH]; [constructor|].
  cbn [forallb Library.accepted flat_map]. intros H.
  apply andb_prop in H as [He Hes]. apply Forall_app. split; [|now apply IH].
  pose proof (library_load_entry_text e He) as Ht.
  destruct (Library.load_entry e); [|constructor].
  constructor; [exact Ht | constructor].
Qed.
End TextFacts.

(** X12.  When no element of the entries of a parsed file is empty (none was
    written [<tag />]), [BirthdayBook.load] and [CarRegistry.load] return:
    whatever else is wrong with an entry, it is skipped.  [Library.load]
    then returns or raises the InvalidInputError of an entry, leaving the
    library as it was. *)
Theorem load_returns_on_text {B : Py.Builtins} (current_year : Z)
    (filename : string) (root : ET.Element) :
  (forall book,
     forallb ET.all_text (ET.findall "person" root) = true ->
     exists book' loaded skipped,
       Birthday.load current_year book filename (ET.Tree root)
       = (book', Py.Return (loaded, skipped)))
  /\ (forall registry,
        forallb ET.all_text (ET.findall "car" root) = true ->
        exists registry' loaded skipped,
          Car.load registry filename (ET.Tree root)
          = (registry', Py.Return (loaded, skipped)))
  /\ (forall library,
        forallb ET.all_text (ET.findall "book" root) = true ->
        (exists library' loaded,
           Library.load library filename (ET.Tree root)
           = (library', Py.Return loaded))
        \/ (exists value message,
              Library.load library filename (ET.Tree root)
              = (library,
                 Py.Raise (Library.InvalidInputError value message)))).
Proof.
  split; [|split].
  - intros book Ht. unfold Birthday.load.
    pose proof (birthday_load_loop_spec current_year
                  (ET.findall "person" root) [] 0) as Hl.
    destruct (Birthday.load_loop current_year (ET.findall "person" root) [] 0)
      as [[l n]|x].
    + destruct Hl as (-> & _).
      change ([] ++ Birthday.accepted current_year (ET.findall "person" root))
        with (Birthday.accepted current_year (ET.findall "person" root)).
      destruct (birthday_sort_people_cases
                  (Birthday.accepted current_year (ET.findall "person" root)))
        as [[_ (l' & Hs)]|[Hk _]].
      * rewrite Hs. eauto.
      * rewrite birthday_accepted_has_key in Hk; [discriminate | exact Ht].
    + destruct Hl as [_ (e & Hin & He)]. exfalso.
      rewrite forallb_forall in Ht.
      pose proof (birthday_load_entry_text current_year e (Ht e Hin)) as H.
      rewrite He in H. now apply H.
  - intros registry Ht. unfold Car.load.
    pose proof (car_load_loop_spec (ET.findall "car" root) [] 0) as Hl.
    destruct (Car.load_loop (ET.findall "car" root) [] 0) as [[l n]|x].
    + destruct Hl as (-> & _).
      change ([] ++ Car.accepted (ET.findall "car" root))
        with (Car.accepted (ET.findall "car" root)).
      destruct (car_sort_cars_named (Car.accepted (ET.findall "car" root)))
        as [l' Hs]; [now apply car_accepted_named|].
      rewrite Hs. eauto.
    + destruct Hl as [_ (e & Hin & He)]. exfalso.
      rewrite forallb_forall in Ht.
      pose proof (car_load_entry_text e (Ht e Hin)) as H.
      rewrite He in H. now apply H.
  - intros library Ht. unfold Library.load.
    pose proof (library_load_loop_spec (ET.findall "book" root) []) as Hl.
    destruct (Library.load_loop (ET.findall "book" root) []) as [l|x].
    + destruct Hl as (-> & _). left.
      change ([] ++ Library.accepted (ET.findall "book" root))
        with (Library.accepted (ET.findall "book" root)).
      destruct (library_sort_books_cases
                  (Library.accepted (ET.findall "book" root)))
        as [(l' & Hs)|(l' & _ & _ & Hex)].
      * rewrite Hs. eauto.
      * exfalso. apply Exists_exists in Hex as (b & Hb & Hn).
        pose proof (library_accepted_titled _ Ht) as Hf.
        rewrite Forall_forall in Hf. now apply (Hf b Hb).
    + destruct Hl as [Hx (e & Hin & He)]. right.
      rewrite forallb_forall in Ht.
      pose proof (library_load_entry_text e (Ht e Hin)) as H.
      rewrite He in H.
      apply library_load_entry_raises in He as [Hc|[->|(v & msg & ->)]];
        [congruence | congruence | eauto].
Qed.

Lemma load_returns_on_text_witness :
  exists book' loaded skipped,
    Birthday.load (B := Ascii_builtins.builtins) 2024 Examples.sorted_book
      "birthdays.xml" (ET.Tree Examples.birthday_file)
    = (book', Py.Return (loaded, skipped)).
Proof.
  apply (load_returns_on_text (B := Ascii_builtins.builtins) 2024
           "birthdays.xml" Examples.birthday_file).
  reflexivity.
Defined.

(** * The file of another collection *)

Lemma findall_other {A : Type} (name t : string) (x : option string)
    (entry : A -> ET.Element) (l : list A) :
  (forall a, String.eqb (ET.tag (entry a)) name = false) ->
  ET.findall name (ET.mkElement t x (map entry l)) = [].
Proof.
  intros H. unfold ET.findall. cbn [ET.children].
  induction l as [|a l IH]; [reflexivity|].
  cbn [map filter]. now rewrite H.
Qed.

(** X13.  [load] of a file that [save] of another collection wrote and
    that the parser accepts does not raise: no entry of the file has the
    tag [load] looks for, so it reports nothing loaded and nothing
    skipped, and the collection is left empty whatever it held.  (The
    test [test_load_invalid_xml] of the repository expects a
    DataFormatError for such a file.) *)
Theorem load_of_foreign_file {B : Py.Builtins} (current_year : Z)
    (filename : string) (book : Birthday.BirthdayBook)
    (registry : Car.CarRegistry) (library : Library.Library)
    (file : ET.Element) :
  (ET.reread (Car.save_tree registry) = Some file
   \/ ET.reread (Library.save_tree library) = Some file ->
   Birthday.load current_year book filename (ET.Tree file)
   = (Birthday.mkBirthdayBook [], Py.Return (0, 0)))
  /\ (ET.reread (Birthday.save_tree book) = Some file
      \/ ET.reread (Library.save_tree library) = Some file ->
      Car.load registry filename (ET.Tree file)
      = (Car.mkCarRegistry [], Py.Return (0, 0)))
  /\ (ET.reread (Birthday.save_tree book) = Some file
      \/ ET.reread (Car.save_tree registry) = Some file ->
      Library.load library filename (ET.Tree file)
      = (Library.mkLibrary [], Py.Return 0)).
Proof.
  unfold ET.reread, Birthday.save_tree, Car.save_tree, Library.save_tree.
  split; [|split]; intros [H|H];
    match type of H with
    | (if ?w then _ else _) = _ => destruct w; [|discriminate]
    end;
    injection H as <-; cbn [ET.reread_tree];
    rewrite map_map;
    unfold Birthday.load, Car.load, Library.load;
    rewrite findall_other by reflexivity; reflexivity.
Qed.

Lemma load_of_foreign_file_witness :
  Birthday.load (B := Ascii_builtins.builtins) 2024 Examples.sorted_book
    "cars.xml"
    (ET.Tree (Car.save_tree (B := Ascii_builtins.builtins) Examples.registry))
  = (Birthday.mkBirthdayBook [], Py.Return (0, 0)).
Proof.
  apply (load_of_foreign_file (B := Ascii_builtins.builtins) 2024 "cars.xml"
           Examples.sorted_book Examples.registry Examples.library_B_a
           (Car.save_tree (B := Ascii_builtins.builtins) Examples.registry)).
  left. reflexivity.
Defined.

(** * Where [add] puts a record *)

Section InsertFacts.
Import Py.
Context {A K : Type}.
Variable key : A -> option K.
Variable lt : K -> K -> option bool.
Hypothesis lt_negtrans :
  forall a b c, lt a b = Some false -> lt b c = Some false -> lt a c = Some false.

(** Sorting a list in order with one more item at its end puts the item
    after the items it is not less than, and moves nothing else. *)
Lemma stable_sort_snoc (l : list A) (x : A) :
  sorted_by key lt l ->
  Forall (fun y => comparable key lt x y = true) l ->
  exists l1 l2,
    l = l1 ++ l2
    /\ stable_sort key lt (l ++ [x]) = l1 ++ x :: l2
    /\ Forall (fun y => item_lt key lt x y = false) l1
    /\ Forall (fun y => key_le key lt y x) l1
    /\ Forall (fun y => item_lt key lt x y = true) l2.
Proof.
  induction 1 as [|a l Hs IH Ha]; intros Hc.
  - exists [], []. repeat split; constructor.
  - inversion Hc as [|? ? Hxa Hcl]; subst.
    destruct (IH Hcl) as (l1 & l2 & -> & Hsort & Hnl & Hle & Hlt).
    cbn [Datatypes.app stable_sort]. rewrite Hsort.
    destruct l1 as [|b l1].
    + cbn [Datatypes.app insert].
      destruct (item_lt key lt x a) eqn:Hx.
      * exists [], (a :: l2). cbn [Datatypes.app].
        rewrite (sorted_insert_head key lt a l2 Ha).
        repeat split; try constructor; assumption.
      * assert (Hax : key_le key lt a x).
        { unfold comparable in Hxa. unfold item_lt in Hx. unfold key_le.
          destruct (key x) as [kx|]; [|discriminate].
          destruct (key a) as [ka|]; [|discriminate].
          destruct (lt kx ka) as [[|]|] eqn:E; try discriminate.
          exists ka, kx. auto. }
        exists [a], l2. cbn [Datatypes.app].
        repeat split; try (constructor; [assumption | constructor]).
        assumption.
    + cbn [Datatypes.app insert].
      inversion Ha as [|? ? Hab _]; subst.
      rewrite (key_le_not_lt key lt a b Hab).
      inversion Hle as [|? ? Hbx _]; subst.
      assert (Hax : key_le key lt a x)
        by (eapply key_le_trans; eassumption).
      exists (a :: b :: l1), l2. cbn [Datatypes.app].
      repeat split; try assumption.
      * constructor; [|assumption]. now apply key_le_not_lt.
      * constructor; assumption.
Qed.
End InsertFacts.

Section AddFacts.
Import Py.
Context {B : Builtins}.

Lemma birthday_sort_people_has_key (l : list Birthday.Person)
    (self : Birthday.BirthdayBook) :
  Birthday.sort_people l = (self, Return tt) ->
  forallb (has_key Birthday.sort_key) (Birthday.people self) = true.
Proof.
  unfold Birthday.sort_people.
  destruct (list_sort Birthday.sort_key Birthday.key_lt l) as [l'| |] eqn:H;
    try discriminate.
  intros [= <-]. cbn [Birthday.people].
  apply list_sort_ok in H;
    [tauto | apply birthday_key_lt_asym | apply birthday_key_lt_negtrans].
Qed.

(** Every person of a book that [add] and [load] have built has a last
    name and a first name. *)
Lemma birthday_reachable_has_key (self : Birthday.BirthdayBook) :
  Birthday.reachable_ok self ->
  forallb (has_key Birthday.sort_key) (Birthday.people self) = true.
Proof.
  induction 1 as [|cy self ln fn ph d m y self' _ _ Hadd
                  |cy self f file self' r _ _ Hload].
  - reflexivity.
  - unfold Birthday.add in Hadd.
    destruct ((m <? 1) || (m >? 12)); [discriminate|].
    destruct (Birthday.new_Person cy (Some ln) (Some fn) (Some ph) d m y);
      [|discriminate].
    eapply birthday_sort_people_has_key; eassumption.
  - unfold Birthday.load in Hload. destruct file as [|e|root|kind| |]; try discriminate.
    destruct (Birthday.load_loop cy (ET.findall "person" root) [] 0)
      as [[l n]|]; [|discriminate].
    destruct (Birthday.sort_people l) as [s [[]|]] eqn:Hs; [|discriminate].
    injection Hload as <- _. eapply birthday_sort_people_has_key; eassumption.
Qed.

Lemma birthday_comparable (p q : Birthday.Person) :
  has_key Birthday.sort_key p = true -> has_key Birthday.sort_key q = true ->
  comparable Birthday.sort_key Birthday.key_lt p q = true.
Proof.
  unfold has_key, comparable.
  destruct (Birthday.sort_key p) as [[a b]|]; [|discriminate].
  destruct (Birthday.sort_key q) as [[c d]|]; [|discriminate].
  intros _ _. unfold Birthday.key_lt, tuple_lt.
  cbn [fst snd pystr_eqb pystr_lt].
  destruct (String.eqb a c); [destruct (String.eqb b d)|]; reflexivity.
Qed.

Lemma car_comparable (x y : Car.Car) :
  Car.brand x <> None /\ Car.model x <> None ->
  Car.brand y <> None /\ Car.model y <> None ->
  comparable Car.sort_key tuple_lt x y = true.
Proof.
  intros [Hb Hm] [Hb' Hm'].
  unfold comparable, Car.sort_key, tuple_lt. cbn [fst snd].
  destruct (Car.brand x) as [b|]; [|congruence].
  destruct (Car.model x) as [m|]; [|congruence].
  destruct (Car.brand y) as [b'|]; [|congruence].
  destruct (Car.model y) as [m'|]; [|congruence].
  cbn [pystr_eqb pystr_lt].
  destruct (String.eqb b b'); [destruct (String.eqb m m')|]; reflexivity.
Qed.
End AddFacts.

(** X14.  In a book that [add] and [load] have built, [add] of a person that
    [Person(...)] accepts returns and puts the person in the sequence
    without moving anyone else: after the people whose key it is not less
    than (so after those with the same last and first name), before the
    people whose key is greater. *)
Theorem birthday_add_inserts {B : Py.Builtins} (current_year : Z)
    (book : Birthday.BirthdayBook) (last_name first_name phone : string)
    (day month year : Z) (person : Birthday.Person) :
  Birthday.reachable_ok book ->
  Birthday.new_Person current_year (Some last_name) (Some first_name)
    (Some phone) day month year = Py.Return person ->
  exists before after,
    Birthday.people book = before ++ after
    /\ Birthday.add current_year book last_name first_name phone
         day month year
       = (Birthday.mkBirthdayBook (before ++ person :: after), Py.Return tt)
    /\ Forall (fun q => Py.item_lt Birthday.sort_key Birthday.key_lt person q
                        = false) before
    /\ Forall (fun q => Py.item_lt Birthday.sort_key Birthday.key_lt person q
                        = true) after.
Proof.
  intros Hr Hnew.
  pose proof (birthday_reachable_sorted book Hr) as Hs.
  pose proof (birthday_reachable_has_key book Hr) as Hk.
  assert (Hp : person = Birthday.mkPerson (Some last_name) (Some first_name)
                          (Some phone) day month year
               /\ 1 <= month <= 12).
  { rewrite birthday_new_Person_eq in Hnew.
    destruct (Birthday.__post_init__ current_year _) as [[]|] eqn:H;
      [|discriminate].
    injection Hnew as <-. split; [reflexivity|].
    apply birthday_post_init_ok in H. cbn in H. lia. }
  destruct Hp as [Hp Hm].
  assert (Hkp : Py.has_key Birthday.sort_key person = true)
    by (subst person; reflexivity).
  destruct (stable_sort_snoc Birthday.sort_key Birthday.key_lt
              birthday_key_lt_negtrans (Birthday.people book) person Hs)
    as (l1 & l2 & Hl & Hsort & Hnl & _ & Hlt).
  { apply Forall_forall. intros q Hq. apply birthday_comparable; [exact Hkp|].
    rewrite forallb_forall in Hk. now apply Hk. }
  exists l1, l2. split; [exact Hl|]. split; [|split; assumption].
  unfold Birthday.add.
  destruct ((month <? 1) || (month >? 12)) eqn:E;
    [apply orb_true_iff in E as [E|E]; lia|].
  rewrite Hnew. unfold Birthday.sort_people, Py.list_sort.
  assert (Hk' : forallb (Py.has_key Birthday.sort_key)
                  (Birthday.people book ++ [person]) = true).
  { rewrite forallb_app, Hk. cbn [forallb]. now rewrite Hkp. }
  rewrite Hk', (birthday_pairwise_comparable _ Hk'). cbn [negb].
  now rewrite Hsort.
Qed.

Lemma birthday_add_inserts_witness :
  exists before after,
    [Examples.ivanov; Examples.petrova] = before ++ after
    /\ Birthday.add (B := Ascii_builtins.builtins) 2024
         (Birthday.mkBirthdayBook [Examples.ivanov; Examples.petrova])
         "Mikhailov" "Dmitry" "555" 15 5 1992
       = (Birthday.mkBirthdayBook (before ++ Examples.mikhailov :: after),
          Py.Return tt)
    /\ Forall (fun q => Py.item_lt
                          (Birthday.sort_key (B := Ascii_builtins.builtins))
                          Birthday.key_lt Examples.mikhailov q = false) before
    /\ Forall (fun q => Py.item_lt
                          (Birthday.sort_key (B := Ascii_builtins.builtins))
                          Birthday.key_lt Examples.mikhailov q = true) after.
Proof.
  apply (birthday_add_inserts (B := Ascii_builtins.builtins) 2024
           (Birthday.mkBirthdayBook [Examples.ivanov; Examples.petrova])
           "Mikhailov" "Dmitry" "555" 15 5 1992 Examples.mikhailov).
  - apply (Birthday.reach_add 2024
             (Birthday.mkBirthdayBook [Examples.petrova])
             "Ivanov" "Ivan" "111" 15 5 1990); [|reflexivity].
    apply (Birthday.reach_add 2024 (Birthday.mkBirthdayBook [])
             "Petrova" "Maria" "222" 3 1 1985); [|reflexivity].
    apply Birthday.reach_new.
  - reflexivity.
Defined.

(** X15.  In a registry in the order of its key whose cars all have a brand and
    a model, and in a library in the order of its key whose books all
    have a title, [add] of a record that passes validation returns and
    puts the record in the sequence without moving any other: after the
    records whose key it is not less than, before those whose key is
    greater. *)
Theorem add_inserts {B : Py.Builtins} :
  (forall registry brand model license_plate max_speed current_speed car,
     Car.sorted registry ->
     Forall (fun c => Car.brand c <> None /\ Car.model c <> None)
       (Car.cars registry) ->
     Car.new_Car (Some brand) (Some model) (Some license_plate)
       max_speed current_speed = Py.Return car ->
     exists before after,
       Car.cars registry = before ++ after
       /\ Car.add registry brand model license_plate max_speed current_speed
          = (Car.mkCarRegistry (before ++ car :: after), Py.Return tt)
       /\ Forall (fun c => Py.item_lt Car.sort_key Py.tuple_lt car c = false)
            before
       /\ Forall (fun c => Py.item_lt Car.sort_key Py.tuple_lt car c = true)
            after)
  /\ (forall library title author year genre pages book,
        Library.sorted library ->
        Forall (fun b => Library.title b <> None) (Library.books library) ->
        Library.new_Book (Some title) (Some author) year (Some genre) pages
        = Py.Return book ->
        exists before after,
          Library.books library = before ++ after
          /\ Library.add library title author year genre pages
             = (Library.mkLibrary (before ++ book :: after), Py.Return tt)
          /\ Forall (fun b => Py.item_lt Library.sort_key Py.pystr_lt book b
                              = false) before
          /\ Forall (fun b => Py.item_lt Library.sort_key Py.pystr_lt book b
                              = true) after).
Proof.
  split.
  - intros registry brand model lp ms cs car Hs Hn Hnew.
    assert (Hc : car = Car.mkCar (Some brand) (Some model) (Some lp) ms cs).
    { rewrite car_new_Car_eq in Hnew.
      destruct (Car.__post_init__ _) as [[]|]; [|discriminate].
      now injection Hnew as <-. }
    assert (Hnc : Car.brand car <> None /\ Car.model car <> None)
      by (subst car; split; discriminate).
    destruct (stable_sort_snoc Car.sort_key Py.tuple_lt tuple_lt_negtrans
                (Car.cars registry) car Hs)
      as (l1 & l2 & Hl & Hsort & Hnl & _ & Hlt).
    { eapply Forall_impl; [|exact Hn]. intros c Hcn.
      now apply car_comparable. }
    exists l1, l2. split; [exact Hl|]. split; [|split; assumption].
    unfold Car.add. rewrite Hnew. unfold Car.sort_cars, Py.list_sort.
    assert (Hn' : Forall (fun c => Car.brand c <> None /\ Car.model c <> None)
                    (Car.cars registry ++ [car])).
    { apply Forall_app. split; [exact Hn|]. constructor; [exact Hnc|constructor]. }
    assert (Hk : forallb (Py.has_key Car.sort_key) (Car.cars registry ++ [car])
                 = true) by now apply forallb_forall.
    rewrite Hk, (car_pairwise_comparable _ Hn'). cbn [negb].
    now rewrite Hsort.
  - intros library title author year genre pages book Hs Hn Hnew.
    assert (Hb : book = Library.mkBook (Some title) (Some author) year
                          (Some genre) pages).
    { rewrite library_new_Book_eq in Hnew.
      destruct (Library.__post_init__ _) as [[]|]; [|discriminate].
      now injection Hnew as <-. }
    assert (Hnb : Library.title book <> None) by (subst book; discriminate).
    destruct (stable_sort_snoc Library.sort_key Py.pystr_lt pystr_lt_negtrans
                (Library.books library) book Hs)
      as (l1 & l2 & Hl & Hsort & Hnl & _ & Hlt).
    { eapply Forall_impl; [|exact Hn]. intros b Hbn. cbv beta in Hbn.
      unfold Py.comparable, Library.sort_key.
      destruct (Library.title book); [|congruence].
      destruct (Library.title b); [reflexivity | congruence]. }
    exists l1, l2. split; [exact Hl|]. split; [|split; assumption].
    unfold Library.add. rewrite Hnew.
    unfold Library.sort_books, Py.list_sort.
    assert (Hn' : Forall (fun b => Library.title b <> None)
                    (Library.books library ++ [book])).
    { apply Forall_app. split; [exact Hn|]. constructor; [exact Hnb|constructor]. }
    assert (Hk : forallb (Py.has_key Library.sort_key)
                   (Library.books library ++ [book]) = true)
      by now apply forallb_forall.
    rewrite Hk, (library_pairwise_comparable _ Hn'). cbn [negb].
    now rewrite Hsort.
Qed.

Lemma add_inserts_witness :
  exists before after,
    [Examples.book_B; Examples.book_a] = before ++ after
    /\ Library.add (B := Ascii_builtins.builtins) Examples.library_B_a
         "a" "Author" 2000 "Novel" 100
       = (Library.mkLibrary (before ++ Examples.book_a :: after),
          Py.Return tt)
    /\ Forall (fun b => Py.item_lt Library.sort_key Py.pystr_lt
                          Examples.book_a b = false) before
    /\ Forall (fun b => Py.item_lt Library.sort_key Py.pystr_lt
                          Examples.book_a b = true) after.
Proof.
  destruct (add_inserts (B := Ascii_builtins.builtins)) as [_ H].
  apply (H Examples.library_B_a "a"%string "Author"%string 2000
           "Novel"%string 100 Examples.book_a).
  - apply (library_sort_books_ok (B := Ascii_builtins.builtins)
             (Library.books Examples.library_B_a)).
    reflexivity.
  - repeat constructor; discriminate.
  - reflexivity.
Defined.

(** * [add] when the sort raises *)

Section SortFailureFacts.
Import Py.
Context {B : Builtins}.

Lemma birthday_has_no_key (l : list Birthday.Person) :
  Exists (fun q => Birthday.last_name q = None \/ Birthday.first_name q = None)
    l ->
  forallb (has_key Birthday.sort_key) l = false.
Proof.
  induction 1 as [q l Hq|q l _ IH]; cbn [forallb].
  - unfold has_key at 1, Birthday.sort_key.
    destruct Hq as [-> | Hq]; [reflexivity|].
    destruct (Birthday.last_name q); [now rewrite Hq | reflexivity].
  - rewrite IH. apply andb_false_r.
Qed.

Lemma library_untitled_incomparable (l : list Library.Book)
    (x : Library.Book) :
  Exists (fun b => Library.title b = None) l ->
  pairwise_comparable Library.sort_key pystr_lt (l ++ [x]) = false.
Proof.
  induction 1 as [a l Ha|a l _ IH];
    cbn [Datatypes.app pairwise_comparable].
  - apply andb_false_iff. left. rewrite forallb_app. cbn [forallb].
    unfold comparable at 2, Library.sort_key. rewrite Ha.
    destruct (Library.title x); cbn [pystr_lt];
      now rewrite andb_false_r.
  - rewrite IH. apply andb_false_r.
Qed.
End SortFailureFacts.

(** X16.  [add] is not atomic when the sort raises.  In a book that holds a
    person without a last or a first name (a failed [load] leaves such
    books), [add] of a valid person raises AttributeError and the person
    stays appended.  In a library that holds a book without a title (a
    [load] of one such entry returns it), [add] of a valid book raises
    TypeError and the book stays in the library. *)
Theorem add_when_sort_raises {B : Py.Builtins} :
  (forall current_year book last_name first_name phone day month year person,
     Exists (fun q => Birthday.last_name q = None
                      \/ Birthday.first_name q = None)
       (Birthday.people book) ->
     Birthday.new_Person current_year (Some last_name) (Some first_name)
       (Some phone) day month year = Py.Return person ->
     Birthday.add current_year book last_name first_name phone day month year
     = (Birthday.mkBirthdayBook (Birthday.people book ++ [person]),
        Py.Raise Birthday.AttributeError))
  /\ (forall library title author year genre pages book,
        Exists (fun b => Library.title b = None) (Library.books library) ->
        Library.new_Book (Some title) (Some author) year (Some genre) pages
        = Py.Return book ->
        exists books,
          Library.add library title author year genre pages
          = (Library.mkLibrary books, Py.Raise Library.TypeError)
          /\ Permutation books (Library.books library ++ [book])).
Proof.
  split.
  - intros cy book ln fn ph d m y person Hex Hnew.
    assert (Hm : 1 <= m <= 12).
    { rewrite birthday_new_Person_eq in Hnew.
      destruct (Birthday.__post_init__ cy _) as [[]|] eqn:H; [|discriminate].
      apply birthday_post_init_ok in H. cbn in H. lia. }
    unfold Birthday.add.
    destruct ((m <? 1) || (m >? 12)) eqn:E;
      [apply orb_true_iff in E as [E|E]; lia|].
    rewrite Hnew. unfold Birthday.sort_people, Py.list_sort.
    rewrite forallb_app, (birthday_has_no_key _ Hex). reflexivity.
  - intros library t a y g p book Hex Hnew.
    eexists. split; [|apply arrange_perm].
    unfold Library.add. rewrite Hnew.
    unfold Library.sort_books, Py.list_sort.
    assert (Hk : forallb (Py.has_key Library.sort_key)
                   (Library.books library ++ [book]) = true)
      by now apply forallb_forall.
    rewrite Hk, (library_untitled_incomparable _ book Hex). reflexivity.
Qed.

Lemma add_when_sort_raises_witness :
  Birthday.load (B := Ascii_builtins.builtins) 2024
    (Birthday.mkBirthdayBook []) "birthdays.xml"
    (ET.Tree Examples.nameless_file)
  = (Birthday.mkBirthdayBook [Examples.nameless],
     Py.Raise Birthday.AttributeError)
  /\ Birthday.add (B := Ascii_builtins.builtins) 2024
       (Birthday.mkBirthdayBook [Examples.nameless])
       "Ivanov" "Ivan" "111" 15 5 1990
     = (Birthday.mkBirthdayBook [Examples.nameless; Examples.ivanov],
        Py.Raise Birthday.AttributeError)
  /\ Library.load (B := Ascii_builtins.builtins) (Library.mkLibrary [])
       "library.xml" (ET.Tree Examples.untitled_file)
     = (Library.mkLibrary [Examples.no_title], Py.Return 1)
  /\ exists books,
       Library.add (B := Ascii_builtins.builtins)
         (Library.mkLibrary [Examples.no_title]) "a" "Author" 2000 "Novel" 100
       = (Library.mkLibrary books, Py.Raise Library.TypeError)
       /\ Permutation books [Examples.no_title; Examples.book_a].
Proof.
  destruct (add_when_sort_raises (B := Ascii_builtins.builtins))
    as [Hbook Hlibrary].
  split; [reflexivity|]. split; [|split; [reflexivity|]].
  - apply (Hbook 2024 (Birthday.mkBirthdayBook [Examples.nameless])
             "Ivanov"%string "Ivan"%string "111"%string 15 5 1990
             Examples.ivanov).
    + left. now left.
    + reflexivity.
  - apply (Hlibrary (Library.mkLibrary [Examples.no_title])
             "a"%string "Author"%string 2000 "Novel"%string 100
             Examples.book_a).
    + now left.
    + reflexivity.
Defined.

(** * Selections *)

Section SelectFacts.
Import Py.

Lemma comprehension_filter {E A : Type} (cond : A -> result E bool)
    (f : A -> bool) (l : list A) :
  Forall (fun x => cond x = Return (f x)) l ->
  comprehension cond l = Return (filter f l).
Proof.
  induction 1 as [|x l Hx _ IH]; [reflexivity|].
  cbn [comprehension filter]. rewrite Hx, IH. cbn [bind].
  now destruct (f x).
Qed.

Lemma comprehension_raises {E A : Type} (cond : A -> result E bool)
    (e : E) (l : list A) :
  Forall (fun x => forall e', cond x = Raise e' -> e' = e) l ->
  Exists (fun x => cond x = Raise e) l ->
  comprehension cond l = Raise e.
Proof.
  intros Hall. induction 1 as [x l Hx|x l _ IH]; cbn [comprehension].
  - now rewrite Hx.
  - inversion Hall as [|? ? Hx Hl]; subst.
    destruct (cond x) as [b|e'] eqn:Hc; cbn [bind].
    + now rewrite (IH Hl).
    + now rewrite (Hx e' eq_refl).
Qed.

Lemma sorted_by_filter {A K : Type} (key : A -> option K)
    (lt : K -> K -> option bool) (f : A -> bool) (l : list A) :
  sorted_by key lt l -> sorted_by key lt (filter f l).
Proof.
  induction 1 as [|x l _ IH Hx]; cbn [filter]; [constructor|].
  destruct (f x); [|exact IH].
  constructor; [exact IH|].
  apply Forall_forall. intros y Hy. apply filter_In in Hy as [Hy _].
  rewrite Forall_forall in Hx. now apply Hx.
Qed.

Lemma filter_idempotent {A : Type} (f : A -> bool) (l : list A) :
  filter f (filter f l) = filter f l.
Proof.
  induction l as [|x l IH]; [reflexivity|].
  cbn [filter]. destruct (f x) eqn:Hx; [|exact IH].
  cbn [filter]. now rewrite Hx, IH.
Qed.

Lemma contains_empty (s : string) : contains "" s = true.
Proof. destruct s; reflexivity. Qed.

Lemma filter_all {A : Type} (f : A -> bool) (l : list A) :
  Forall (fun x => f x = true) l -> filter f l = l.
Proof.
  induction 1 as [|x l Hx _ IH]; [reflexivity|].
  cbn [filter]. now rewrite Hx, IH.
Qed.
End SelectFacts.

(** X17.  [select_by_brand] raises AttributeError when a car of the registry
    has no brand.  Otherwise it returns the cars whose brand, in lower
    case, holds the query stripped and in lower case, in the order they
    have in the registry; so a selection from a registry in the order of
    its key is in that order too. *)
Theorem select_by_brand_spec {B : Py.Builtins} {S : Py.Strip}
    (registry : Car.CarRegistry) (brand : string) :
  let query := Py.lower (Py.strip brand) in
  let selected car :=
    match Car.brand car with
    | Some b => Py.contains query (Py.lower b)
    | None => false
    end in
  (Exists (fun car => Car.brand car = None) (Car.cars registry) ->
   Car.select_by_brand registry brand = Py.Raise Car.AttributeError)
  /\ (Forall (fun car => Car.brand car <> None) (Car.cars registry) ->
      Car.select_by_brand registry brand
      = Py.Return (filter selected (Car.cars registry))
      /\ (Car.sorted registry ->
          Car.sorted (Car.mkCarRegistry
                        (filter selected (Car.cars registry))))).
Proof.
  intros query selected. unfold Car.select_by_brand. fold query. split.
  - intros Hex. apply comprehension_raises.
    + apply Forall_forall. intros car _ e. unfold Car.brand_matches.
      destruct (Car.brand car); [discriminate | now intros [= <-]].
    + eapply Exists_impl; [|exact Hex]. intros car Hb. cbv beta in Hb.
      unfold Car.brand_matches. now rewrite Hb.
  - intros Hall. split.
    + apply comprehension_filter.
      eapply Forall_impl; [|exact Hall]. intros car Hb. cbv beta in Hb.
      unfold Car.brand_matches, selected.
      destruct (Car.brand car); [reflexivity | congruence].
    + intros Hs. unfold Car.sorted. cbn [Car.cars].
      now apply sorted_by_filter.
Qed.

Lemma select_by_brand_spec_witness :
  Car.select_by_brand (B := Ascii_builtins.builtins)
    (S := Ascii_builtins.strings) Examples.registry "  bmw "
  = Py.Return [Examples.bmw].
Proof.
  apply (select_by_brand_spec (B := Ascii_builtins.builtins)
           (S := Ascii_builtins.strings) Examples.registry "  bmw ").
  repeat constructor; discriminate.
Defined.

(** X18.  [Library.select], in a library whose books all have an author, a
    genre and a title, returns the books of which one of the three, in
    lower case, holds the criterion stripped and in lower case, in the
    order they have in the library; a selection from a library in the
    order of its key is in that order too, and selecting again from the
    selection with the same criterion gives the selection back. *)
Theorem library_select_spec {B : Py.Builtins} {S : Py.Strip}
    (library : Library.Library) (criterion : string) :
  let query := Py.lower (Py.strip criterion) in
  let selected book :=
    match Library.author book, Library.genre book, Library.title book with
    | Some a, Some g, Some t =>
        Py.contains query (Py.lower a) || Py.contains query (Py.lower g)
        || Py.contains query (Py.lower t)
    | _, _, _ => false
    end in
  Forall (fun book => Library.author book <> None
                      /\ Library.genre book <> None
                      /\ Library.title book <> None)
    (Library.books library) ->
  Library.select library criterion
  = Py.Return (filter selected (Library.books library))
  /\ (Library.sorted library ->
      Library.sorted (Library.mkLibrary
                        (filter selected (Library.books library))))
  /\ Library.select
       (Library.mkLibrary (filter selected (Library.books library)))
       criterion
     = Py.Return (filter selected (Library.books library)).
Proof.
  intros query selected Hall.
  assert (Hsel : forall l,
            Forall (fun book => Library.author book <> None
                                /\ Library.genre book <> None
                                /\ Library.title book <> None) l ->
            Library.select (Library.mkLibrary l) criterion
            = Py.Return (filter selected l)).
  { intros l Hl. unfold Library.select. fold query. cbn [Library.books].
    apply comprehension_filter.
    eapply Forall_impl; [|exact Hl]. intros book (Ha & Hg & Ht).
    unfold Library.matches, Library.field_lower, selected, Py.bind.
    destruct (Library.author book) as [a|]; [|congruence].
    destruct (Library.genre book) as [g|]; [|congruence].
    destruct (Library.title book) as [t|]; [|congruence].
    destruct (Py.contains query (Py.lower a)); [reflexivity|].
    destruct (Py.contains query (Py.lower g)); reflexivity. }
  split; [|split].
  - destruct library as [l]. now apply Hsel.
  - intros Hs. unfold Library.sorted. cbn [Library.books].
    now apply sorted_by_filter.
  - rewrite Hsel.
    + now rewrite filter_idempotent.
    + apply Forall_forall. intros book Hin.
      apply filter_In in Hin as [Hin _].
      rewrite Forall_forall in Hall. now apply Hall.
Qed.

Lemma library_select_spec_witness :
  Library.select (B := Ascii_builtins.builtins)
    (S := Ascii_builtins.strings) Examples.library_B_a " NOVEL"
  = Py.Return [Examples.book_B; Examples.book_a].
Proof.
  apply (library_select_spec (B := Ascii_builtins.builtins)
           (S := Ascii_builtins.strings) Examples.library_B_a " NOVEL").
  repeat constructor; discriminate.
Defined.

(** X19.  A query that is blank once stripped and put in lower case selects
    everything: [select_by_brand] then returns every car of a registry
    whose cars all have a brand, and [Library.select] every book of a
    library whose books all have an author. *)
Theorem blank_query_selects_all {B : Py.Builtins} {S : Py.Strip}
    (query : string) :
  Py.lower (Py.strip query) = ""%string ->
  (forall registry,
     Forall (fun car => Car.brand car <> None) (Car.cars registry) ->
     Car.select_by_brand registry query = Py.Return (Car.cars registry))
  /\ (forall library,
        Forall (fun book => Library.author book <> None)
          (Library.books library) ->
        Library.select library query = Py.Return (Library.books library)).
Proof.
  intros Hq. split.
  - intros registry Hall. unfold Car.select_by_brand. rewrite Hq.
    rewrite (comprehension_filter _ (fun _ => true)).
    + now rewrite filter_all by now apply Forall_forall.
    + eapply Forall_impl; [|exact Hall]. intros car Hb. cbv beta in Hb.
      unfold Car.brand_matches.
      destruct (Car.brand car); [|congruence].
      now rewrite contains_empty.
  - intros library Hall. unfold Library.select. rewrite Hq.
    rewrite (comprehension_filter _ (fun _ => true)).
    + now rewrite filter_all by now apply Forall_forall.
    + eapply Forall_impl; [|exact Hall]. intros book Ha. cbv beta in Ha.
      unfold Library.matches, Library.field_lower, Py.bind.
      destruct (Library.author book); [|congruence].
      now rewrite contains_empty.
Qed.

Lemma blank_query_selects_all_witness :
  Car.select_by_brand (B := Ascii_builtins.builtins)
    (S := Ascii_builtins.strings) Examples.registry "   "
  = Py.Return [Examples.audi; Examples.bmw].
Proof.
  apply (blank_query_selects_all (B := Ascii_builtins.builtins)
           (S := Ascii_builtins.strings) "   ").
  - reflexivity.
  - repeat constructor; discriminate.
Defined.

(** * Speeds *)

(** X20.  [check_speed] compares the speed with 200, whatever the registry
    holds: up to 200 it returns the message, above 200 it raises
    SpeedLimitExceededError for the limit 200 and without a car, whose
    text is the speed, an arrow and the message.  The error that
    [Car(...)] raises for a car above its own limit names the car, and
    its text begins with the car. *)
Theorem speed_errors {B : Py.Builtins} (registry : Car.CarRegistry)
    (speed : Z) (brand model license_plate : Py.pystr)
    (max_speed current_speed : Z) :
  let limit_message (limit : Z) :=
    ("Превышена максимальная скорость " ++ Py.py_str limit ++ " км/ч")%string in
  let info := (Py.format brand ++ " " ++ Py.format model
               ++ " (" ++ Py.format license_plate ++ ")")%string in
  (speed <= 200 ->
   Car.check_speed registry speed
   = Py.Return ("Скорость " ++ Py.py_str speed ++ " км/ч в пределах нормы ("
                ++ Py.py_str 200 ++ " км/ч).")%string)
  /\ (200 < speed ->
      Car.check_speed registry speed
      = Py.Raise (Car.SpeedLimitExceededError speed 200 "" (limit_message 200))
      /\ Car.__str__
           (Car.SpeedLimitExceededError speed 200 "" (limit_message 200))
         = Some (Py.py_str speed ++ " -> " ++ limit_message 200)%string)
  /\ (0 < max_speed < current_speed ->
      Car.new_Car brand model license_plate max_speed current_speed
      = Py.Raise (Car.SpeedLimitExceededError current_speed max_speed info
                    (limit_message max_speed))
      /\ Car.__str__
           (Car.SpeedLimitExceededError current_speed max_speed info
              (limit_message max_speed))
         = Some (info ++ ": " ++ Py.py_str current_speed ++ " -> "
                 ++ limit_message max_speed)%string).
Proof.
  intros limit_message info. split; [|split].
  - intros H. unfold Car.check_speed, Car.STANDARD_MAX_SPEED.
    destruct (speed >? 200) eqn:E; [lia | reflexivity].
  - intros H. unfold Car.check_speed, Car.STANDARD_MAX_SPEED.
    destruct (speed >? 200) eqn:E; [|lia]. split; reflexivity.
  - intros H. split.
    + unfold Car.new_Car, Car.__post_init__, Py.bind.
      cbn [Car.max_speed Car.current_speed Car.brand Car.model
           Car.license_plate].
      destruct (max_speed <=? 0) eqn:E1; [lia|].
      destruct (current_speed <? 0) eqn:E2; [lia|].
      destruct (current_speed >? max_speed) eqn:E3; [reflexivity | lia].
    + unfold Car.__str__.
      assert (Hi : String.eqb info "" = false).
      { unfold info. destruct (Py.format brand); reflexivity. }
      now rewrite Hi.
Qed.

Lemma speed_errors_witness :
  Car.check_speed (B := Ascii_builtins.builtins) Examples.registry 250
  = Py.Raise (Car.SpeedLimitExceededError 250 200 ""
                "Превышена максимальная скорость 200 км/ч")
  /\ Car.__str__ (B := Ascii_builtins.builtins)
       (Car.SpeedLimitExceededError 250 200 ""
          "Превышена максимальная скорость 200 км/ч")
     = Some "250 -> Превышена максимальная скорость 200 км/ч"%string.
Proof.
  apply (speed_errors (B := Ascii_builtins.builtins) Examples.registry 250
           None None None 1 1).
  lia.
Defined.

(** X21.  The status of a car that [Car(...)] accepted is never that of an
    exceeded limit: it is the status of a stopped car exactly when the
    current speed is 0, and the status within the limit otherwise; and
    for any car, [is_speeding] holds exactly when the status is that of
    an exceeded limit. *)
Theorem speed_status_of_valid_car {B : Py.Builtins} (car : Car.Car) :
  (Car.is_speeding car = true
   <-> Car.speed_status car = "ПРЕВЫШЕНИЕ"%string)
  /\ (Car.valid car ->
      Car.is_speeding car = false
      /\ (Car.current_speed car = 0
          -> Car.speed_status car = "ОСТАНОВЛЕН"%string)
      /\ (Car.current_speed car <> 0
          -> Car.speed_status car = "В ПРЕДЕЛАХ"%string)).
Proof.
  unfold Car.is_speeding, Car.speed_status. split.
  - destruct (Car.current_speed car >? Car.max_speed car).
    + split; reflexivity.
    + split; [discriminate|].
      destruct (Car.current_speed car =? 0); discriminate.
  - intros Hv. apply car_post_init_ok in Hv.
    destruct (Car.current_speed car >? Car.max_speed car) eqn:E; [lia|].
    split; [reflexivity|]. split; intros H.
    + now rewrite H.
    + destruct (Car.current_speed car =? 0) eqn:E0; [lia | reflexivity].
Qed.

Lemma speed_status_of_valid_car_witness :
  Car.is_speeding Examples.bmw = false
  /\ (Car.current_speed Examples.bmw = 0
      -> Car.speed_status Examples.bmw = "ОСТАНОВЛЕН"%string)
  /\ (Car.current_speed Examples.bmw <> 0
      -> Car.speed_status Examples.bmw = "В ПРЕДЕЛАХ"%string).
Proof.
  apply (speed_status_of_valid_car (B := Ascii_builtins.builtins)
           Examples.bmw).
  reflexivity.
Defined.

(** * People with the same birthday *)

Section TieFacts.
Import Py Birthday.
Context {B : Builtins}.

Lemma sorted_by_day_then_key (l : list Person) :
  StronglySorted (fun p q => day p <= day q) l ->
  (forall d, sorted_by sort_key key_lt (filter (fun p => day p =? d) l)) ->
  StronglySorted
    (fun p q => day p < day q
                \/ (day p = day q /\ key_le sort_key key_lt p q)) l.
Proof.
  induction 1 as [|x l Hs IH Hx]; intros Hd; [constructor|].
  constructor.
  - apply IH. intros d. specialize (Hd d). cbn [filter] in Hd.
    destruct (day x =? d); [now inversion Hd | exact Hd].
  - apply Forall_forall. intros y Hy.
    rewrite Forall_forall in Hx. specialize (Hx y Hy).
    destruct (Z.eq_dec (day x) (day y)) as [Heq|Hne]; [|left; lia].
    right. split; [exact Heq|].
    specialize (Hd (day x)). cbn [filter] in Hd.
    rewrite Z.eqb_refl in Hd. inversion Hd as [|? ? _ Hall]; subst.
    rewrite Forall_forall in Hall. apply Hall.
    apply filter_In. split; [exact Hy|]. apply Z.eqb_eq. lia.
Qed.
End TieFacts.

(** X6.  In a book that [add] and [load] have built, [filter_by_month] for a
    month from 1 to 12 returns its people by day, and the people with the
    same day in the order of their key, last name then first name. *)
Theorem filter_by_month_ties {B : Py.Builtins}
    (book : Birthday.BirthdayBook) (month : Z) :
  Birthday.reachable_ok book ->
  1 <= month <= 12 ->
  exists result,
    Birthday.filter_by_month book month = (book, Py.Return result)
    /\ StronglySorted
         (fun p q =>
            Birthday.day p < Birthday.day q
            \/ (Birthday.day p = Birthday.day q
                /\ Py.key_le Birthday.sort_key Birthday.key_lt p q))
         result.
Proof.
  intros Hr Hm. unfold Birthday.filter_by_month.
  destruct ((month <? 1) || (month >? 12)) eqn:E;
    [apply orb_true_iff in E as [E|E]; lia|].
  eexists. split; [reflexivity|].
  apply sorted_by_day_then_key; [apply day_stable_sort_sorted|].
  intros d. rewrite day_stable_sort_stable.
  apply sorted_by_filter, sorted_by_filter.
  now apply birthday_reachable_sorted.
Qed.

Lemma filter_by_month_ties_witness :
  exists result,
    Birthday.filter_by_month Examples.sorted_book 5
    = (Examples.sorted_book, Py.Return result)
    /\ StronglySorted
         (fun p q =>
            Birthday.day p < Birthday.day q
            \/ (Birthday.day p = Birthday.day q
                /\ Py.key_le
                     (Birthday.sort_key (B := Ascii_builtins.builtins))
                     Birthday.key_lt p q))
         result.
Proof.
  apply (filter_by_month_ties (B := Ascii_builtins.builtins)
           Examples.sorted_book 5).
  - apply (Birthday.reach_add 2024
             (Birthday.mkBirthdayBook [Examples.mikhailov; Examples.petrova])
             "Ivanov" "Ivan" "111" 15 5 1990); [|reflexivity].
    apply (Birthday.reach_add 2024
             (Birthday.mkBirthdayBook [Examples.petrova])
             "Mikhailov" "Dmitry" "555" 15 5 1992); [|reflexivity].
    apply (Birthday.reach_add 2024 (Birthday.mkBirthdayBook [])
             "Petrova" "Maria" "222" 3 1 1985); [|reflexivity].
    apply Birthday.reach_new.
  - lia.
Defined.

(** * The records a collection holds *)

Section HeldFacts.
Import Py.
Context {B : Builtins}.

Lemma birthday_valid_later (cy now : Z) (p : Birthday.Person) :
  cy <= now -> Birthday.valid cy p -> Birthday.valid now p.
Proof.
  intros Hle Hv. apply birthday_post_init_ok in Hv.
  apply birthday_post_init_ok. lia.
Qed.

Lemma birthday_new_Person_valid (cy : Z) (ln fn ph : pystr) (d m y : Z)
    (p : Birthday.Person) :
  Birthday.new_Person cy ln fn ph d m y = Return p -> Birthday.valid cy p.
Proof.
  rewrite birthday_new_Person_eq. unfold Birthday.valid.
  destruct (Birthday.__post_init__ cy _) as [[]|] eqn:H; [|discriminate].
  now intros [= <-].
Qed.

Lemma car_new_Car_valid (b m lp : pystr) (ms cs : Z) (c : Car.Car) :
  Car.new_Car b m lp ms cs = Return c -> Car.valid c.
Proof.
  rewrite car_new_Car_eq. unfold Car.valid.
  destruct (Car.__post_init__ _) as [[]|] eqn:H; [|discriminate].
  now intros [= <-].
Qed.

Lemma library_new_Book_valid (t a : pystr) (y : Z) (g : pystr) (p : Z)
    (b : Library.Book) :
  Library.new_Book t a y g p = Return b -> Library.valid b.
Proof.
  rewrite library_new_Book_eq. unfold Library.valid.
  destruct (Library.__post_init__ _) as [[]|] eqn:H; [|discriminate].
  now intros [= <-].
Qed.

Lemma birthday_reachable_valid (now : Z) (book : Birthday.BirthdayBook) :
  Birthday.reachable now book ->
  Forall (Birthday.valid now) (Birthday.people book).
Proof.
  induction 1 as [|cy self ln fn ph d m y Hcy _ IH|cy self f file Hcy _ IH].
  - constructor.
  - unfold Birthday.add.
    destruct ((m <? 1) || (m >? 12)); [exact IH|].
    destruct (Birthday.new_Person cy (Some ln) (Some fn) (Some ph) d m y)
      as [p|e] eqn:Hp; [|exact IH].
    eapply Permutation_Forall;
      [apply Permutation_sym, birthday_sort_people_perm|].
    apply Forall_app. split; [exact IH|].
    constructor; [|constructor].
    apply (birthday_valid_later cy); [exact Hcy|].
    eapply birthday_new_Person_valid; eassumption.
  - unfold Birthday.load. destruct file as [|e|root|kind| |]; try exact IH.
    pose proof (birthday_load_loop_spec cy (ET.findall "person" root) [] 0)
      as Hl.
    destruct (Birthday.load_loop cy (ET.findall "person" root) [] 0)
      as [[l n]|e]; [|exact IH].
    destruct Hl as (-> & _).
    change ([] ++ Birthday.accepted cy (ET.findall "person" root))
      with (Birthday.accepted cy (ET.findall "person" root)).
    pose proof (birthday_sort_people_perm
                  (Birthday.accepted cy (ET.findall "person" root))) as Hp.
    assert (Hf : Forall (Birthday.valid now)
                   (Birthday.accepted cy (ET.findall "person" root))).
    { eapply Forall_impl; [|apply birthday_accepted_valid].
      intros p. now apply birthday_valid_later. }
    destruct (Birthday.sort_people _) as [s [[]|x]]; cbn [fst] in *;
      (eapply Permutation_Forall; [apply Permutation_sym, Hp | exact Hf]).
Qed.

Lemma car_reachable_valid (registry : Car.CarRegistry) :
  Car.reachable registry -> Forall Car.valid (Car.cars registry).
Proof.
  induction 1 as [|self b m lp ms cs _ IH|self f file _ IH].
  - constructor.
  - unfold Car.add.
    destruct (Car.new_Car (Some b) (Some m) (Some lp) ms cs) as [c|e] eqn:Hc;
      [|exact IH].
    eapply Permutation_Forall; [apply Permutation_sym, car_sort_cars_perm|].
    apply Forall_app. split; [exact IH|].
    constructor; [|constructor]. eapply car_new_Car_valid; eassumption.
  - unfold Car.load. destruct file as [|e|root|kind| |]; try exact IH.
    pose proof (car_load_loop_spec (ET.findall "car" root) [] 0) as Hl.
    destruct (Car.load_loop (ET.findall "car" root) [] 0) as [[l n]|e];
      [|exact IH].
    destruct Hl as (-> & _).
    change ([] ++ Car.accepted (ET.findall "car" root))
      with (Car.accepted (ET.findall "car" root)).
    pose proof (car_sort_cars_perm (Car.accepted (ET.findall "car" root)))
      as Hp.
    pose proof (car_accepted_valid (ET.findall "car" root)) as Hf.
    destruct (Car.sort_cars _) as [s [[]|x]]; cbn [fst] in *;
      (eapply Permutation_Forall; [apply Permutation_sym, Hp | exact Hf]).
Qed.

Lemma library_reachable_valid (library : Library.Library) :
  Library.reachable library -> Forall Library.valid (Library.books library).
Proof.
  induction 1 as [|self t a y g p _ IH|self f file _ IH].
  - constructor.
  - unfold Library.add.
    destruct (Library.new_Book (Some t) (Some a) y (Some g) p) as [b|e] eqn:Hb;
      [|exact IH].
    eapply Permutation_Forall;
      [apply Permutation_sym, library_sort_books_perm|].
    apply Forall_app. split; [exact IH|].
    constructor; [|constructor]. eapply library_new_Book_valid; eassumption.
  - unfold Library.load. destruct file as [|e|root|kind| |]; try exact IH.
    pose proof (library_load_loop_spec (ET.findall "book" root) []) as Hl.
    destruct (Library.load_loop (ET.findall "book" root) []) as [l|e];
      [|exact IH].
    destruct Hl as (-> & _).
    change ([] ++ Library.accepted (ET.findall "book" root))
      with (Library.accepted (ET.findall "book" root)).
    pose proof (library_sort_books_perm
                  (Library.accepted (ET.findall "book" root))) as Hp.
    pose proof (library_accepted_valid (ET.findall "book" root)) as Hf.
    destruct (Library.sort_books _) as [s [[]|x]]; cbn [fst] in *;
      (eapply Permutation_Forall; [apply Permutation_sym, Hp | exact Hf]).
Qed.
End HeldFacts.

(** X22.  Whatever calls of [add] and [load] a session has made, and
    whether they returned or raised, a collection holds only records that
    pass validation: every person of a book has a year from 1900 to the
    year of the clock, a month from 1 to 12 and a day of that month;
    every car has a positive limit and a speed from 0 to the limit;
    every book has a year from 0 to 2024 and a positive number of
    pages. *)
Theorem collections_hold_valid_records {B : Py.Builtins} :
  (forall now book,
     Birthday.reachable now book ->
     Forall (fun p =>
               1900 <= Birthday.year p <= now
               /\ 1 <= Birthday.month p <= 12
               /\ 1 <= Birthday.day p <= Birthday._get_days_in_month p)
       (Birthday.people book))
  /\ (forall registry,
        Car.reachable registry ->
        Forall (fun c =>
                  0 < Car.max_speed c
                  /\ 0 <= Car.current_speed c <= Car.max_speed c)
          (Car.cars registry))
  /\ (forall library,
        Library.reachable library ->
        Forall (fun b => 0 <= Library.year b <= 2024 /\ 0 < Library.pages b)
          (Library.books library)).
Proof.
  split; [|split].
  - intros now book H. eapply Forall_impl; [|eapply birthday_reachable_valid, H].
    intros p Hp. now apply birthday_post_init_ok in Hp.
  - intros registry H. eapply Forall_impl; [|eapply car_reachable_valid, H].
    intros c Hc. now apply car_post_init_ok in Hc.
  - intros library H. eapply Forall_impl; [|eapply library_reachable_valid, H].
    intros b Hb. now apply library_post_init_ok in Hb.
Qed.

Lemma collections_hold_valid_records_witness :
  Forall (fun b => 0 <= Library.year b <= 2024 /\ 0 < Library.pages b)
    (Library.books
       (fst (Library.load (B := Ascii_builtins.builtins)
               (fst (Library.add (B := Ascii_builtins.builtins)
                       (Library.mkLibrary []) "a" "Author" 2000 "Novel" 100))
               "library.xml" (ET.Tree Examples.library_file)))).
Proof.
  apply (collections_hold_valid_records (B := Ascii_builtins.builtins)).
  apply Library.after_load, Library.after_add, Library.start.
Defined.

(** * A book written and read again *)

Section RoundTripSorts.
Import Py Birthday.
Context {B : Builtins}.
Hypothesis law : str_law B.

Lemma birthday_round_trip_sorts (cy : Z) (filename : string)
    (l : list Person) :
  Forall (valid cy) l ->
  forallb plain l = true ->
  load cy (mkBirthdayBook []) filename
    (ET.Tree (save_tree (mkBirthdayBook l)))
  = (mkBirthdayBook (stable_sort sort_key key_lt l),
     Return (Z.of_nat (List.length l), 0)).
Proof.
  intros Hv Hp. unfold load, save_tree. cbn [people].
  rewrite (findall_entries "birthdays" "person" None person_element l)
    by reflexivity.
  rewrite (birthday_load_loop_saved law cy l [] 0 Hv).
  change ([] ++ l) with l.
  unfold sort_people, list_sort.
  pose proof (birthday_plain_has_key l Hp) as Hk.
  rewrite Hk, (birthday_pairwise_comparable l Hk). cbn [negb people].
  now rewrite (Permutation_length (stable_sort_perm sort_key key_lt l)).
Qed.
End RoundTripSorts.

(** C3.  A book of valid people, whose names and phones are plain text,
    is written to a tree that a file gives back as it is, and [load] of
    that tree into an empty book counts every person and skips none; but
    it gives the people in the order of the key, not in the order they
    had: the book read is the book written exactly when the book written
    was in the order of the key.  The book of the fixture of
    [test_save_and_load], whose people are assigned in another order,
    does not come back as the test expects. *)
Theorem round_trip_sorts {B : Py.Builtins} (law : str_law B)
    (current_year : Z) (filename : string) (book : Birthday.BirthdayBook) :
  Forall (Birthday.valid current_year) (Birthday.people book) ->
  forallb Birthday.plain (Birthday.people book) = true ->
  exists loaded,
    ET.reread (Birthday.save_tree book) = Some (Birthday.save_tree book)
    /\ Birthday.load current_year (Birthday.mkBirthdayBook []) filename
         (ET.Tree (Birthday.save_tree book))
       = (loaded,
          Py.Return (Z.of_nat (List.length (Birthday.people book)), 0))
    /\ Permutation (Birthday.people loaded) (Birthday.people book)
    /\ Birthday.sorted loaded
    /\ (loaded = book <-> Birthday.sorted book).
Proof.
  destruct book as [l]. cbn [Birthday.people]. intros Hv Hp.
  exists (Birthday.mkBirthdayBook
            (Py.stable_sort Birthday.sort_key Birthday.key_lt l)).
  assert (Hs : Birthday.sorted
                 (Birthday.mkBirthdayBook
                    (Py.stable_sort Birthday.sort_key Birthday.key_lt l))).
  { unfold Birthday.sorted. cbn [Birthday.people].
    apply stable_sort_sorted;
      [apply birthday_key_lt_asym | apply birthday_key_lt_negtrans|].
    apply birthday_pairwise_comparable.
    now apply birthday_plain_has_key. }
  split.
  { unfold Birthday.save_tree. cbn [Birthday.people]. apply root_reread.
    apply Forall_forall. intros p Hin.
    apply (birthday_person_element_reread law).
    rewrite forallb_forall in Hp. now apply Hp. }
  split; [now apply birthday_round_trip_sorts|].
  split; [apply stable_sort_perm|]. split; [exact Hs|]. split.
  - intros H. now rewrite <- H.
  - intros H. f_equal. now apply sorted_stable_sort.
Qed.

Lemma round_trip_sorts_witness :
  (exists loaded,
     ET.reread (Birthday.save_tree (B := Ascii_builtins.builtins)
                  Examples.book_with_people)
     = Some (Birthday.save_tree (B := Ascii_builtins.builtins)
               Examples.book_with_people)
     /\ Birthday.load (B := Ascii_builtins.builtins) 2024
          (Birthday.mkBirthdayBook []) "birthdays.xml"
          (ET.Tree (Birthday.save_tree (B := Ascii_builtins.builtins)
                      Examples.book_with_people))
        = (loaded, Py.Return (5, 0))
     /\ Permutation (Birthday.people loaded)
          (Birthday.people Examples.book_with_people)
     /\ Birthday.sorted (B := Ascii_builtins.builtins) loaded
     /\ (loaded = Examples.book_with_people
         <-> Birthday.sorted (B := Ascii_builtins.builtins)
               Examples.book_with_people))
  /\ Birthday.load (B := Ascii_builtins.builtins) 2024
       (Birthday.mkBirthdayBook []) "birthdays.xml"
       (ET.Tree (Birthday.save_tree (B := Ascii_builtins.builtins)
                   Examples.book_with_people))
     = (Birthday.mkBirthdayBook
          [Examples.ivanov; Examples.kozlova; Examples.mikhailov;
           Examples.petrova; Examples.sidorov],
        Py.Return (5, 0))
  /\ nth_error [Examples.ivanov; Examples.kozlova; Examples.mikhailov;
                Examples.petrova; Examples.sidorov] 1
     <> nth_error (Birthday.people Examples.book_with_people) 1.
Proof.
  split; [|split; [reflexivity | discriminate]].
  apply (round_trip_sorts ascii_builtins_law 2024 "birthdays.xml"
           Examples.book_with_people).
  - repeat constructor.
  - reflexivity.
Defined.
